(** * Email verification aggregation: a shallow embedding

    The development follows [email_verification_manager.py] and the five
    provider adapters under [services/].  Python values (the result
    dictionaries, the JSON payloads of the providers) are embedded as one
    inductive type; dictionaries are association lists in insertion order,
    as Python dictionaries are; the database and the network are an
    explicit world threaded through a small state monad.

    Python floats are IEEE 754 binary64 numbers; they are embedded as
    primitive floats, so that sums and quotients round as they do in the
    interpreter. *)

From Stdlib Require Import List String Bool Arith ZArith QArith.
From Stdlib Require Import Lia Permutation.
From Stdlib Require Import Floats.
Import ListNotations.

Local Open Scope nat_scope.
Local Open Scope string_scope.
Local Open Scope list_scope.

(** ** Python values *)

#[local] Set Warnings "-register-all".
#[local] Set Warnings "-inexact-float".

Inductive pyval : Type :=
| VNone
| VBool (b : bool)
| VInt (z : Z)
| VFloat (x : float)
| VStr (s : string)
| VList (l : list pyval)
| VDict (d : list (string * pyval)).

(** A dictionary with string keys, in insertion order. *)
Definition pydict : Type := list (string * pyval).

Module Dict.

Fixpoint lookup (k : string) (d : pydict) : option pyval :=
  match d with
  | [] => None
  | (k', v) :: d' => if String.eqb k k' then Some v else lookup k d'
  end.

(** [k in d] *)
Definition contains (k : string) (d : pydict) : bool :=
  match lookup k d with Some _ => true | None => false end.

(** [d.get(k, dflt)] *)
Definition get_default (d : pydict) (k : string) (dflt : pyval) : pyval :=
  match lookup k d with Some v => v | None => dflt end.

(** [d.get(k)] *)
Definition get (d : pydict) (k : string) : pyval := get_default d k VNone.

(** [d[k] = v]: an existing key keeps its position, a new key goes last. *)
Fixpoint setitem (k : string) (v : pyval) (d : pydict) : pydict :=
  match d with
  | [] => [(k, v)]
  | (k', v') :: d' =>
      if String.eqb k k' then (k, v) :: d' else (k', v') :: setitem k v d'
  end.

Definition keys (d : pydict) : list string := map fst d.

(** [len(d)] *)
Definition len (d : pydict) : nat := List.length d.

End Dict.

(** Truth value of a Python object, as tested by [if x:] and [not x]. *)
Definition truthy (v : pyval) : bool :=
  match v with
  | VNone => false
  | VBool b => b
  | VInt z => negb (Z.eqb z 0)
  | VFloat x => negb (PrimFloat.eqb x 0)
  | VStr s => negb (String.eqb s "")
  | VList l => match l with [] => false | _ :: _ => true end
  | VDict d => match d with [] => false | _ :: _ => true end
  end.

(** [not x] *)
Definition py_not (v : pyval) : pyval := VBool (negb (truthy v)).

(** [x is not None] *)
Definition is_not_None (v : pyval) : bool :=
  match v with VNone => false | _ => true end.

(** [v == s] for a string literal [s]. *)
Definition eq_str (s : string) (v : pyval) : bool :=
  match v with VStr t => String.eqb s t | _ => false end.

(** [a or b] on optional strings ([None] and [""] are false). *)
Definition str_or (a b : option string) : option string :=
  match a with
  | Some s => if String.eqb s "" then b else a
  | None => b
  end.

(** [if not self.api_key] negated: the attribute holds a non-empty string. *)
Definition configured (k : option string) : bool :=
  match k with
  | Some s => negb (String.eqb s "")
  | None => false
  end.

(** ** Exceptions *)

Inductive pyexn : Type :=
| RequestError (msg : string)
    (* raised by requests.get/post, raise_for_status or response.json() *)
| AttributeError (v : pyval) (attr : string)
| TypeError (v : pyval)
| OverflowError (v : pyval)
| KeyError (k : string)
| PlainException (arg : pyval)        (* raise Exception(arg) *)
| OtherError (msg : string).

(** What a call produces: a value, or an exception that leaves it. *)
Inductive outcome (A : Type) : Type :=
| Returned (a : A)
| Raised (e : pyexn).
Arguments Returned {A} a.
Arguments Raised {A} e.

(** Evaluation of an expression that may raise. *)
Definition exc (A : Type) : Type := (pyexn + A)%type.

Definition exc_bind {A B : Type} (c : exc A) (k : A -> exc B) : exc B :=
  match c with
  | inl e => inl e
  | inr a => k a
  end.

Declare Scope exc_scope.
Delimit Scope exc_scope with exc.
Notation "x <- c ;; k" := (exc_bind c (fun x => k))
  (at level 100, c at next level, right associativity) : exc_scope.

(** [float(z)] for an int: the binary64 number nearest to it, ties to
    even, and infinity where the interpreter raises [OverflowError]. *)
Definition float_of_Z (z : Z) : spec_float := binary_normalize prec emax z 0 false.

(** The same for a number of items, which is always within range. *)
Definition float_of_nat (n : nat) : float := SF2Prim (float_of_Z (Z.of_nat n)).

(** The float that [total += v] adds to a float [total].  [bool] is a
    subclass of [int]; an int is converted, which raises [OverflowError]
    when it is too large for a float; a value that is no number makes the
    addition raise [TypeError]. *)
Definition number_of (v : pyval) : exc float :=
  match v with
  | VBool b => inr (if b then 1 else 0)%float
  | VInt z =>
      match float_of_Z z with
      | S754_infinity _ => inl (OverflowError v)
      | x => inr (SF2Prim x)
      end
  | VFloat x => inr x
  | _ => inl (TypeError v)
  end.

(** [needle in v] for a string [needle]. *)
Definition substring_of (needle s : string) : bool :=
  match String.index 0 needle s with Some _ => true | None => false end.

Definition py_in (needle : string) (v : pyval) : exc bool :=
  match v with
  | VDict d => inr (Dict.contains needle d)
  | VList l => inr (existsb (eq_str needle) l)
  | VStr s => inr (substring_of needle s)
  | _ => inl (TypeError v)
  end.

(** [v[k]] for a string key [k]. *)
Definition py_getitem (v : pyval) (k : string) : exc pyval :=
  match v with
  | VDict d =>
      match Dict.lookup k d with
      | Some x => inr x
      | None => inl (KeyError k)
      end
  | _ => inl (TypeError v)
  end.

(** [v.get(k, dflt)]: only a dictionary has the method. *)
Definition py_get (v : pyval) (k : string) (dflt : pyval) : exc pyval :=
  match v with
  | VDict d => inr (Dict.get_default d k dflt)
  | _ => inl (AttributeError v "get")
  end.

(** ** The world: database rows, network traffic, clock *)

(** The arguments [_store_verification_result] gives to the
    [EmailVerification] constructor.  The columns the database layer fills
    in by itself ([id], [verification_date]) are not part of it. *)
Record EmailVerification : Type := {
  ev_email : pyval;
  ev_is_valid : pyval;
  ev_score : pyval;
  ev_provider : pyval;
  ev_details : pyval
}.

Record request : Type := {
  req_method : string;
  req_url : string;
  req_params : pydict;
  req_headers : pydict;
  req_json : pyval
}.

(** The answer to an HTTP call: [Failed e] when [requests.get]/[post],
    [raise_for_status] or [response.json()] raises, else the decoded body. *)
Inductive response : Type :=
| Failed (e : pyexn)
| Json (data : pyval).

(** What the adapters touch: the network and the passing of time. *)
Record network : Type := {
  sent : list request;              (* HTTP requests issued so far *)
  clock : nat                       (* number of observations of the outside *)
}.

(** What the manager touches: the table [email_verification] (oldest row
    first) as well. *)
Record world : Type := {
  db : list EmailVerification;
  net : network
}.

(** Everything the program observes and does not decide. *)
Record Env : Type := {
  getenv : string -> option string;                 (* os.getenv *)
  http : nat -> request -> response;                (* the providers *)
  latency : nat -> string -> nat;                   (* when each task finishes *)
  commit_ok : list EmailVerification -> EmailVerification -> bool;
                                                    (* does the insert succeed *)
  utcnow : nat -> string;                           (* datetime.utcnow().isoformat() *)
  str_exc : pyexn -> string                         (* str(e) *)
}.

(** State monad. *)
Definition St (S A : Type) : Type := S -> A * S.

Definition ret {S A : Type} (a : A) : St S A := fun s => (a, s).

Definition bind {S A B : Type} (c : St S A) (k : A -> St S B) : St S B :=
  fun s => let (a, s') := c s in k a s'.

Declare Scope m_scope.
Delimit Scope m_scope with m.
Notation "x <- c ;; k" := (bind c (fun x => k))
  (at level 100, c at next level, right associativity) : m_scope.
Notation "c ;;; k" := (bind c (fun _ => k))
  (at level 100, right associativity) : m_scope.

(** Code of the adapters runs in [IO], code of the manager in [M]. *)
Definition IO : Type -> Type := St network.
Definition M : Type -> Type := St world.

Definition lift {A : Type} (c : IO A) : M A :=
  fun w => let (a, n) := c (net w) in (a, {| db := db w; net := n |}).

(** [requests.get(...)] / [requests.post(...)], [raise_for_status()] and
    [.json()] taken together: one request goes out, one answer comes back. *)
Definition requests_call (env : Env) (r : request) : IO response :=
  fun n =>
    (http env (clock n) r, {| sent := sent n ++ [r]; clock := S (clock n) |}).

Definition read_clock (env : Env) : IO string :=
  fun n => (utcnow env (clock n), {| sent := sent n; clock := S (clock n) |}).

Definition GET (url : string) (params headers : pydict) : request :=
  {| req_method := "GET"; req_url := url; req_params := params;
     req_headers := headers; req_json := VNone |}.

Definition POST (url : string) (headers : pydict) (body : pyval) : request :=
  {| req_method := "POST"; req_url := url; req_params := [];
     req_headers := headers; req_json := body |}.

Fixpoint mapM {S A B : Type} (f : A -> St S B) (l : list A) : St S (list B) :=
  match l with
  | [] => ret []
  | a :: l' => (b <- f a ;; bs <- mapM f l' ;; ret (b :: bs))%m
  end.

(** [sum(1 for factor in score_factors if factor) / len(score_factors)]:
    the quotient of two ints is the float nearest to it.  Both ints are
    lengths of short lists here (the second list is a literal of five or
    six items) and convert to floats exactly, so the quotient is the one
    of the two floats. *)
Definition passed_fraction (score_factors : list pyval) : pyval :=
  VFloat (PrimFloat.div
            (float_of_nat (List.length (filter truthy score_factors)))
            (float_of_nat (List.length score_factors))).

(** The string held by a true [api_key] attribute. *)
Definition key_of (k : option string) : option string :=
  match k with
  | Some s => if String.eqb s "" then None else Some s
  | None => None
  end.

(** ** The provider adapters *)

Module ZeroBounce.
Section Adapter.
Variable env : Env.

Definition base_url : string := "https://api.zerobounce.net/v2".

Definition failure (email msg : string) : pydict :=
  [("email", VStr email); ("is_valid", VNone); ("error", VStr msg);
   ("provider", VStr "zerobounce")].

(** The body of the [try] block once the payload is decoded. *)
Definition interpret (email : string) (data : pyval) : exc pydict :=
  (status <- py_get data "status" VNone ;;
   let is_valid := eq_str "valid" status in
   inr [("email", VStr email); ("is_valid", VBool is_valid);
        ("score", VFloat (if is_valid then 1 else 0));
        ("provider", VStr "zerobounce"); ("details", data)])%exc.

Definition verify_email (api_key : option string) (email : string) : IO pydict :=
  match key_of api_key with
  | None => ret (failure email "API key not provided")
  | Some key =>
      let endpoint := (base_url ++ "/validate")%string in
      let params := [("api_key", VStr key); ("email", VStr email);
                     ("ip_address", VStr "")] in
      (resp <- requests_call env (GET endpoint params []) ;;
       ret match resp with
           | Failed e => failure email (str_exc env e)
           | Json data =>
               match interpret email data with
               | inr result => result
               | inl e => failure email (str_exc env e)
               end
           end)%m
  end.

Definition bulk_verify (api_key : option string) (emails : list string) : IO pyval :=
  match key_of api_key with
  | None => ret (VDict [("error", VStr "API key not provided")])
  | Some key =>
      let endpoint := (base_url ++ "/bulkvalidation")%string in
      let data := VDict [("api_key", VStr key);
                         ("email_batch", VList (map VStr emails))] in
      (resp <- requests_call env (POST endpoint [] data) ;;
       ret match resp with
           | Failed e => VDict [("error", VStr (str_exc env e))]
           | Json body => body
           end)%m
  end.
Definition get_credits (api_key : option string) : IO pyval :=
  match key_of api_key with
  | None => ret (VDict [("error", VStr "API key not provided")])
  | Some key =>
      let endpoint := (base_url ++ "/getcredits")%string in
      let params := [("api_key", VStr key)] in
      (resp <- requests_call env (GET endpoint params []) ;;
       ret match resp with
           | Failed e => VDict [("error", VStr (str_exc env e))]
           | Json body => body
           end)%m
  end.

Definition check_bulk_status (api_key : option string) (file_id : string)
  : IO pyval :=
  match key_of api_key with
  | None => ret (VDict [("error", VStr "API key not provided")])
  | Some key =>
      let endpoint := (base_url ++ "/getfile")%string in
      let params := [("api_key", VStr key); ("file_id", VStr file_id)] in
      (resp <- requests_call env (GET endpoint params []) ;;
       ret match resp with
           | Failed e => VDict [("error", VStr (str_exc env e))]
           | Json body => body
           end)%m
  end.
End Adapter.
End ZeroBounce.

Module MailboxLayer.
Section Adapter.
Variable env : Env.

Definition base_url : string := "https://api.mailboxlayer.com".

Definition failure (email msg : string) : pydict :=
  [("email", VStr email); ("is_valid", VNone); ("error", VStr msg);
   ("provider", VStr "mailboxlayer")].

Definition interpret (email : string) (data : pyval) : exc pydict :=
  (has_error <- py_in "error" data ;;
   if has_error : bool then
     err <- py_getitem data "error" ;;
     info <- py_getitem err "info" ;;
     inl (PlainException info)
   else
     format_valid <- py_get data "format_valid" (VBool false) ;;
     mx_found <- py_get data "mx_found" (VBool false) ;;
     smtp_check <- py_get data "smtp_check" (VBool false) ;;
     let is_valid := forallb truthy [format_valid; mx_found; smtp_check] in
     disposable <- py_get data "disposable" (VBool true) ;;
     has_free <- py_in "free" data ;;
     not_free <- (if has_free : bool
                  then free <- py_get data "free" (VBool true) ;; inr (py_not free)
                  else inr (VBool true)) ;;
     let score_factors :=
       [format_valid; mx_found; smtp_check; py_not disposable; not_free] in
     let score := passed_fraction score_factors in
     inr [("email", VStr email); ("is_valid", VBool is_valid);
          ("score", score); ("provider", VStr "mailboxlayer");
          ("details", data)])%exc.

Definition verify_email (api_key : option string) (email : string) : IO pydict :=
  match key_of api_key with
  | None => ret (failure email "API key not provided")
  | Some key =>
      let endpoint := (base_url ++ "/check")%string in
      let params := [("access_key", VStr key); ("email", VStr email);
                     ("smtp", VInt 1); ("format", VInt 1)] in
      (resp <- requests_call env (GET endpoint params []) ;;
       ret match resp with
           | Failed e => failure email (str_exc env e)
           | Json data =>
               match interpret email data with
               | inr result => result
               | inl e => failure email (str_exc env e)
               end
           end)%m
  end.

Definition bulk_verify (api_key : option string) (emails : list string) : IO pyval :=
  match key_of api_key with
  | None => ret (VDict [("error", VStr "API key not provided")])
  | Some _ =>
      (results <- mapM (verify_email api_key) emails ;;
       ret (VDict [("results", VList (map VDict results))]))%m
  end.
End Adapter.
End MailboxLayer.

Module NeutrinoAPI.
Section Adapter.
Variable env : Env.

Definition base_url : string := "https://neutrinoapi.net".

Definition failure (email msg : string) : pydict :=
  [("email", VStr email); ("is_valid", VNone); ("error", VStr msg);
   ("provider", VStr "neutrinoapi")].

Definition interpret (email : string) (result : pyval) : exc pydict :=
  (is_valid <- py_get result "valid" (VBool false) ;;
   valid <- py_get result "valid" (VBool false) ;;
   syntax_valid <- py_get result "syntax.valid" (VBool false) ;;
   disposable <- py_get result "disposable" (VBool true) ;;
   domain_exists <- py_get result "domain.exists" (VBool false) ;;
   domain_has_mx <- py_get result "domain.has-mx" (VBool false) ;;
   has_freemail <- py_in "is-freemail" result ;;
   not_freemail <- (if has_freemail : bool
                    then freemail <- py_get result "is-freemail" (VBool true) ;;
                         inr (py_not freemail)
                    else inr (VBool true)) ;;
   let score_factors :=
     [valid; syntax_valid; py_not disposable; domain_exists; domain_has_mx;
      not_freemail] in
   let score := passed_fraction score_factors in
   inr [("email", VStr email); ("is_valid", is_valid); ("score", score);
        ("provider", VStr "neutrinoapi"); ("details", result)])%exc.

Definition verify_email (user_id api_key : option string) (email : string)
  : IO pydict :=
  match key_of api_key, key_of user_id with
  | Some key, Some uid =>
      let endpoint := (base_url ++ "/email-validate")%string in
      let headers := [("User-ID", VStr uid); ("API-Key", VStr key);
                      ("Content-Type", VStr "application/json")] in
      let data := VDict [("email", VStr email)] in
      (resp <- requests_call env (POST endpoint headers data) ;;
       ret match resp with
           | Failed e => failure email (str_exc env e)
           | Json result =>
               match interpret email result with
               | inr r => r
               | inl e => failure email (str_exc env e)
               end
           end)%m
  | _, _ => ret (failure email "API credentials not provided")
  end.

Definition bulk_verify (user_id api_key : option string) (emails : list string)
  : IO pyval :=
  match key_of api_key, key_of user_id with
  | Some _, Some _ =>
      (results <- mapM (verify_email user_id api_key) emails ;;
       ret (VDict [("results", VList (map VDict results))]))%m
  | _, _ => ret (VDict [("error", VStr "API credentials not provided")])
  end.
Definition email_validation_and_verification (user_id api_key : option string)
           (email : string) : IO pydict :=
  verify_email user_id api_key email.
End Adapter.
End NeutrinoAPI.

Module Spokeo.
Section Adapter.
Variable env : Env.

Definition base_url : string := "https://www.spokeo.com/api".

Definition failure (email msg : string) : pydict :=
  [("email", VStr email); ("is_valid", VNone); ("error", VStr msg);
   ("provider", VStr "spokeo")].

(** No step of this [try] body can raise: [isinstance] guards the
    lookups. *)
Definition interpret (email : string) (data : pyval) : pydict :=
  let is_valid :=
    match data with
    | VDict d => Dict.get_default d "found" (VBool false)
    | _ => VBool false
    end in
  [("email", VStr email); ("is_valid", is_valid);
   ("score", VFloat (if truthy is_valid then 1 else 0));
   ("provider", VStr "spokeo");
   ("details", match data with VDict _ => data | _ => VDict [] end)].

Definition verify_email (api_key : option string) (email : string) : IO pydict :=
  match key_of api_key with
  | None => ret (failure email "API key not provided")
  | Some key =>
      let endpoint := (base_url ++ "/search/email")%string in
      let headers := [("Authorization", VStr ("Bearer " ++ key))] in
      let params := [("email", VStr email)] in
      (resp <- requests_call env (GET endpoint params headers) ;;
       ret match resp with
           | Failed e => failure email (str_exc env e)
           | Json data => interpret email data
           end)%m
  end.

Definition bulk_verify (api_key : option string) (emails : list string) : IO pyval :=
  match key_of api_key with
  | None => ret (VDict [("error", VStr "API key not provided")])
  | Some _ =>
      (results <- mapM (verify_email api_key) emails ;;
       ret (VDict [("results", VList (map VDict results))]))%m
  end.
Definition get_person_info (api_key : option string) (email : string)
  : IO pydict :=
  match key_of api_key with
  | None => ret [("error", VStr "API key not provided")]
  | Some key =>
      let endpoint := (base_url ++ "/people")%string in
      let headers := [("Authorization", VStr ("Bearer " ++ key))] in
      let params := [("email", VStr email)] in
      (resp <- requests_call env (GET endpoint params headers) ;;
       ret match resp with
           | Failed e =>
               [("email", VStr email); ("error", VStr (str_exc env e));
                ("provider", VStr "spokeo")]
           | Json data =>
               [("email", VStr email); ("provider", VStr "spokeo");
                ("person_info", data)]
           end)%m
  end.
End Adapter.
End Spokeo.

Module Hunter.
Section Adapter.
Variable env : Env.

Definition base_url : string := "https://api.hunter.io/v2".

Definition failure (email msg : string) : pydict :=
  [("email", VStr email); ("is_valid", VNone); ("error", VStr msg);
   ("provider", VStr "hunter")].

(** [body] is [response.json()]. *)
Definition interpret (email : string) (body : pyval) : exc pydict :=
  (data <- py_get body "data" (VDict []) ;;
   status <- py_get data "status" VNone ;;
   let is_valid := eq_str "valid" status || eq_str "webmail" status in
   hunter_score <- py_get data "score" (VInt 0) ;;
   inr [("email", VStr email); ("is_valid", VBool is_valid);
        ("score", hunter_score); ("provider", VStr "hunter");
        ("details", data)])%exc.

Definition verify_email (api_key : option string) (email : string) : IO pydict :=
  match key_of api_key with
  | None => ret (failure email "API key not provided")
  | Some key =>
      let endpoint := (base_url ++ "/email-verifier")%string in
      let params := [("email", VStr email); ("api_key", VStr key)] in
      (resp <- requests_call env (GET endpoint params []) ;;
       ret match resp with
           | Failed e => failure email (str_exc env e)
           | Json body =>
               match interpret email body with
               | inr result => result
               | inl e => failure email (str_exc env e)
               end
           end)%m
  end.

Definition bulk_verify (api_key : option string) (emails : list string) : IO pyval :=
  match key_of api_key with
  | None => ret (VDict [("error", VStr "API key not provided")])
  | Some key =>
      let endpoint := (base_url ++ "/bulks/verification")%string in
      let headers := [("Authorization", VStr ("Bearer " ++ key))] in
      (resp <- requests_call env (POST endpoint headers VNone) ;;
       ret match resp with
           | Failed e => VDict [("error", VStr (str_exc env e))]
           | Json body => body
           end)%m
  end.
(** [if value: params[name] = value] for an optional argument. *)
Definition add_param (name : string) (value : option string) (params : pydict)
  : pydict :=
  match key_of value with
  | Some v => Dict.setitem name (VStr v) params
  | None => params
  end.

(** [response.json().get("data", {})], or the error dictionary of the
    [except] clause. *)
Definition data_of (resp : response) : pyval :=
  match resp with
  | Failed e => VDict [("error", VStr (str_exc env e))]
  | Json body =>
      match py_get body "data" (VDict []) with
      | inr data => data
      | inl e => VDict [("error", VStr (str_exc env e))]
      end
  end.

Definition email_finder (api_key : option string) (domain : string)
           (first_name last_name company : option string) : IO pyval :=
  match key_of api_key with
  | None => ret (VDict [("error", VStr "API key not provided")])
  | Some key =>
      let endpoint := (base_url ++ "/email-finder")%string in
      let params := [("domain", VStr domain); ("api_key", VStr key)] in
      let params := add_param "first_name" first_name params in
      let params := add_param "last_name" last_name params in
      let params := add_param "company" company params in
      (resp <- requests_call env (GET endpoint params []) ;;
       ret (data_of resp))%m
  end.

Definition domain_search (api_key : option string) (domain : string) (limit : Z)
  : IO pyval :=
  match key_of api_key with
  | None => ret (VDict [("error", VStr "API key not provided")])
  | Some key =>
      let endpoint := (base_url ++ "/domain-search")%string in
      let params := [("domain", VStr domain); ("limit", VInt limit);
                     ("api_key", VStr key)] in
      (resp <- requests_call env (GET endpoint params []) ;;
       ret (data_of resp))%m
  end.
End Adapter.
End Hunter.

(** ** The service interface

    The manager reaches a service through three names only: the attribute
    [api_key] and the methods [verify_email] and [bulk_verify].  [NoAttr]
    is what [hasattr] answers [False] to. *)

Inductive attr (A : Type) : Type :=
| NoAttr
| Attr (a : A).
Arguments NoAttr {A}.
Arguments Attr {A} a.

Record Service : Type := {
  svc_api_key : attr (option string);
  svc_verify_email : string -> IO (outcome pydict);
  svc_bulk_verify : attr (list string -> IO (outcome pyval))
}.

(** [hasattr(service, 'api_key') and service.api_key] *)
Definition has_api_key (s : Service) : bool :=
  match svc_api_key s with
  | Attr k => configured k
  | NoAttr => false
  end.

(** The five classes of [services/], by the attributes [__init__] sets. *)
Inductive adapter : Type :=
| ZeroBounceService (api_key : option string)
| MailboxLayerService (api_key : option string)
| NeutrinoAPIService (user_id api_key : option string)
| SpokeoService (api_key : option string)
| HunterService (api_key : option string).

Module Adapter.
Section Adapter.
Variable env : Env.

(** [__init__]: the argument, else the environment variable. *)
Definition new_ZeroBounceService (api_key : option string) : adapter :=
  ZeroBounceService (str_or api_key (getenv env "ZEROBOUNCE_API_KEY")).
Definition new_MailboxLayerService (api_key : option string) : adapter :=
  MailboxLayerService (str_or api_key (getenv env "MAILBOXLAYER_API_KEY")).
Definition new_NeutrinoAPIService (user_id api_key : option string) : adapter :=
  NeutrinoAPIService (str_or user_id (getenv env "NEUTRINOAPI_USER_ID"))
                     (str_or api_key (getenv env "NEUTRINOAPI_API_KEY")).
Definition new_SpokeoService (api_key : option string) : adapter :=
  SpokeoService (str_or api_key (getenv env "SPOKEO_API_KEY")).
Definition new_HunterService (api_key : option string) : adapter :=
  HunterService (str_or api_key (getenv env "HUNTER_API_KEY")).

Definition api_key (a : adapter) : option string :=
  match a with
  | ZeroBounceService k | MailboxLayerService k | NeutrinoAPIService _ k
  | SpokeoService k | HunterService k => k
  end.

(** The name the adapter writes into ["provider"]. *)
Definition provider (a : adapter) : string :=
  match a with
  | ZeroBounceService _ => "zerobounce"
  | MailboxLayerService _ => "mailboxlayer"
  | NeutrinoAPIService _ _ => "neutrinoapi"
  | SpokeoService _ => "spokeo"
  | HunterService _ => "hunter"
  end.

(** The test at the head of each [verify_email]. *)
Definition has_credentials (a : adapter) : bool :=
  match a with
  | NeutrinoAPIService u k => configured k && configured u
  | _ => configured (api_key a)
  end.

Definition verify_email (a : adapter) (email : string) : IO pydict :=
  match a with
  | ZeroBounceService k => ZeroBounce.verify_email env k email
  | MailboxLayerService k => MailboxLayer.verify_email env k email
  | NeutrinoAPIService u k => NeutrinoAPI.verify_email env u k email
  | SpokeoService k => Spokeo.verify_email env k email
  | HunterService k => Hunter.verify_email env k email
  end.

Definition bulk_verify (a : adapter) (emails : list string) : IO pyval :=
  match a with
  | ZeroBounceService k => ZeroBounce.bulk_verify env k emails
  | MailboxLayerService k => MailboxLayer.bulk_verify env k emails
  | NeutrinoAPIService u k => NeutrinoAPI.bulk_verify env u k emails
  | SpokeoService k => Spokeo.bulk_verify env k emails
  | HunterService k => Hunter.bulk_verify env k emails
  end.

(** An adapter seen through the interface.  Every exception is caught
    inside the adapter, so its methods always return. *)
Definition service (a : adapter) : Service :=
  {| svc_api_key := Attr (api_key a);
     svc_verify_email := fun email =>
       (r <- verify_email a email ;; ret (Returned r))%m;
     svc_bulk_verify := Attr (fun emails =>
       (r <- bulk_verify a emails ;; ret (Returned r))%m) |}.
End Adapter.
End Adapter.

(** ** The manager *)

(** [self.services]: a dictionary from name to service. *)
Definition registry : Type := list (string * Service).

Fixpoint find_service (name : string) (services : registry) : option Service :=
  match services with
  | [] => None
  | (n, s) :: rest => if String.eqb name n then Some s else find_service name rest
  end.

(** Futures in the order they complete: a stable insertion sort by the
    finishing time of each task. *)
Fixpoint insert_by {A : Type} (t : A -> nat) (x : A) (l : list A) : list A :=
  match l with
  | [] => [x]
  | y :: l' => if Nat.leb (t x) (t y) then x :: l else y :: insert_by t x l'
  end.

Fixpoint sort_by {A : Type} (t : A -> nat) (l : list A) : list A :=
  match l with
  | [] => []
  | x :: l' => insert_by t x (sort_by t l')
  end.

(** The local variables of the aggregation loop. *)
Record tally : Type := {
  results : pydict;
  valid_count : nat;
  total_score : float;
  service_count : nat
}.

(** A loop whose body may raise: the first exception leaves the loop. *)
Fixpoint for_each {A B : Type} (f : A -> M (outcome B)) (l : list A)
  : M (outcome (list B)) :=
  match l with
  | [] => ret (Returned [])
  | a :: l' =>
      (o <- f a ;;
       match o with
       | Raised e => ret (Raised e)
       | Returned b =>
           os <- for_each f l' ;;
           match os with
           | Raised e => ret (Raised e)
           | Returned bs => ret (Returned (b :: bs))
           end
       end)%m
  end.

Fixpoint foldM {S A B : Type} (f : B -> A -> St S B) (l : list A) (b : B)
  : St S B :=
  match l with
  | [] => ret b
  | a :: l' => (b' <- f b a ;; foldM f l' b')%m
  end.

Module Manager.
Section Manager.
Variable env : Env.

(** [__init__]: the five adapters, built without arguments. *)
Definition adapters : list (string * adapter) :=
  [("zerobounce", Adapter.new_ZeroBounceService env None);
   ("mailboxlayer", Adapter.new_MailboxLayerService env None);
   ("neutrinoapi", Adapter.new_NeutrinoAPIService env None None);
   ("spokeo", Adapter.new_SpokeoService env None);
   ("hunter", Adapter.new_HunterService env None)].

Definition init : registry :=
  map (fun item => (fst item, Adapter.service env (snd item))) adapters.

Variable services : registry.

(** The items of [self.services] that hold a key, in dictionary order. *)
Definition enabled : registry :=
  filter (fun item => has_api_key (snd item)) services.

Definition get_available_services : list string := map fst enabled.

Definition _store_verification_result (result : pydict) : M unit :=
  if negb (truthy (VDict result)) || negb (Dict.contains "email" result)
  then ret tt
  else fun w =>
    let verification :=
      {| ev_email := Dict.get result "email";
         ev_is_valid := Dict.get result "is_valid";
         ev_score := Dict.get result "score";
         ev_provider := Dict.get result "provider";
         ev_details := Dict.get result "details" |} in
    if commit_ok env (db w) verification
    then (tt, {| db := db w ++ [verification]; net := net w |})
    else (tt, w).      (* the exception is logged and dropped *)

(** The entry the [except] clause of the loop writes. *)
Definition task_error (email service_name : string) (e : pyexn) : pydict :=
  [("email", VStr email); ("error", VStr (str_exc env e));
   ("provider", VStr service_name)].

(** [executor.submit(self.services[name].verify_email, email)] for each
    available name; a key of the dictionary indexes its own item.  The
    tasks touch the network only and the loop that collects them touches
    the table only, so the tasks are run here one after the other, in the
    order they are submitted, before the loop starts. *)
Definition submit_all (email : string)
  : IO (list (string * outcome pydict)) :=
  mapM (fun item : string * Service =>
          (o <- svc_verify_email (snd item) email ;; ret (fst item, o))%m)
       enabled.

Definition as_completed (futures : list (string * outcome pydict))
  : IO (list (string * outcome pydict)) :=
  fun n =>
    (sort_by (fun fut => latency env (clock n) (fst fut)) futures,
     {| sent := sent n; clock := S (clock n) |}).

(** One turn of [for future in as_completed(...)]. *)
Definition collect (email : string) (acc : tally)
           (future : string * outcome pydict) : M tally :=
  let service_name := fst future in
  match snd future with
  | Raised e =>
      ret {| results := Dict.setitem service_name
                          (VDict (task_error email service_name e))
                          (results acc);
             valid_count := valid_count acc;
             total_score := total_score acc;
             service_count := service_count acc |}
  | Returned service_result =>
      let results1 :=
        Dict.setitem service_name (VDict service_result) (results acc) in
      (_store_verification_result service_result ;;;
       let valid_count1 :=
         if truthy (Dict.get service_result "is_valid")
         then S (valid_count acc) else valid_count acc in
       if is_not_None (Dict.get service_result "score") then
         match number_of (Dict.get_default service_result "score" (VFloat 0)) with
         | inr score =>
             ret {| results := results1;
                    valid_count := valid_count1;
                    total_score := PrimFloat.add (total_score acc) score;
                    service_count := S (service_count acc) |}
         | inl e =>
             (* the addition raises: the except clause runs *)
             ret {| results := Dict.setitem service_name
                                 (VDict (task_error email service_name e))
                                 results1;
                    valid_count := valid_count1;
                    total_score := total_score acc;
                    service_count := service_count acc |}
         end
       else
         ret {| results := results1;
                valid_count := valid_count1;
                total_score := total_score acc;
                service_count := service_count acc |})%m
  end.

Definition empty_tally : tally :=
  {| results := []; valid_count := 0; total_score := 0; service_count := 0 |}.

(** [valid_count >= len(available_services) / 2]: half the number of
    services is a float without rounding, and an int is compared with a
    float by value. *)
Definition majority (valid_count available : nat) : bool :=
  Qle_bool (inject_Z (Z.of_nat available) / 2) (inject_Z (Z.of_nat valid_count)).

Definition aggregate (email : string) (available : nat) (acc : tally)
           (date : string) : pydict :=
  let is_valid :=
    if Nat.ltb 0 (valid_count acc)
    then VBool (majority (valid_count acc) available)
    else VNone in
  let aggregate_score :=
    if Nat.ltb 0 (service_count acc)
    then VFloat (PrimFloat.div (total_score acc)
                               (float_of_nat (service_count acc)))
    else VNone in
  [("email", VStr email);
   ("is_valid", is_valid);
   ("score", aggregate_score);
   ("results", VDict (results acc));
   ("verified_by", VInt (Z.of_nat (Dict.len (results acc))));
   ("verification_date", VStr date)].

Definition verify_all (email : string) : M (outcome pydict) :=
  let available_services := get_available_services in
  match available_services with
  | [] =>
      ret (Returned
             [("email", VStr email);
              ("error", VStr "No verification services are configured with API keys");
              ("verified", VBool false)])
  | _ :: _ =>
      (futures <- lift (submit_all email) ;;
       completed <- lift (as_completed futures) ;;
       acc <- foldM (collect email) completed empty_tally ;;
       date <- lift (read_clock env) ;;
       ret (Returned (aggregate email (List.length available_services) acc date)))%m
  end.

Definition verify_email (email : string) (service_name : option string)
  : M (outcome pydict) :=
  match key_of service_name with
  | Some name =>
      match find_service name services with
      | None =>
          ret (Returned
                 [("email", VStr email);
                  ("error", VStr ("Service '" ++ name ++ "' not found"));
                  ("verified", VBool false)])
      | Some service =>
          (o <- lift (svc_verify_email service email) ;;
           match o with
           | Raised e => ret (Raised e)
           | Returned result =>
               _store_verification_result result ;;;
               ret (Returned result)
           end)%m
      end
  | None => verify_all email
  end.

Definition bulk_verify (emails : list string) (service_name : option string)
  : M (outcome pyval) :=
  match emails with
  | [] => ret (Returned (VDict [("error", VStr "No emails provided")]))
  | _ :: _ =>
      match key_of service_name with
      | Some name =>
          match find_service name services with
          | None =>
              ret (Returned
                     (VDict [("error",
                              VStr ("Service '" ++ name ++ "' not found"))]))
          | Some service =>
              match svc_bulk_verify service with
              | Attr bulk => lift (bulk emails)
              | NoAttr =>
                  (rs <- for_each (fun email => lift (svc_verify_email service email))
                                  emails ;;
                   match rs with
                   | Raised e => ret (Raised e)
                   | Returned results =>
                       ret (Returned
                              (VDict [("results", VList (map VDict results))]))
                   end)%m
              end
          end
      | None =>
          (rs <- for_each (fun email => verify_email email None) emails ;;
           match rs with
           | Raised e => ret (Raised e)
           | Returned results =>
               ret (Returned (VDict [("results", VList (map VDict results))]))
           end)%m
      end
  end.
End Manager.
End Manager.

(** ** Reading one aggregate call

    The notions the statements below are phrased in.  A future is a pair
    of the service name and what its task produced. *)

Definition future : Type := (string * outcome pydict)%type.

(** Values picked out of a list by a partial function. *)
Fixpoint pick {A B : Type} (f : A -> option B) (l : list A) : list B :=
  match l with
  | [] => []
  | a :: l' =>
      match f a with
      | Some b => b :: pick f l'
      | None => pick f l'
      end
  end.

(** Sum of floats, accumulated from the left as the loop does: every
    addition rounds. *)
Definition fsum (l : list float) (start : float) : float :=
  fold_left PrimFloat.add l start.

(** The result a task handed back, if it did. *)
Definition returned (fut : future) : option pydict :=
  match snd fut with
  | Returned r => Some r
  | Raised _ => None
  end.

(** The provider's verdict: [is_valid] of its result, unknown when the
    task raised. *)
Definition reported_is_valid (fut : future) : pyval :=
  match snd fut with
  | Returned r => Dict.get r "is_valid"
  | Raised _ => VNone
  end.

(** The provider's score: [score] of its result, absent when the task
    raised. *)
Definition reported_score (fut : future) : pyval :=
  match snd fut with
  | Returned r => Dict.get r "score"
  | Raised _ => VNone
  end.

(** Does the loop count the future as valid. *)
Definition votes (fut : future) : bool := truthy (reported_is_valid fut).

(** The number the loop adds to [total_score] for the future, if any. *)
Definition scored (fut : future) : option float :=
  if is_not_None (reported_score fut)
  then match number_of (reported_score fut) with
       | inr x => Some x
       | inl _ => None
       end
  else None.

(** The row [_store_verification_result] builds from a result. *)
Definition row_of (result : pydict) : EmailVerification :=
  {| ev_email := Dict.get result "email";
     ev_is_valid := Dict.get result "is_valid";
     ev_score := Dict.get result "score";
     ev_provider := Dict.get result "provider";
     ev_details := Dict.get result "details" |}.

(** The table after [_store_verification_result result]. *)
Definition store_db (env : Env) (result : pydict)
           (table : list EmailVerification) : list EmailVerification :=
  if negb (truthy (VDict result)) || negb (Dict.contains "email" result)
  then table
  else if commit_ok env table (row_of result)
       then table ++ [row_of result]
       else table.

Definition persist (env : Env) (stored : list pydict)
           (table : list EmailVerification) : list EmailVerification :=
  fold_left (fun t r => store_db env r t) stored table.

(** What the loop leaves in [results] under the name of a future. *)
Definition entry (env : Env) (email : string) (fut : future) : pydict :=
  match snd fut with
  | Raised e => Manager.task_error env email (fst fut) e
  | Returned r =>
      if is_not_None (reported_score fut)
      then match number_of (reported_score fut) with
           | inr _ => r
           | inl e => Manager.task_error env email (fst fut) e
           end
      else r
  end.

(** The dispatched futures of an aggregate call, in registry order. *)
Definition dispatched (env : Env) (services : registry) (email : string)
           (w : world) : list future :=
  fst (Manager.submit_all services email (net w)).

(** [ceil(n / 2)] *)
Definition ceil_half (n : nat) : nat := Nat.div2 (S n).

(** The loop body as a function on the local variables. *)
Definition tally_step (env : Env) (email : string) (acc : tally) (fut : future)
  : tally :=
  {| results := Dict.setitem (fst fut) (VDict (entry env email fut)) (results acc);
     valid_count := if votes fut then S (valid_count acc) else valid_count acc;
     total_score := match scored fut with
                    | Some x => PrimFloat.add (total_score acc) x
                    | None => total_score acc
                    end;
     service_count := match scored fut with
                      | Some _ => S (service_count acc)
                      | None => service_count acc
                      end |}.

(** The table after the loop body. *)
Definition store_step (env : Env) (table : list EmailVerification) (fut : future)
  : list EmailVerification :=
  match returned fut with
  | Some r => store_db env r table
  | None => table
  end.

(** The futures of an aggregate call in the order they complete. *)
Definition completed (env : Env) (services : registry) (email : string)
           (w : world) : list future :=
  let n1 := snd (Manager.submit_all services email (net w)) in
  sort_by (fun fut : future => latency env (clock n1) (fst fut))
          (dispatched env services email w).

(** The local variables when the loop of an aggregate call ends. *)
Definition final_tally (env : Env) (services : registry) (email : string)
           (w : world) : tally :=
  fold_left (tally_step env email) (completed env services email w)
            Manager.empty_tally.

(** The verdict is one of [True], [False], [None]. *)
Definition tri_state (v : pyval) : Prop :=
  v = VNone \/ exists b : bool, v = VBool b.

(** The verdict is [True]. *)
Definition says_true (fut : future) : bool :=
  match reported_is_valid fut with
  | VBool true => true
  | _ => false
  end.

(** The number an entry of [results] holds as its score, if it holds
    one. *)
Definition entry_score (item : string * pyval) : option float :=
  match snd item with
  | VDict r =>
      if is_not_None (Dict.get r "score")
      then match number_of (Dict.get r "score") with
           | inr x => Some x
           | inl _ => None
           end
      else None
  | _ => None
  end.

(** The score is absent or a number. *)
Definition number_or_none (v : pyval) : Prop :=
  v = VNone \/ exists x : float, number_of v = inr x.

(** A score the dashboard can show: a number between 0 and 1. *)
Definition unit_score (v : pyval) : Prop :=
  exists x : float,
    number_of v = inr x /\ PrimFloat.leb 0 x = true /\ PrimFloat.leb x 1 = true.

(** The error text of an adapter that lacks its credential. *)
Definition missing_credential_message (a : adapter) : string :=
  match a with
  | NeutrinoAPIService _ _ => "API credentials not provided"
  | _ => "API key not provided"
  end.

(** The result of an adapter that lacks its credential. *)
Definition missing_credential_result (a : adapter) (email : string) : pydict :=
  [("email", VStr email); ("is_valid", VNone);
   ("error", VStr (missing_credential_message a));
   ("provider", VStr (Adapter.provider a))].

(** A result that starts with the address it is about. *)
Definition tagged (email : string) (r : pydict) : Prop :=
  exists rest, r = ("email", VStr email) :: rest.

(** A service whose task always returns such a result. *)
Definition answers (s : Service) : Prop :=
  forall (email : string) (n : network),
  exists r n', svc_verify_email s email n = (Returned r, n') /\ tagged email r.

(** ["email"] of each result of a batch. *)
Definition addresses (batch : list pydict) : list pyval :=
  map (fun r => Dict.get r "email") batch.

(** ** The score

    Lines 88, 112 and 129 of the manager: the scores are added to 0.0 in
    the order they arrive and the total is divided by their count.  Both
    operations round to the nearest float. *)

Definition binary64_score (scores : list float) : pyval :=
  match scores with
  | [] => VNone
  | _ :: _ =>
      VFloat (PrimFloat.div (fsum scores 0) (float_of_nat (List.length scores)))
  end.

(** ** Scenarios *)

Definition render (e : pyexn) : string :=
  match e with
  | RequestError msg | OtherError msg => msg
  | AttributeError _ attr => "object has no attribute '" ++ attr ++ "'"
  | TypeError _ => "unsupported operand type"
  | OverflowError _ => "int too large to convert to float"
  | KeyError k => "'" ++ k ++ "'"
  | PlainException (VStr msg) => msg
  | PlainException _ => "Exception"
  end.

(** No credential in the environment, no provider reachable. *)
Definition env_bare : Env :=
  {| getenv := fun _ => None;
     http := fun _ _ => Failed (RequestError "Connection refused");
     latency := fun _ _ => 0;
     commit_ok := fun _ _ => true;
     utcnow := fun _ => "2024-01-01T00:00:00";
     str_exc := render |}.

Definition all_but_neutrino (name : string) : option string :=
  if String.eqb name "NEUTRINOAPI_API_KEY" then None
  else if String.eqb name "NEUTRINOAPI_USER_ID" then None
  else Some "secret".

(** Four adapters hold a key.  ZeroBounce answers "valid", MailboxLayer
    and Spokeo answer invalid, Hunter times out. *)
Definition env_one_of_four : Env :=
  {| getenv := all_but_neutrino;
     http := fun _ r =>
       if String.eqb (req_url r) "https://api.zerobounce.net/v2/validate"
       then Json (VDict [("status", VStr "valid")])
       else if String.eqb (req_url r) "https://api.mailboxlayer.com/check"
       then Json (VDict [("format_valid", VBool true); ("mx_found", VBool false)])
       else if String.eqb (req_url r) "https://www.spokeo.com/api/search/email"
       then Json (VDict [("found", VBool false)])
       else Failed (RequestError "Read timed out");
     latency := fun _ _ => 0;
     commit_ok := fun _ _ => true;
     utcnow := fun _ => "2024-01-01T00:00:00";
     str_exc := render |}.

(** The same, with Spokeo answering "found". *)
Definition env_two_of_four : Env :=
  {| getenv := all_but_neutrino;
     http := fun _ r =>
       if String.eqb (req_url r) "https://api.zerobounce.net/v2/validate"
       then Json (VDict [("status", VStr "valid")])
       else if String.eqb (req_url r) "https://api.mailboxlayer.com/check"
       then Json (VDict [("format_valid", VBool true); ("mx_found", VBool false)])
       else if String.eqb (req_url r) "https://www.spokeo.com/api/search/email"
       then Json (VDict [("found", VBool true)])
       else Failed (RequestError "Read timed out");
     latency := fun _ _ => 0;
     commit_ok := fun _ _ => true;
     utcnow := fun _ => "2024-01-01T00:00:00";
     str_exc := render |}.

(** Four adapters hold a key.  MailboxLayer passes four of its five
    checks (0.8), Hunter reports 0.6, ZeroBounce and Spokeo fail. *)
Definition env_scores : Env :=
  {| getenv := all_but_neutrino;
     http := fun _ r =>
       if String.eqb (req_url r) "https://api.mailboxlayer.com/check"
       then Json (VDict [("format_valid", VBool true); ("mx_found", VBool true);
                         ("smtp_check", VBool true); ("disposable", VBool false);
                         ("free", VBool true)])
       else if String.eqb (req_url r) "https://api.hunter.io/v2/email-verifier"
       then Json (VDict [("data", VDict [("status", VStr "valid");
                                         ("score", VFloat 0.6)])])
       else Failed (RequestError "503 Server Error");
     latency := fun _ name => String.length name;
     commit_ok := fun _ _ => true;
     utcnow := fun _ => "2024-01-01T00:00:00";
     str_exc := render |}.

(** Every adapter holds its credentials.  MailboxLayer passes one of its
    five checks (0.2), NeutrinoAPI four of its six (0.67), Spokeo finds the
    address (1.0); ZeroBounce and Hunter are down.  The tasks finish in
    the order they were submitted. *)
Definition env_three_scores : Env :=
  {| getenv := fun _ => Some "secret";
     http := fun _ r =>
       if String.eqb (req_url r) "https://api.mailboxlayer.com/check"
       then Json (VDict [("format_valid", VBool false)])
       else if String.eqb (req_url r) "https://neutrinoapi.net/email-validate"
       then Json (VDict [("valid", VBool true); ("syntax.valid", VBool true);
                         ("disposable", VBool false)])
       else if String.eqb (req_url r) "https://www.spokeo.com/api/search/email"
       then Json (VDict [("found", VBool true)])
       else Failed (RequestError "503 Server Error");
     latency := fun _ _ => 0;
     commit_ok := fun _ _ => true;
     utcnow := fun _ => "2024-01-01T00:00:00";
     str_exc := render |}.

(** The same providers with the same answers; the tasks of the adapters
    with the shorter names finish first. *)
Definition env_three_scores_reordered : Env :=
  {| getenv := getenv env_three_scores;
     http := http env_three_scores;
     latency := fun _ name => String.length name;
     commit_ok := commit_ok env_three_scores;
     utcnow := utcnow env_three_scores;
     str_exc := str_exc env_three_scores |}.

(** Four adapters hold a key.  MailboxLayer passes four of its five
    checks (0.8), Hunter writes its score as text, ZeroBounce and Spokeo
    fail. *)
Definition env_text_score : Env :=
  {| getenv := all_but_neutrino;
     http := fun _ r =>
       if String.eqb (req_url r) "https://api.mailboxlayer.com/check"
       then Json (VDict [("format_valid", VBool true); ("mx_found", VBool true);
                         ("smtp_check", VBool true); ("disposable", VBool false);
                         ("free", VBool true)])
       else if String.eqb (req_url r) "https://api.hunter.io/v2/email-verifier"
       then Json (VDict [("data", VDict [("status", VStr "valid");
                                         ("score", VStr "95")])])
       else Failed (RequestError "503 Server Error");
     latency := fun _ _ => 0;
     commit_ok := fun _ _ => true;
     utcnow := fun _ => "2024-01-01T00:00:00";
     str_exc := render |}.

(** NeutrinoAPI alone holds its credentials, and the provider writes its
    verdict as a word. *)
Definition env_neutrino_says_no : Env :=
  {| getenv := fun name =>
       if String.eqb name "NEUTRINOAPI_API_KEY" then Some "secret"
       else if String.eqb name "NEUTRINOAPI_USER_ID" then Some "user"
       else None;
     http := fun _ _ => Json (VDict [("valid", VStr "no")]);
     latency := fun _ _ => 0;
     commit_ok := fun _ _ => true;
     utcnow := fun _ => "2024-01-01T00:00:00";
     str_exc := render |}.

(** Hunter holds a key and answers with its own 0-100 confidence score. *)
Definition env_hunter : Env :=
  {| getenv := fun name =>
       if String.eqb name "HUNTER_API_KEY" then Some "secret" else None;
     http := fun _ _ =>
       Json (VDict [("data", VDict [("status", VStr "valid");
                                    ("score", VInt 95)])]);
     latency := fun _ _ => 0;
     commit_ok := fun _ _ => true;
     utcnow := fun _ => "2024-01-01T00:00:00";
     str_exc := render |}.

(** A stand-in for an adapter: it holds a key and its task ends the way
    it is told to. *)
Definition stub (o : outcome pydict) : Service :=
  {| svc_api_key := Attr (Some "secret");
     svc_verify_email := fun _ => ret o;
     svc_bulk_verify := NoAttr |}.

(** Three services; the task of the second one raises. *)
Definition one_raises : registry :=
  [("alpha", stub (Returned [("email", VStr "a@x.com"); ("is_valid", VBool true);
                             ("score", VFloat 1); ("provider", VStr "alpha")]));
   ("beta", stub (Raised (OtherError "worker died")));
   ("gamma", stub (Returned [("email", VStr "a@x.com"); ("is_valid", VNone);
                             ("error", VStr "HTTP 500");
                             ("provider", VStr "gamma")]))].

Definition net0 : network := {| sent := []; clock := 0 |}.
Definition world0 : world := {| db := []; net := net0 |}.

(** ** Further notions *)

(** The request names the address, in its query string or in its body. *)
Definition mentions (email : string) (req : request) : Prop :=
  Dict.get (req_params req) "email" = VStr email
  \/ req_json req = VDict [("email", VStr email)].

(** The network after exactly one more request. *)
Definition one_more (req : request) (n : network) : network :=
  {| sent := sent n ++ [req]; clock := S (clock n) |}.

(** The two dictionaries an adapter's [verify_email] builds. *)
Definition failure_result (provider email msg : string) : pydict :=
  [("email", VStr email); ("is_valid", VNone); ("error", VStr msg);
   ("provider", VStr provider)].

Definition success_result (provider email : string) (is_valid score details : pyval)
  : pydict :=
  [("email", VStr email); ("is_valid", is_valid); ("score", score);
   ("provider", VStr provider); ("details", details)].

(** A payload that is not a JSON object. *)
Definition not_object (data : pyval) : Prop :=
  match data with
  | VDict _ => False
  | _ => True
  end.

(** ** More scenarios *)

(** Every provider is reachable and answers with a JSON array. *)
Definition env_garbled : Env :=
  {| getenv := fun _ => Some "secret";
     http := fun _ _ => Json (VList [VStr "unexpected"]);
     latency := fun _ _ => 0;
     commit_ok := fun _ _ => true;
     utcnow := fun _ => "2024-01-01T00:00:00";
     str_exc := render |}.

(** MailboxLayer rejects the access key: status 200, error payload. *)
Definition env_mailbox_refuses : Env :=
  {| getenv := fun _ => Some "secret";
     http := fun _ _ =>
       Json (VDict [("success", VBool false);
                    ("error", VDict [("code", VInt 101);
                                     ("type", VStr "invalid_access_key");
                                     ("info", VStr "You have not supplied a valid API Access Key.")]);
                    ("format_valid", VBool true)]);
     latency := fun _ _ => 0;
     commit_ok := fun _ _ => true;
     utcnow := fun _ => "2024-01-01T00:00:00";
     str_exc := render |}.


(** The methods of the adapters besides [verify_email] and [bulk_verify],
    each guarded by [if not self.api_key]. *)
Inductive auxiliary : Type :=
| GetCredits                                               (* ZeroBounce *)
| CheckBulkStatus (file_id : string)                       (* ZeroBounce *)
| EmailFinder (domain : string) (first_name last_name company : option string)
                                                           (* Hunter *)
| DomainSearch (domain : string) (limit : Z)               (* Hunter *)
| GetPersonInfo (email : string).                          (* Spokeo *)

Definition call_auxiliary (env : Env) (api_key : option string) (c : auxiliary)
  : IO pyval :=
  match c with
  | GetCredits => ZeroBounce.get_credits env api_key
  | CheckBulkStatus file_id => ZeroBounce.check_bulk_status env api_key file_id
  | EmailFinder domain first_name last_name company =>
      Hunter.email_finder env api_key domain first_name last_name company
  | DomainSearch domain limit => Hunter.domain_search env api_key domain limit
  | GetPersonInfo email =>
      (r <- Spokeo.get_person_info env api_key email ;; ret (VDict r))%m
  end.

(** The same environment with another database behaviour. *)
Definition with_commit (env : Env)
           (c : list EmailVerification -> EmailVerification -> bool) : Env :=
  {| getenv := getenv env; http := http env; latency := latency env;
     commit_ok := c; utcnow := utcnow env; str_exc := str_exc env |}.



(** The adapters of the registry that the manager takes as available. *)
Definition enabled_adapters (env : Env) : list (string * adapter) :=
  filter (fun item => configured (Adapter.api_key (snd item)))
         (Manager.adapters env).

(** Only the NeutrinoAPI key is set; the user id is not. *)
Definition env_neutrino_key_only : Env :=
  {| getenv := fun name =>
       if String.eqb name "NEUTRINOAPI_API_KEY" then Some "secret" else None;
     http := fun _ _ => Json (VDict [("valid", VBool true)]);
     latency := fun _ _ => 0;
     commit_ok := fun _ _ => true;
     utcnow := fun _ => "2024-01-01T00:00:00";
     str_exc := render |}.

(** ** The table of providers ([database.py])

    The columns of [email_verification_services] that
    [add_default_services] sets. *)

Record EmailVerificationService : Type := {
  evs_name : string;
  evs_base_url : string;
  evs_is_active : bool
}.

Definition default_services : list EmailVerificationService :=
  [{| evs_name := "zerobounce";
      evs_base_url := "https://api.zerobounce.net/v2"; evs_is_active := true |};
   {| evs_name := "mailboxlayer";
      evs_base_url := "https://api.mailboxlayer.com"; evs_is_active := true |};
   {| evs_name := "neutrinoapi";
      evs_base_url := "https://neutrinoapi.net/email-validate";
      evs_is_active := true |};
   {| evs_name := "spokeo";
      evs_base_url := "https://api.spokeo.com"; evs_is_active := true |};
   {| evs_name := "hunter";
      evs_base_url := "https://api.hunter.io/v2"; evs_is_active := true |}].

(** [add_default_services] on the rows of the table.  [session_ok]: the
    session opens and the query runs; [commit_succeeds]: the commit does.
    Any exception is logged and leaves the table as it was. *)
Definition add_default_services (session_ok commit_succeeds : bool)
           (table : list EmailVerificationService)
  : list EmailVerificationService :=
  if session_ok then
    match table with
    | _ :: _ => table                       (* services already exist *)
    | [] => if commit_succeeds then table ++ default_services else table
    end
  else table.

(** Hunter answers with a score that is not a number. *)
Definition env_hunter_text_score : Env :=
  {| getenv := fun name =>
       if String.eqb name "HUNTER_API_KEY" then Some "secret" else None;
     http := fun _ _ =>
       Json (VDict [("data", VDict [("status", VStr "valid");
                                    ("score", VStr "high")])]);
     latency := fun _ _ => 0;
     commit_ok := fun _ _ => true;
     utcnow := fun _ => "2024-01-01T00:00:00";
     str_exc := render |}.

(** A service whose task raises. *)
Definition broken_registry : registry :=
  [("alpha", stub (Raised (OtherError "worker died")))].

(** * Properties *)

(** ** Dictionaries *)

Module DictFacts.
Import Dict.

Lemma lookup_not_in (k : string) (d : pydict) :
  ~ In k (keys d) -> lookup k d = None.
Proof.
  induction d as [|[k' v] d IH]; simpl; intros H; [reflexivity|].
  destruct (String.eqb_spec k k') as [->|Hne].
  - exfalso. apply H. now left.
  - apply IH. intros Hin. apply H. now right.
Qed.

Lemma setitem_new (k : string) (v : pyval) (d : pydict) :
  ~ In k (keys d) -> setitem k v d = d ++ [(k, v)].
Proof.
  induction d as [|[k' v'] d IH]; simpl; intros H; [reflexivity|].
  destruct (String.eqb_spec k k') as [->|Hne].
  - exfalso. apply H. now left.
  - rewrite IH; [reflexivity|]. intros Hin. apply H. now right.
Qed.

Lemma setitem_twice (k : string) (v1 v2 : pyval) (d : pydict) :
  setitem k v2 (setitem k v1 d) = setitem k v2 d.
Proof.
  induction d as [|[k' v'] d IH]; simpl.
  - now rewrite String.eqb_refl.
  - destruct (String.eqb_spec k k') as [->|Hne]; simpl.
    + now rewrite String.eqb_refl.
    + destruct (String.eqb_spec k k'); [contradiction|]. now rewrite IH.
Qed.

Lemma lookup_in_nodup (k : string) (v : pyval) (d : pydict) :
  NoDup (keys d) -> In (k, v) d -> lookup k d = Some v.
Proof.
  induction d as [|[k' v'] d IH]; simpl; intros Hnd Hin; [contradiction|].
  inversion Hnd as [|? ? Hk' Hnd']; subst.
  destruct Hin as [Heq|Hin].
  - inversion Heq; subst. now rewrite String.eqb_refl.
  - destruct (String.eqb_spec k k') as [->|Hne].
    + exfalso. apply Hk'. unfold keys. apply in_map_iff. now exists (k', v).
    + now apply IH.
Qed.
End DictFacts.

(** ** Completion order *)

Lemma insert_by_perm {A : Type} (t : A -> nat) (x : A) (l : list A) :
  Permutation (insert_by t x l) (x :: l).
Proof.
  induction l as [|y l IH]; simpl; [reflexivity|].
  destruct (Nat.leb (t x) (t y)); [reflexivity|].
  rewrite IH. apply perm_swap.
Qed.

Lemma sort_by_perm {A : Type} (t : A -> nat) (l : list A) :
  Permutation (sort_by t l) l.
Proof.
  induction l as [|x l IH]; simpl; [reflexivity|].
  rewrite insert_by_perm. now constructor.
Qed.

Lemma filter_length_perm {A : Type} (p : A -> bool) (l l' : list A) :
  Permutation l l' ->
  List.length (filter p l) = List.length (filter p l').
Proof.
  induction 1 as [|x l l' _ IH|x y l|l l' l'' _ IH1 _ IH2]; simpl.
  - reflexivity.
  - destruct (p x); simpl; congruence.
  - destruct (p x), (p y); reflexivity.
  - congruence.
Qed.

Lemma pick_perm {A B : Type} (f : A -> option B) (l l' : list A) :
  Permutation l l' -> Permutation (pick f l) (pick f l').
Proof.
  induction 1 as [|x l l' _ IH|x y l|l l' l'' _ IH1 _ IH2]; simpl.
  - reflexivity.
  - destruct (f x); [now constructor|assumption].
  - destruct (f x), (f y); try reflexivity. apply perm_swap.
  - now transitivity (pick f l').
Qed.

Lemma pick_In {A B : Type} (f : A -> option B) (l : list A) (b : B) :
  In b (pick f l) <-> exists a, In a l /\ f a = Some b.
Proof.
  induction l as [|a l IH]; simpl.
  - split; [contradiction|]. now intros (a & [] & _).
  - destruct (f a) as [b'|] eqn:E; simpl; rewrite IH; split.
    + intros [<-|(a' & Hin & Hf)]; [exists a; auto|exists a'; auto].
    + intros (a' & [<-|Hin] & Hf); [left; congruence|right; exists a'; auto].
    + intros (a' & Hin & Hf). exists a'; auto.
    + intros (a' & [<-|Hin] & Hf); [congruence|exists a'; auto].
  Qed.

(** ** Floats

    Addition of floats is commutative, not associative: two numbers added
    to 0.0 give the same sum in either order, three need not. *)






(** ** Running the monad *)

Lemma world_eta (w : world) : {| db := db w; net := net w |} = w.
Proof. now destruct w. Qed.

Lemma get_default_present (d : pydict) (k : string) (dflt : pyval) :
  is_not_None (Dict.get d k) = true -> Dict.get_default d k dflt = Dict.get d k.
Proof.
  unfold Dict.get, Dict.get_default.
  destruct (Dict.lookup k d); [reflexivity|discriminate].
Qed.

Section ManagerFacts.
Variable env : Env.

Lemma store_run (result : pydict) (w : world) :
  Manager._store_verification_result env result w
  = (tt, {| db := store_db env result (db w); net := net w |}).
Proof.
  unfold Manager._store_verification_result, store_db.
  destruct (negb (truthy (VDict result)) || negb (Dict.contains "email" result)).
  - unfold ret. now rewrite world_eta.
  - fold (row_of result).
    destruct (commit_ok env (db w) (row_of result)); [reflexivity|].
    now rewrite world_eta.
Qed.

Lemma collect_run (email : string) (acc : tally) (fut : future) (w : world) :
  Manager.collect env email acc fut w
  = (tally_step env email acc fut,
     {| db := store_step env (db w) fut; net := net w |}).
Proof.
  destruct fut as [name o].
  unfold Manager.collect, tally_step, store_step, entry, votes, scored,
    returned, reported_is_valid, reported_score; simpl.
  destruct o as [r|e]; simpl.
  - unfold bind. rewrite store_run.
    destruct (is_not_None (Dict.get r "score")) eqn:Hs.
    + rewrite (get_default_present _ _ _ Hs).
      destruct (number_of (Dict.get r "score")); unfold ret; simpl.
      * now rewrite DictFacts.setitem_twice.
      * reflexivity.
    + reflexivity.
  - unfold ret. now rewrite world_eta.
Qed.

Lemma foldM_collect (email : string) (l : list future) (acc : tally) (w : world) :
  foldM (Manager.collect env email) l acc w
  = (fold_left (tally_step env email) l acc,
     {| db := fold_left (store_step env) l (db w); net := net w |}).
Proof.
  revert acc w.
  induction l as [|fut l IH]; intros acc w; simpl.
  - unfold ret. now rewrite world_eta.
  - unfold bind. rewrite collect_run, IH. reflexivity.
Qed.

(** *** The local variables after the loop *)

Lemma fold_valid_count (email : string) (l : list future) (acc : tally) :
  valid_count (fold_left (tally_step env email) l acc)
  = valid_count acc + List.length (filter votes l).
Proof.
  revert acc.
  induction l as [|fut l IH]; intros acc; simpl; [lia|].
  rewrite IH. simpl. destruct (votes fut); simpl; lia.
Qed.

Lemma fold_service_count (email : string) (l : list future) (acc : tally) :
  service_count (fold_left (tally_step env email) l acc)
  = service_count acc + List.length (pick scored l).
Proof.
  revert acc.
  induction l as [|fut l IH]; intros acc; simpl; [lia|].
  rewrite IH. simpl. destruct (scored fut); simpl; lia.
Qed.

Lemma fold_total_score (email : string) (l : list future) (acc : tally) :
  total_score (fold_left (tally_step env email) l acc)
  = fsum (pick scored l) (total_score acc).
Proof.
  revert acc.
  induction l as [|fut l IH]; intros acc; simpl; [reflexivity|].
  rewrite IH. simpl. destruct (scored fut); reflexivity.
Qed.

Lemma fold_results (email : string) (l : list future) (acc : tally) :
  NoDup (map fst l) ->
  (forall fut, In fut l -> ~ In (fst fut) (Dict.keys (results acc))) ->
  results (fold_left (tally_step env email) l acc)
  = results acc ++ map (fun fut => (fst fut, VDict (entry env email fut))) l.
Proof.
  revert acc.
  induction l as [|fut l IH]; intros acc Hnd Hfresh; simpl.
  - now rewrite app_nil_r.
  - inversion Hnd as [|? ? Hhd Hnd']; subst.
    rewrite IH; simpl.
    + rewrite DictFacts.setitem_new by (apply Hfresh; now left).
      now rewrite <- app_assoc.
    + assumption.
    + intros fut' Hin.
      rewrite DictFacts.setitem_new by (apply Hfresh; now left).
      unfold Dict.keys. rewrite map_app, in_app_iff. simpl.
      intros [Hk|[Hk|[]]].
      * apply (Hfresh fut'); [now right|exact Hk].
      * apply Hhd. rewrite Hk. now apply in_map.
Qed.

Lemma fold_store_persist (l : list future) (table : list EmailVerification) :
  fold_left (store_step env) l table = persist env (pick returned l) table.
Proof.
  revert table.
  induction l as [|fut l IH]; intros table; simpl; [reflexivity|].
  rewrite IH. unfold store_step.
  destruct (returned fut); reflexivity.
Qed.
End ManagerFacts.

(** ** Majority *)

Lemma ceil_half_le_pair (n v : nat) :
  (ceil_half n <= v <-> n <= 2 * v)
  /\ (ceil_half (S n) <= v <-> S n <= 2 * v).
Proof.
  unfold ceil_half. revert v.
  induction n as [|n IH]; intros v.
  - simpl. split; split; intros; lia.
  - split; [apply IH|].
    change (Nat.div2 (S (S (S n)))) with (S (Nat.div2 (S n))).
    destruct (IH (Nat.pred v)) as [IH1 _].
    remember (Nat.div2 (S n)) as d eqn:Hd. clear Hd IH. lia.
Qed.

Lemma ceil_half_le (n v : nat) : ceil_half n <= v <-> n <= 2 * v.
Proof. apply ceil_half_le_pair. Qed.

Lemma majority_spec (valid available : nat) :
  Manager.majority valid available = Nat.leb (ceil_half available) valid.
Proof.
  unfold Manager.majority.
  destruct (Nat.leb_spec (ceil_half available) valid) as [H|H].
  - apply Qle_bool_iff. apply ceil_half_le in H.
    unfold Qle, Qdiv, Qmult, Qinv, inject_Z; simpl. lia.
  - destruct (Qle_bool _ _) eqn:E; [|reflexivity].
    apply Qle_bool_iff in E. exfalso.
    assert (~ available <= 2 * valid) as Hn
      by (intros Hle; apply ceil_half_le in Hle; lia).
    apply Hn. revert E.
    unfold Qle, Qdiv, Qmult, Qinv, inject_Z; simpl. lia.
Qed.

(** ** Dispatch *)

Section DispatchFacts.
Variable env : Env.
Variable services : registry.

Lemma mapM_names (email : string) (items : registry) (n : network) :
  map fst
    (fst (mapM (fun item : string * Service =>
                  (o <- svc_verify_email (snd item) email ;;
                   ret (fst item, o))%m) items n))
  = map fst items.
Proof.
  revert n.
  induction items as [|item items IH]; intros n; simpl; [reflexivity|].
  unfold bind, ret in *.
  destruct (svc_verify_email (snd item) email n) as [o n1].
  specialize (IH n1).
  destruct (mapM _ items n1) as [os n2]. simpl in *. now rewrite IH.
Qed.

Lemma dispatched_names (email : string) (w : world) :
  map fst (dispatched env services email w)
  = Manager.get_available_services services.
Proof. apply mapM_names. Qed.

Lemma dispatched_length (email : string) (w : world) :
  List.length (dispatched env services email w)
  = List.length (Manager.get_available_services services).
Proof. rewrite <- (dispatched_names email w). now rewrite length_map. Qed.

Lemma available_nodup :
  NoDup (map fst services) -> NoDup (Manager.get_available_services services).
Proof.
  unfold Manager.get_available_services, Manager.enabled.
  induction services as [|item rest IH]; simpl; intros Hnd; [constructor|].
  inversion Hnd as [|? ? Hhd Hnd']; subst.
  destruct (has_api_key (snd item)); simpl; [|now apply IH].
  constructor; [|now apply IH].
  intros Hin. apply Hhd.
  apply in_map_iff in Hin. destruct Hin as (x & Hx & Hin).
  apply filter_In in Hin. apply in_map_iff. exists x. tauto.
Qed.
End DispatchFacts.

(** ** One aggregate call *)

Section AggregateFacts.
Variable env : Env.
Variable services : registry.

Lemma completed_perm (email : string) (w : world) :
  Permutation (completed env services email w)
              (dispatched env services email w).
Proof. apply sort_by_perm. Qed.

Lemma completed_names_nodup (email : string) (w : world) :
  NoDup (map fst services) ->
  NoDup (map fst (completed env services email w)).
Proof.
  intros Hnd.
  apply (Permutation_NoDup (l := map fst (dispatched env services email w))).
  - apply Permutation_map, Permutation_sym, completed_perm.
  - rewrite dispatched_names. now apply available_nodup.
Qed.

(** The aggregate branch, run. *)
Lemma verify_all_run (email : string) (w : world) :
  Manager.get_available_services services <> [] ->
  exists date w',
    Manager.verify_email env services email None w
    = (Returned
         (Manager.aggregate email
            (List.length (Manager.get_available_services services))
            (final_tally env services email w) date),
       w')
    /\ db w' = persist env (pick returned (completed env services email w)) (db w).
Proof.
  intros Hne.
  unfold Manager.verify_email; simpl. unfold Manager.verify_all.
  destruct (Manager.get_available_services services) as [|name names] eqn:Hav;
    [contradiction|].
  unfold bind at 1. unfold lift at 1.
  unfold final_tally, completed, dispatched.
  destruct (Manager.submit_all services email (net w)) as [futures n1]; simpl.
  unfold bind, lift, Manager.as_completed; simpl.
  rewrite foldM_collect; simpl.
  eexists. eexists. split; [reflexivity|]. simpl.
  apply fold_store_persist.
Qed.

(** Fields of the aggregate. *)
Lemma aggregate_is_valid (email date : string) (n : nat) (acc : tally) :
  Dict.get (Manager.aggregate email n acc date) "is_valid"
  = if Nat.ltb 0 (valid_count acc)
    then VBool (Nat.leb (ceil_half n) (valid_count acc))
    else VNone.
Proof. unfold Manager.aggregate. rewrite majority_spec. reflexivity. Qed.

Lemma aggregate_score (email date : string) (n : nat) (acc : tally) :
  Dict.get (Manager.aggregate email n acc date) "score"
  = if Nat.ltb 0 (service_count acc)
    then VFloat (PrimFloat.div (total_score acc)
                               (float_of_nat (service_count acc)))
    else VNone.
Proof. reflexivity. Qed.

Lemma aggregate_results (email date : string) (n : nat) (acc : tally) :
  Dict.get (Manager.aggregate email n acc date) "results" = VDict (results acc).
Proof. reflexivity. Qed.

Lemma aggregate_verified_by (email date : string) (n : nat) (acc : tally) :
  Dict.get (Manager.aggregate email n acc date) "verified_by"
  = VInt (Z.of_nat (List.length (results acc))).
Proof. reflexivity. Qed.

Lemma final_valid_count (email : string) (w : world) :
  valid_count (final_tally env services email w)
  = List.length (filter votes (dispatched env services email w)).
Proof.
  unfold final_tally. rewrite fold_valid_count. simpl.
  apply filter_length_perm, completed_perm.
Qed.

Lemma final_service_count (email : string) (w : world) :
  service_count (final_tally env services email w)
  = List.length (pick scored (dispatched env services email w)).
Proof.
  unfold final_tally. rewrite fold_service_count. simpl.
  apply Permutation_length, pick_perm, completed_perm.
Qed.

Lemma final_total_score (email : string) (w : world) :
  total_score (final_tally env services email w)
  = fsum (pick scored (completed env services email w)) 0.
Proof. unfold final_tally. now rewrite fold_total_score. Qed.

(** The score of the aggregate: the scores in the order the tasks
    complete, added up and divided by their number. *)
Lemma final_score (email date : string) (n : nat) (w : world) :
  Dict.get (Manager.aggregate email n (final_tally env services email w) date)
           "score"
  = binary64_score (pick scored (completed env services email w)).
Proof.
  rewrite aggregate_score, final_total_score.
  unfold final_tally at 1 2. rewrite !fold_service_count. simpl.
  unfold binary64_score.
  now destruct (pick scored (completed env services email w)).
Qed.

Lemma final_results (email : string) (w : world) :
  NoDup (map fst services) ->
  results (final_tally env services email w)
  = map (fun fut => (fst fut, VDict (entry env email fut)))
        (completed env services email w).
Proof.
  intros Hnd. unfold final_tally.
  rewrite fold_results; simpl; auto.
  now apply completed_names_nodup.
Qed.
End AggregateFacts.

(** ** Aggregate validity *)

Section Validity.
Variable env : Env.
Variable services : registry.

Lemma votes_filter (l : list future) :
  List.length (filter votes l)
  = List.length (filter truthy (map reported_is_valid l)).
Proof.
  induction l as [|fut l IH]; simpl; [reflexivity|].
  unfold votes at 1. destruct (truthy (reported_is_valid fut)); simpl; congruence.
Qed.

Lemma votes_tri_state (l : list future) :
  Forall (fun fut => tri_state (reported_is_valid fut)) l ->
  filter votes l = filter says_true l.
Proof.
  induction 1 as [|fut l Hfut _ IH]; simpl; [reflexivity|].
  rewrite IH. unfold votes, says_true.
  destruct Hfut as [->|[b ->]]; [reflexivity|]. now destruct b.
Qed.

(** The verdict of an aggregate call, from the number of votes. *)
Lemma verdict (email : string) (w : world) :
  Manager.get_available_services services <> [] ->
  exists agg w',
    Manager.verify_email env services email None w = (Returned agg, w')
    /\ Dict.get agg "is_valid"
       = let n := List.length (Manager.get_available_services services) in
         let v := List.length (filter votes (dispatched env services email w)) in
         if Nat.ltb 0 v then VBool (Nat.leb (ceil_half n) v) else VNone.
Proof.
  intros Hne.
  destruct (verify_all_run env services email w Hne) as (date & w' & Hrun & _).
  eexists. eexists. split; [exact Hrun|].
  rewrite aggregate_is_valid, final_valid_count. reflexivity.
Qed.
End Validity.

(** C1 as stated fails: four enabled adapters report true, false, false and
    unknown, and the aggregate [is_valid] is [False], not [None]. *)
Lemma one_of_four_is_not_unknown :
  map reported_is_valid
      (dispatched env_one_of_four (Manager.init env_one_of_four) "a@x.com" world0)
  = [VBool true; VBool false; VBool false; VNone]
  /\ exists agg w',
       Manager.verify_email env_one_of_four (Manager.init env_one_of_four)
                            "a@x.com" None world0
       = (Returned agg, w')
       /\ Dict.get agg "is_valid" = VBool false
       /\ Dict.get agg "is_valid" <> VNone.
Proof.
  split; [vm_compute; reflexivity|].
  eexists. eexists. split; [vm_compute; reflexivity|].
  split; [vm_compute; reflexivity|]. vm_compute. discriminate.
Qed.

(** C1, amended: with four enabled adapters reporting true, false, false
    and unknown (in any order), the aggregate [is_valid] is [False]: one
    vote is given, and one is less than two. *)
Theorem one_of_four_is_false (env : Env) (services : registry)
        (email : string) (w : world) :
  Permutation (map reported_is_valid (dispatched env services email w))
              [VBool true; VBool false; VBool false; VNone] ->
  exists agg w',
    Manager.verify_email env services email None w = (Returned agg, w')
    /\ Dict.get agg "is_valid" = VBool false.
Proof.
  intros Hperm.
  assert (List.length (Manager.get_available_services services) = 4) as Hlen.
  { rewrite <- (dispatched_length env services email w).
    rewrite <- (length_map reported_is_valid).
    now rewrite (Permutation_length Hperm). }
  assert (Manager.get_available_services services <> []) as Hne
      by (intros E; rewrite E in Hlen; discriminate).
  destruct (verdict env services email w Hne) as (agg & w' & Hrun & Hv).
  exists agg, w'. split; [exact Hrun|].
  rewrite Hv, Hlen, votes_filter.
  rewrite (filter_length_perm truthy _ _ Hperm). reflexivity.
Qed.

Lemma one_of_four_is_false_witness :
  exists agg w',
    Manager.verify_email env_one_of_four (Manager.init env_one_of_four)
                         "a@x.com" None world0
    = (Returned agg, w')
    /\ Dict.get agg "is_valid" = VBool false.
Proof.
  apply (one_of_four_is_false env_one_of_four (Manager.init env_one_of_four)
                              "a@x.com" world0).
  vm_compute. apply Permutation_refl.
Defined.

(** C2 as stated fails: the loop counts the verdicts that are true in a
    test, not the verdicts that equal [True].  NeutrinoAPI hands on the
    provider's own ["valid"] field; when the provider writes "no" there,
    no result has [is_valid == True], and the aggregate [is_valid] is
    [True], not [None]. *)
Lemma truthy_verdict_is_counted :
  map reported_is_valid
      (dispatched env_neutrino_says_no (Manager.init env_neutrino_says_no)
                  "a@x.com" world0)
  = [VStr "no"]
  /\ filter says_true
            (dispatched env_neutrino_says_no (Manager.init env_neutrino_says_no)
                        "a@x.com" world0)
     = []
  /\ exists agg w',
       Manager.verify_email env_neutrino_says_no
                            (Manager.init env_neutrino_says_no)
                            "a@x.com" None world0
       = (Returned agg, w')
       /\ Dict.get agg "is_valid" = VBool true
       /\ Dict.get agg "is_valid" <> VNone.
Proof.
  split; [vm_compute; reflexivity|].
  split; [vm_compute; reflexivity|].
  eexists. eexists. split; [vm_compute; reflexivity|].
  split; [vm_compute; reflexivity|]. vm_compute. discriminate.
Qed.

(** C2, amended: in an aggregate call with N >= 1 enabled adapters, let
    valid_count be the number of results whose [is_valid] is true in a
    test (any value but [None], [False], zero and the empty string, list
    or dictionary).  With valid_count = 0 the aggregate [is_valid] is
    [None]; otherwise it is the truth value of valid_count >= ceil(N / 2),
    where N counts every dispatched adapter, the ones that raised or
    answered unknown included.  When every [is_valid] is [True], [False]
    or [None], valid_count is the number of results with [is_valid]
    [True]. *)
Theorem majority_rule (env : Env) (services : registry)
        (email : string) (w : world) :
  Manager.get_available_services services <> [] ->
  let N := List.length (Manager.get_available_services services) in
  let valid_count :=
    List.length (filter votes (dispatched env services email w)) in
  N = List.length (dispatched env services email w)
  /\ (Forall (fun fut => tri_state (reported_is_valid fut))
             (dispatched env services email w) ->
      valid_count
      = List.length (filter says_true (dispatched env services email w)))
  /\ exists agg w',
       Manager.verify_email env services email None w = (Returned agg, w')
       /\ (valid_count = 0 -> Dict.get agg "is_valid" = VNone)
       /\ (valid_count <> 0 ->
           Dict.get agg "is_valid" = VBool (Nat.leb (ceil_half N) valid_count)
           /\ (Dict.get agg "is_valid" = VBool true
               <-> ceil_half N <= valid_count)).
Proof.
  intros Hne N valid_count.
  split; [symmetry; apply dispatched_length|].
  split.
  { intros Htri. unfold valid_count. now rewrite (votes_tri_state _ Htri). }
  destruct (verdict env services email w Hne) as (agg & w' & Hrun & Hv).
  exists agg, w'. split; [exact Hrun|].
  fold valid_count N in Hv. simpl in Hv.
  split.
  - intros H0. rewrite Hv, H0. reflexivity.
  - intros Hpos. rewrite Hv.
    destruct (Nat.ltb_spec 0 valid_count) as [_|Hz]; [|lia].
    split; [reflexivity|].
    destruct (Nat.leb_spec (ceil_half N) valid_count) as [Hle|Hlt].
    + tauto.
    + split; [discriminate|lia].
Qed.

Lemma majority_rule_witness :
  4 = List.length (dispatched env_two_of_four (Manager.init env_two_of_four)
                              "a@x.com" world0)
  /\ (Forall (fun fut => tri_state (reported_is_valid fut))
             (dispatched env_two_of_four (Manager.init env_two_of_four)
                         "a@x.com" world0) ->
      2 = List.length
            (filter says_true
                    (dispatched env_two_of_four (Manager.init env_two_of_four)
                                "a@x.com" world0)))
  /\ exists agg w',
       Manager.verify_email env_two_of_four (Manager.init env_two_of_four)
                            "a@x.com" None world0
       = (Returned agg, w')
       /\ (2 = 0 -> Dict.get agg "is_valid" = VNone)
       /\ (2 <> 0 ->
           Dict.get agg "is_valid" = VBool (Nat.leb (ceil_half 4) 2)
           /\ (Dict.get agg "is_valid" = VBool true <-> ceil_half 4 <= 2)).
Proof.
  apply (majority_rule env_two_of_four (Manager.init env_two_of_four)
                       "a@x.com" world0).
  vm_compute. discriminate.
Defined.

(** ** The adapters *)

Lemma key_of_unconfigured (k : option string) :
  configured k = false -> key_of k = None.
Proof.
  destruct k as [s|]; simpl; [|reflexivity].
  destruct (String.eqb s ""); [reflexivity|discriminate].
Qed.

Lemma key_of_configured (k : option string) :
  configured k = true -> exists s, key_of k = Some s /\ k = Some s.
Proof.
  destruct k as [s|]; simpl; [|discriminate].
  destruct (String.eqb s ""); [discriminate|]. now exists s.
Qed.

Lemma adapter_without_credentials (env : Env) (a : adapter) (email : string)
      (n : network) :
  Adapter.has_credentials a = false ->
  Adapter.verify_email env a email n = (missing_credential_result a email, n).
Proof.
  intros Hcred.
  destruct a as [k|k|u k|k|k]; simpl in *.
  - unfold ZeroBounce.verify_email. now rewrite (key_of_unconfigured _ Hcred).
  - unfold MailboxLayer.verify_email. now rewrite (key_of_unconfigured _ Hcred).
  - unfold NeutrinoAPI.verify_email.
    apply andb_false_iff in Hcred. destruct Hcred as [Hk|Hu].
    + now rewrite (key_of_unconfigured _ Hk).
    + rewrite (key_of_unconfigured _ Hu). now destruct (key_of k).
  - unfold Spokeo.verify_email. now rewrite (key_of_unconfigured _ Hcred).
  - unfold Hunter.verify_email. now rewrite (key_of_unconfigured _ Hcred).
Qed.

(** C3 as stated fails: the NeutrinoAPI adapter without credentials
    answers "API credentials not provided". *)
Lemma neutrinoapi_message_differs :
  Adapter.has_credentials (NeutrinoAPIService None None) = false
  /\ Dict.get (fst (Adapter.verify_email env_bare (NeutrinoAPIService None None)
                                         "a@x.com" net0)) "error"
     = VStr "API credentials not provided"
  /\ Dict.get (fst (Adapter.verify_email env_bare (NeutrinoAPIService None None)
                                         "a@x.com" net0)) "error"
     <> VStr "API key not provided".
Proof.
  split; [reflexivity|]. split; [reflexivity|].
  vm_compute. discriminate.
Qed.

(** C3, amended: an adapter whose credential is not configured returns,
    for every address, a result with [is_valid] unknown and an error text,
    and leaves the network untouched.  The text is "API key not provided"
    for ZeroBounce, MailboxLayer, Spokeo and Hunter and "API credentials
    not provided" for NeutrinoAPI. *)
Theorem unconfigured_adapter (env : Env) (a : adapter) (email : string)
        (n : network) :
  Adapter.has_credentials a = false ->
  Adapter.verify_email env a email n = (missing_credential_result a email, n)
  /\ Dict.get (missing_credential_result a email) "is_valid" = VNone
  /\ Dict.get (missing_credential_result a email) "error"
     = VStr (match a with
             | NeutrinoAPIService _ _ => "API credentials not provided"
             | _ => "API key not provided"
             end).
Proof.
  intros Hcred.
  split; [now apply adapter_without_credentials|].
  split; [reflexivity|now destruct a].
Qed.

Lemma unconfigured_adapter_witness :
  Adapter.verify_email env_bare (HunterService None) "a@x.com" net0
  = (missing_credential_result (HunterService None) "a@x.com", net0)
  /\ Dict.get (missing_credential_result (HunterService None) "a@x.com") "is_valid"
     = VNone
  /\ Dict.get (missing_credential_result (HunterService None) "a@x.com") "error"
     = VStr "API key not provided".
Proof.
  apply (unconfigured_adapter env_bare (HunterService None) "a@x.com" net0).
  reflexivity.
Defined.

(** *** Scores *)

(** The adapters divide by five and by six. *)
Lemma passed_fraction_unit (factors : list pyval) :
  0 < List.length factors <= 6 -> unit_score (passed_fraction factors).
Proof.
  intros Hlen. unfold passed_fraction, unit_score.
  eexists. split; [reflexivity|].
  pose proof (filter_length_le truthy factors) as Hle.
  remember (List.length (filter truthy factors)) as k eqn:Hk.
  remember (List.length factors) as n eqn:Hn.
  clear Hk Hn.
  destruct n as [|[|[|[|[|[|[|n]]]]]]]; try lia;
    repeat (destruct k as [|k]; try lia); split; reflexivity.
Qed.

Lemma zero_one_unit (b : bool) : unit_score (VFloat (if b then 1 else 0)).
Proof.
  exists (if b then 1 else 0)%float. split; [reflexivity|].
  destruct b; split; reflexivity.
Qed.

Section Scores.
Variable env : Env.

Lemma zerobounce_score (email : string) (data : pyval) (r : pydict) :
  ZeroBounce.interpret email data = inr r -> unit_score (Dict.get r "score").
Proof.
  unfold ZeroBounce.interpret.
  destruct data; simpl; try discriminate.
  intros [= <-]. apply zero_one_unit.
Qed.

Lemma mailboxlayer_score (email : string) (data : pyval) (r : pydict) :
  MailboxLayer.interpret email data = inr r -> unit_score (Dict.get r "score").
Proof.
  unfold MailboxLayer.interpret.
  destruct data as [| | | | |l|d]; simpl; try discriminate.
  - destruct (substring_of "error" s); simpl; discriminate.
  - destruct (existsb (eq_str "error") l); simpl; discriminate.
  - destruct (Dict.contains "error" d); simpl.
    + destruct (Dict.lookup "error" d) as [err|]; simpl; [|discriminate].
      destruct (py_getitem err "info"); simpl; discriminate.
    + destruct (Dict.contains "free" d); simpl; intros [= <-];
        apply passed_fraction_unit; simpl; lia.
Qed.

Lemma neutrinoapi_score (email : string) (data : pyval) (r : pydict) :
  NeutrinoAPI.interpret email data = inr r -> unit_score (Dict.get r "score").
Proof.
  unfold NeutrinoAPI.interpret.
  destruct data; simpl; try discriminate.
  destruct (Dict.contains "is-freemail" d); simpl; intros [= <-];
    apply passed_fraction_unit; simpl; lia.
Qed.

Lemma spokeo_score (email : string) (data : pyval) :
  unit_score (Dict.get (Spokeo.interpret email data) "score").
Proof. apply zero_one_unit. Qed.

(** Every adapter but Hunter: a score, when the result has one, is a
    number between 0 and 1. *)
Lemma score_in_unit_interval (a : adapter) (email : string) (n : network) :
  (forall k, a <> HunterService k) ->
  let result := fst (Adapter.verify_email env a email n) in
  Dict.contains "score" result = true ->
  unit_score (Dict.get result "score").
Proof.
  intros Hnot result. subst result.
  destruct a as [k|k|u k|k|k]; simpl.
  - unfold ZeroBounce.verify_email.
    destruct (key_of k); [|discriminate].
    unfold bind, requests_call, ret; simpl.
    destruct (http env (clock n) _) as [e|data]; [discriminate|].
    destruct (ZeroBounce.interpret email data) eqn:E; [discriminate|].
    intros _. now apply zerobounce_score with (email := email) (data := data).
  - unfold MailboxLayer.verify_email.
    destruct (key_of k); [|discriminate].
    unfold bind, requests_call, ret; simpl.
    destruct (http env (clock n) _) as [e|data]; [discriminate|].
    destruct (MailboxLayer.interpret email data) eqn:E; [discriminate|].
    intros _. now apply mailboxlayer_score with (email := email) (data := data).
  - unfold NeutrinoAPI.verify_email.
    destruct (key_of k); [|discriminate].
    destruct (key_of u); [|discriminate].
    unfold bind, requests_call, ret; simpl.
    destruct (http env (clock n) _) as [e|data]; [discriminate|].
    destruct (NeutrinoAPI.interpret email data) eqn:E; [discriminate|].
    intros _. now apply neutrinoapi_score with (email := email) (data := data).
  - unfold Spokeo.verify_email.
    destruct (key_of k); [|discriminate].
    unfold bind, requests_call, ret; simpl.
    destruct (http env (clock n) _) as [e|data]; [discriminate|].
    intros _. apply spokeo_score.
  - exfalso. now apply (Hnot k).
Qed.
End Scores.

(** C4 fails for Hunter: the adapter hands on the provider's own score.
    With a key configured and the provider answering status "valid" and
    score 95, the result carries the score 95, which is not in [0,1]. *)
Theorem hunter_score_not_normalised :
  exists result n',
    Adapter.verify_email env_hunter (HunterService (Some "secret")) "a@x.com" net0
    = (result, n')
    /\ Dict.get result "score" = VInt 95
    /\ ~ unit_score (Dict.get result "score").
Proof.
  eexists. eexists. split; [vm_compute; reflexivity|].
  split; [reflexivity|].
  intros (x & Hx & _ & Hle). vm_compute in Hx. injection Hx as <-.
  vm_compute in Hle. discriminate.
Qed.

(** ** No service configured *)

Lemma no_services_run (env : Env) (services : registry) (email : string)
      (w : world) :
  Manager.get_available_services services = [] ->
  Manager.verify_email env services email None w
  = (Returned
       [("email", VStr email);
        ("error", VStr "No verification services are configured with API keys");
        ("verified", VBool false)],
     w).
Proof.
  intros Hnone.
  unfold Manager.verify_email; simpl. unfold Manager.verify_all.
  now rewrite Hnone.
Qed.

(** C7 as stated fails on the error text: the manager answers "No
    verification services are configured with API keys". *)
Lemma no_services_message_differs :
  Manager.get_available_services (Manager.init env_bare) = []
  /\ exists r w',
       Manager.verify_email env_bare (Manager.init env_bare) "a@x.com" None world0
       = (Returned r, w')
       /\ Dict.get r "error"
          = VStr "No verification services are configured with API keys"
       /\ Dict.get r "error" <> VStr "no services configured".
Proof.
  split; [reflexivity|].
  eexists. eexists. split; [vm_compute; reflexivity|].
  split; [reflexivity|]. vm_compute. discriminate.
Qed.

(** C7, amended: an aggregate call with no enabled adapter returns a
    result without [is_valid], with [error] = "No verification services
    are configured with API keys" and [verified] false; the table and the
    network are as before the call. *)
Theorem no_services_configured (env : Env) (services : registry)
        (email : string) (w : world) :
  Manager.get_available_services services = [] ->
  exists r,
    Manager.verify_email env services email None w = (Returned r, w)
    /\ Dict.contains "is_valid" r = false
    /\ Dict.get r "error"
       = VStr "No verification services are configured with API keys"
    /\ Dict.get r "verified" = VBool false
    /\ Dict.get r "email" = VStr email.
Proof.
  intros Hnone.
  eexists. split; [now apply no_services_run|].
  repeat split; reflexivity.
Qed.

Lemma no_services_configured_witness :
  exists r,
    Manager.verify_email env_bare (Manager.init env_bare) "a@x.com" None world0
    = (Returned r, world0)
    /\ Dict.contains "is_valid" r = false
    /\ Dict.get r "error"
       = VStr "No verification services are configured with API keys"
    /\ Dict.get r "verified" = VBool false
    /\ Dict.get r "email" = VStr "a@x.com".
Proof.
  apply (no_services_configured env_bare (Manager.init env_bare) "a@x.com" world0).
  reflexivity.
Defined.

(** ** Tasks that raise *)

Lemma persist_appends (env : Env) (stored : list pydict)
      (table : list EmailVerification) :
  exists added,
    persist env stored table = table ++ added
    /\ Forall (fun row => exists r, In r stored /\ row = row_of r) added
    /\ List.length added <= List.length stored.
Proof.
  revert table.
  induction stored as [|r stored IH]; intros table; simpl.
  - exists []. rewrite app_nil_r. repeat split; auto.
  - destruct (IH (store_db env r table)) as (added & Heq & Hall & Hlen).
    assert (forall row, (exists r0, In r0 stored /\ row = row_of r0) ->
                        exists r0, (r = r0 \/ In r0 stored) /\ row = row_of r0)
      as Hweak by (intros row (r0 & Hin & Hrow); exists r0; auto).
    unfold persist in *. simpl. rewrite Heq. unfold store_db.
    destruct (negb (truthy (VDict r)) || negb (Dict.contains "email" r)).
    + exists added. repeat split; [|lia].
      eapply Forall_impl; [exact Hweak|exact Hall].
    + destruct (commit_ok env table (row_of r)).
      * exists (row_of r :: added). rewrite <- app_assoc. simpl.
        repeat split; [|lia].
        constructor; [exists r; auto|].
        eapply Forall_impl; [exact Hweak|exact Hall].
      * exists added. repeat split; [|lia].
        eapply Forall_impl; [exact Hweak|exact Hall].
Qed.

Section Isolation.
Variable env : Env.
Variable services : registry.

Lemma entry_typed (email name : string) (r : pydict) :
  number_or_none (Dict.get r "score") ->
  entry env email (name, Returned r) = r.
Proof.
  unfold entry, reported_score; simpl.
  intros [->|[q ->]]; [reflexivity|].
  now destruct (is_not_None (Dict.get r "score")).
Qed.

Lemma available_nonempty (email : string) (w : world) (fut : future) :
  In fut (dispatched env services email w) ->
  Manager.get_available_services services <> [].
Proof.
  intros Hin Hnil.
  pose proof (dispatched_length env services email w) as Hlen.
  rewrite Hnil in Hlen.
  destruct (dispatched env services email w); [contradiction|discriminate].
Qed.

(** The [results] mapping of an aggregate call. *)
Lemma results_of_call (email : string) (w : world) :
  NoDup (map fst services) ->
  Manager.get_available_services services <> [] ->
  exists agg w' res,
    Manager.verify_email env services email None w = (Returned agg, w')
    /\ Dict.get agg "results" = VDict res
    /\ Dict.get agg "verified_by" = VInt (Z.of_nat (List.length res))
    /\ List.length res = List.length (Manager.get_available_services services)
    /\ Permutation (Dict.keys res) (Manager.get_available_services services)
    /\ (forall fut, In fut (dispatched env services email w) ->
                    Dict.lookup (fst fut) res = Some (VDict (entry env email fut)))
    /\ db w' = persist env (pick returned (completed env services email w)) (db w).
Proof.
  intros Hnd Hne.
  destruct (verify_all_run env services email w Hne) as (date & w' & Hrun & Hdb).
  exists (Manager.aggregate email
            (List.length (Manager.get_available_services services))
            (final_tally env services email w) date), w',
         (results (final_tally env services email w)).
  split; [exact Hrun|].
  split; [apply aggregate_results|].
  split; [apply aggregate_verified_by|].
  rewrite (final_results env services email w Hnd).
  split; [|split; [|split]].
  - rewrite length_map.
    etransitivity; [apply Permutation_length, completed_perm|].
    apply dispatched_length.
  - unfold Dict.keys. rewrite map_map. simpl.
    rewrite <- (dispatched_names env services email w).
    apply Permutation_map, completed_perm.
  - intros fut Hin. apply DictFacts.lookup_in_nodup.
    + unfold Dict.keys. rewrite map_map. simpl.
      now apply completed_names_nodup.
    + apply in_map_iff. exists fut. split; [reflexivity|].
      apply (Permutation_in _ (Permutation_sym (completed_perm env services email w))).
      exact Hin.
  - exact Hdb.
Qed.
End Isolation.

(** C5: in an aggregate call with N enabled adapters, a task that raises
    (the only one to do so, or one of several) leaves the others alone.
    The [results] mapping has exactly N entries, one per dispatched
    adapter; the entry of the raising task holds the address, the error
    text and its own provider name; [verified_by] is N; and every other
    task that returned a result with a well-typed score has that very
    result as its entry. *)
Theorem raising_task_is_isolated (env : Env) (services : registry)
        (email : string) (w : world) (name : string) (e : pyexn) :
  NoDup (map fst services) ->
  In (name, Raised e) (dispatched env services email w) ->
  let N := List.length (Manager.get_available_services services) in
  exists agg w' res,
    Manager.verify_email env services email None w = (Returned agg, w')
    /\ Dict.get agg "results" = VDict res
    /\ List.length res = N
    /\ Permutation (Dict.keys res) (Manager.get_available_services services)
    /\ Dict.lookup name res
       = Some (VDict [("email", VStr email); ("error", VStr (str_exc env e));
                      ("provider", VStr name)])
    /\ Dict.get agg "verified_by" = VInt (Z.of_nat N)
    /\ (forall other r,
           In (other, Returned r) (dispatched env services email w) ->
           number_or_none (Dict.get r "score") ->
           Dict.lookup other res = Some (VDict r)).
Proof.
  intros Hnd Hin N.
  pose proof (available_nonempty env services email w _ Hin) as Hne.
  destruct (results_of_call env services email w Hnd Hne)
    as (agg & w' & res & Hrun & Hres & Hby & Hlen & Hkeys & Hentry & _).
  exists agg, w', res.
  split; [exact Hrun|]. split; [exact Hres|]. split; [exact Hlen|].
  split; [exact Hkeys|].
  split; [exact (Hentry _ Hin)|].
  split; [now rewrite Hby, Hlen|].
  intros other r Hother Htyped.
  pose proof (Hentry _ Hother) as Hlook. simpl in Hlook.
  rewrite Hlook. now rewrite entry_typed.
Qed.

Lemma raising_task_is_isolated_witness :
  exists agg w' res,
    Manager.verify_email env_bare one_raises "a@x.com" None world0
    = (Returned agg, w')
    /\ Dict.get agg "results" = VDict res
    /\ List.length res = 3
    /\ Permutation (Dict.keys res) ["alpha"; "beta"; "gamma"]
    /\ Dict.lookup "beta" res
       = Some (VDict [("email", VStr "a@x.com"); ("error", VStr "worker died");
                      ("provider", VStr "beta")])
    /\ Dict.get agg "verified_by" = VInt 3
    /\ (forall other r,
           In (other, Returned r) (dispatched env_bare one_raises "a@x.com" world0) ->
           number_or_none (Dict.get r "score") ->
           Dict.lookup other res = Some (VDict r)).
Proof.
  apply (raising_task_is_isolated env_bare one_raises "a@x.com" world0
                                  "beta" (OtherError "worker died")).
  - vm_compute. repeat constructor; simpl; intuition discriminate.
  - vm_compute. right. left. reflexivity.
Defined.

(** C10: in an aggregate call, the entry written for a task that raised
    is in [results] and is counted by [verified_by], and no row is stored
    for it: the table grows by rows built from results that tasks
    returned, at most one for each such task, in the order the tasks
    complete. *)
Theorem raised_task_is_not_persisted (env : Env) (services : registry)
        (email : string) (w : world) (name : string) (e : pyexn) :
  NoDup (map fst services) ->
  In (name, Raised e) (dispatched env services email w) ->
  exists agg w' res added,
    Manager.verify_email env services email None w = (Returned agg, w')
    /\ Dict.get agg "results" = VDict res
    /\ Dict.lookup name res = Some (VDict (Manager.task_error env email name e))
    /\ Dict.get agg "verified_by" = VInt (Z.of_nat (List.length res))
    /\ List.length res = List.length (dispatched env services email w)
    /\ db w' = persist env (pick returned (completed env services email w)) (db w)
    /\ db w' = db w ++ added
    /\ Forall (fun row => exists provider r,
                   In (provider, Returned r) (dispatched env services email w)
                   /\ row = row_of r) added
    /\ List.length added
       <= List.length (pick returned (dispatched env services email w))
    /\ List.length (pick returned (dispatched env services email w))
       < List.length (dispatched env services email w).
Proof.
  intros Hnd Hin.
  pose proof (available_nonempty env services email w _ Hin) as Hne.
  destruct (results_of_call env services email w Hnd Hne)
    as (agg & w' & res & Hrun & Hres & Hby & Hlen & _ & Hentry & Hdb).
  destruct (persist_appends env
              (pick returned (completed env services email w)) (db w))
    as (added & Hadd & Hrows & Hcount).
  exists agg, w', res, added.
  split; [exact Hrun|]. split; [exact Hres|].
  split; [exact (Hentry _ Hin)|]. split; [exact Hby|].
  split; [now rewrite Hlen, dispatched_length|].
  split; [exact Hdb|]. split; [now rewrite Hdb|].
  split; [|split].
  - eapply Forall_impl; [|exact Hrows].
    intros row (r & Hr & ->).
    apply pick_In in Hr. destruct Hr as ([provider o] & Hfut & Hret).
    unfold returned in Hret; simpl in Hret.
    destruct o as [r'|]; [|discriminate]. injection Hret as ->.
    exists provider, r. split; [|reflexivity].
    apply (Permutation_in _ (completed_perm env services email w)). exact Hfut.
  - etransitivity; [exact Hcount|]. apply Nat.eq_le_incl.
    apply Permutation_length, pick_perm, completed_perm.
  - clear - Hin.
    induction (dispatched env services email w) as [|fut l IH];
      [contradiction|].
    simpl. destruct Hin as [->|Hin].
    + simpl. pose proof (filter_length_le (fun _ : pydict => true) (pick returned l)).
      assert (List.length (pick returned l) <= List.length l) as Hle.
      { clear. induction l as [|x l IH]; simpl; [lia|].
        destruct (returned x); simpl; lia. }
      lia.
    + specialize (IH Hin). destruct (returned fut); simpl; lia.
Qed.

Lemma raised_task_is_not_persisted_witness :
  exists agg w' res added,
    Manager.verify_email env_bare one_raises "a@x.com" None world0
    = (Returned agg, w')
    /\ Dict.get agg "results" = VDict res
    /\ Dict.lookup "beta" res
       = Some (VDict (Manager.task_error env_bare "a@x.com" "beta"
                                         (OtherError "worker died")))
    /\ Dict.get agg "verified_by" = VInt (Z.of_nat (List.length res))
    /\ List.length res
       = List.length (dispatched env_bare one_raises "a@x.com" world0)
    /\ db w' = persist env_bare
                       (pick returned (completed env_bare one_raises "a@x.com" world0))
                       (db world0)
    /\ db w' = db world0 ++ added
    /\ Forall (fun row => exists provider r,
                   In (provider, Returned r)
                      (dispatched env_bare one_raises "a@x.com" world0)
                   /\ row = row_of r) added
    /\ List.length added
       <= List.length (pick returned (dispatched env_bare one_raises "a@x.com" world0))
    /\ List.length (pick returned (dispatched env_bare one_raises "a@x.com" world0))
       < List.length (dispatched env_bare one_raises "a@x.com" world0).
Proof.
  apply (raised_task_is_not_persisted env_bare one_raises "a@x.com" world0
                                      "beta" (OtherError "worker died")).
  - vm_compute. repeat constructor; simpl; intuition discriminate.
  - vm_compute. right. left. reflexivity.
Defined.

(** ** Aggregate score *)

(** The entry of a future holds a score exactly when the loop added one. *)
Lemma entry_score_scored (env : Env) (email : string) (fut : future) :
  entry_score (fst fut, VDict (entry env email fut)) = scored fut.
Proof.
  destruct fut as [name [r|e]]; unfold entry_score, entry, scored, reported_score;
    simpl; [|reflexivity].
  destruct (is_not_None (Dict.get r "score")) eqn:Hs.
  - destruct (number_of (Dict.get r "score")) eqn:Hn; [reflexivity|].
    now rewrite Hs, Hn.
  - now rewrite Hs.
Qed.

Lemma entries_scores (env : Env) (email : string) (l : list future) :
  pick entry_score (map (fun fut => (fst fut, VDict (entry env email fut))) l)
  = pick scored l.
Proof.
  induction l as [|fut l IH]; simpl; [reflexivity|].
  rewrite entry_score_scored, IH. reflexivity.
Qed.

Lemma entry_number_or_none (env : Env) (email : string) (fut : future) :
  number_or_none (Dict.get (entry env email fut) "score").
Proof.
  destruct fut as [name [r|e]]; unfold entry, reported_score; simpl;
    [|left; reflexivity].
  destruct (is_not_None (Dict.get r "score")) eqn:Hs.
  - destruct (number_of (Dict.get r "score")) eqn:Hn.
    + left. reflexivity.
    + right. eexists. exact Hn.
  - left. now destruct (Dict.get r "score").
Qed.

(** C6 as stated fails, in two ways.  A score that is present is left out
    when it cannot be added to a float: MailboxLayer reports 0.8 and Hunter
    the text "95", and the aggregate score is 0.8, Hunter's entry having
    become an error.  And the score is not a function of the scores that
    count: the same five results, with the scores 0.2, 4/6 and 1.0, give
    two different aggregate scores when the tasks complete in two
    different orders, so the aggregate score is not their arithmetic
    mean. *)
Lemma score_is_not_the_mean_of_present_scores :
  (map reported_score
       (dispatched env_text_score (Manager.init env_text_score) "a@x.com" world0)
   = [VNone; VFloat 0.8; VNone; VStr "95"]
   /\ exists agg w' res,
        Manager.verify_email env_text_score (Manager.init env_text_score)
                             "a@x.com" None world0
        = (Returned agg, w')
        /\ Dict.get agg "score" = VFloat 0.8
        /\ Dict.get agg "results" = VDict res
        /\ Dict.lookup "hunter" res
           = Some (VDict [("email", VStr "a@x.com");
                          ("error", VStr "unsupported operand type");
                          ("provider", VStr "hunter")]))
  /\ dispatched env_three_scores_reordered
                (Manager.init env_three_scores_reordered) "a@x.com" world0
     = dispatched env_three_scores (Manager.init env_three_scores)
                  "a@x.com" world0
  /\ map reported_score
         (dispatched env_three_scores (Manager.init env_three_scores)
                     "a@x.com" world0)
     = [VNone; VFloat 0.2; VFloat 0.66666666666666663; VFloat 1; VNone]
  /\ exists agg1 agg2 w1 w2,
       Manager.verify_email env_three_scores (Manager.init env_three_scores)
                            "a@x.com" None world0
       = (Returned agg1, w1)
       /\ Manager.verify_email env_three_scores_reordered
                               (Manager.init env_three_scores_reordered)
                               "a@x.com" None world0
          = (Returned agg2, w2)
       /\ Dict.get agg1 "score" = VFloat 0.62222222222222223
       /\ Dict.get agg2 "score" = VFloat 0.62222222222222212
       /\ Dict.get agg1 "score" <> Dict.get agg2 "score".
Proof.
  split.
  { split; [vm_compute; reflexivity|].
    eexists. eexists. eexists.
    split; [vm_compute; reflexivity|].
    split; [vm_compute; reflexivity|].
    split; vm_compute; reflexivity. }
  split; [vm_compute; reflexivity|].
  split; [vm_compute; reflexivity|].
  eexists. eexists. eexists. eexists.
  split; [vm_compute; reflexivity|].
  split; [vm_compute; reflexivity|].
  split; [vm_compute; reflexivity|].
  split; [vm_compute; reflexivity|].
  intros H.
  apply (f_equal (fun v => match v with
                           | VFloat x => PrimFloat.eqb x 0.62222222222222223
                           | _ => false
                           end)) in H.
  vm_compute in H. discriminate.
Qed.

(** C6, amended: the aggregate score is the floating-point mean of exactly
    the scores that the entries of [results] hold: they are added to 0.0
    in the order of [results], which is the order the tasks complete in,
    and the total is divided by their number, each operation rounding to
    the nearest float.  An entry without a score counts neither in the sum
    nor in the number; a result whose score is present and no number has
    been replaced by an error entry, so every score in [results] is a
    number; the aggregate score is [None] when no entry holds a score. *)
Theorem aggregate_score_is_mean (env : Env) (services : registry)
        (email : string) (w : world) :
  NoDup (map fst services) ->
  Manager.get_available_services services <> [] ->
  exists agg w' res,
    Manager.verify_email env services email None w = (Returned agg, w')
    /\ Dict.get agg "results" = VDict res
    /\ Forall (fun item => exists r,
                   snd item = VDict r /\ number_or_none (Dict.get r "score"))
              res
    /\ pick entry_score res = pick scored (completed env services email w)
    /\ Dict.get agg "score" = binary64_score (pick entry_score res)
    /\ (pick entry_score res = [] <-> Dict.get agg "score" = VNone).
Proof.
  intros Hnd Hne.
  destruct (verify_all_run env services email w Hne) as (date & w' & Hrun & _).
  exists (Manager.aggregate email
            (List.length (Manager.get_available_services services))
            (final_tally env services email w) date), w',
         (results (final_tally env services email w)).
  split; [exact Hrun|].
  split; [apply aggregate_results|].
  rewrite final_score, (final_results env services email w Hnd), entries_scores.
  split; [|split; [reflexivity|split; [reflexivity|]]].
  - apply Forall_forall. intros item Hin.
    apply in_map_iff in Hin. destruct Hin as (fut & <- & _).
    eexists. split; [reflexivity|]. apply entry_number_or_none.
  - unfold binary64_score.
    destruct (pick scored (completed env services email w));
      split; [reflexivity|reflexivity|discriminate|discriminate].
Qed.

Lemma aggregate_score_is_mean_witness :
  exists agg w' res,
    Manager.verify_email env_scores (Manager.init env_scores) "a@x.com" None world0
    = (Returned agg, w')
    /\ Dict.get agg "results" = VDict res
    /\ Dict.keys res = ["spokeo"; "hunter"; "zerobounce"; "mailboxlayer"]
    /\ pick entry_score res = [0.6; 0.8]%float
    /\ Dict.get agg "score" = VFloat 0.7.
Proof.
  destruct (aggregate_score_is_mean env_scores (Manager.init env_scores)
                                    "a@x.com" world0)
    as (agg & w' & res & Hrun & Hres & _ & Hscores & Hmean & _).
  - vm_compute. repeat constructor; simpl; intuition discriminate.
  - vm_compute. discriminate.
  - exists agg, w', res. split; [exact Hrun|]. split; [exact Hres|].
    rewrite Hmean, Hscores.
    vm_compute in Hrun. injection Hrun as <- _.
    vm_compute in Hres. injection Hres as <-.
    repeat split; vm_compute; reflexivity.
Defined.

(** ** Bulk verification *)

Section AdaptersAnswer.
Variable env : Env.

Ltac tagged_literal := eexists; reflexivity.

Lemma zerobounce_tagged (email : string) (data : pyval) (r : pydict) :
  ZeroBounce.interpret email data = inr r -> tagged email r.
Proof.
  unfold ZeroBounce.interpret.
  destruct data; simpl; try discriminate.
  intros [= <-]. tagged_literal.
Qed.

Lemma mailboxlayer_tagged (email : string) (data : pyval) (r : pydict) :
  MailboxLayer.interpret email data = inr r -> tagged email r.
Proof.
  unfold MailboxLayer.interpret.
  destruct data as [| | | | |l|d]; simpl; try discriminate.
  - destruct (substring_of "error" s); simpl; discriminate.
  - destruct (existsb (eq_str "error") l); simpl; discriminate.
  - destruct (Dict.contains "error" d); simpl.
    + destruct (Dict.lookup "error" d) as [err|]; simpl; [|discriminate].
      destruct (py_getitem err "info"); simpl; discriminate.
    + destruct (Dict.contains "free" d); simpl; intros [= <-]; tagged_literal.
Qed.

Lemma neutrinoapi_tagged (email : string) (data : pyval) (r : pydict) :
  NeutrinoAPI.interpret email data = inr r -> tagged email r.
Proof.
  unfold NeutrinoAPI.interpret.
  destruct data; simpl; try discriminate.
  destruct (Dict.contains "is-freemail" d); simpl; intros [= <-]; tagged_literal.
Qed.

Lemma hunter_tagged (email : string) (body : pyval) (r : pydict) :
  Hunter.interpret email body = inr r -> tagged email r.
Proof.
  unfold Hunter.interpret.
  destruct body; simpl; try discriminate.
  destruct (Dict.get_default d "data" (VDict [])); simpl; try discriminate.
  intros [= <-]. tagged_literal.
Qed.

(** No adapter lets an exception out, and every result names the
    address. *)
Lemma adapter_returns (a : adapter) (email : string) (n : network) :
  exists r n', Adapter.verify_email env a email n = (r, n') /\ tagged email r.
Proof.
  destruct a as [k|k|u k|k|k]; simpl.
  - unfold ZeroBounce.verify_email.
    destruct (key_of k); [|eexists; eexists; split; [reflexivity|tagged_literal]].
    unfold bind, requests_call, ret; simpl.
    eexists. eexists. split; [reflexivity|].
    destruct (http env (clock n) _) as [e|data]; [tagged_literal|].
    destruct (ZeroBounce.interpret email data) eqn:E; [tagged_literal|].
    now apply zerobounce_tagged with (data := data).
  - unfold MailboxLayer.verify_email.
    destruct (key_of k); [|eexists; eexists; split; [reflexivity|tagged_literal]].
    unfold bind, requests_call, ret; simpl.
    eexists. eexists. split; [reflexivity|].
    destruct (http env (clock n) _) as [e|data]; [tagged_literal|].
    destruct (MailboxLayer.interpret email data) eqn:E; [tagged_literal|].
    now apply mailboxlayer_tagged with (data := data).
  - unfold NeutrinoAPI.verify_email.
    destruct (key_of k); [|eexists; eexists; split; [reflexivity|tagged_literal]].
    destruct (key_of u); [|eexists; eexists; split; [reflexivity|tagged_literal]].
    unfold bind, requests_call, ret; simpl.
    eexists. eexists. split; [reflexivity|].
    destruct (http env (clock n) _) as [e|data]; [tagged_literal|].
    destruct (NeutrinoAPI.interpret email data) eqn:E; [tagged_literal|].
    now apply neutrinoapi_tagged with (data := data).
  - unfold Spokeo.verify_email.
    destruct (key_of k); [|eexists; eexists; split; [reflexivity|tagged_literal]].
    unfold bind, requests_call, ret; simpl.
    eexists. eexists. split; [reflexivity|].
    destruct (http env (clock n) _) as [e|data]; tagged_literal.
  - unfold Hunter.verify_email.
    destruct (key_of k); [|eexists; eexists; split; [reflexivity|tagged_literal]].
    unfold bind, requests_call, ret; simpl.
    eexists. eexists. split; [reflexivity|].
    destruct (http env (clock n) _) as [e|data]; [tagged_literal|].
    destruct (Hunter.interpret email data) eqn:E; [tagged_literal|].
    now apply hunter_tagged with (body := data).
Qed.

Lemma adapter_service_answers (a : adapter) : answers (Adapter.service env a).
Proof.
  intros email n. simpl. unfold bind, ret.
  destruct (adapter_returns a email n) as (r & n' & Hrun & Htag).
  rewrite Hrun. now exists r, n'.
Qed.

Lemma init_answers (item : string * Service) :
  In item (Manager.init env) -> answers (snd item).
Proof.
  unfold Manager.init. intros Hin.
  apply in_map_iff in Hin. destruct Hin as (x & <- & _).
  apply adapter_service_answers.
Qed.
End AdaptersAnswer.

Section OneAdapter.
Variable env : Env.
Variable services : registry.
Hypothesis enabled_answer :
  forall item, In item (Manager.enabled services) -> answers (snd item).
Hypothesis one_enabled :
  List.length (Manager.get_available_services services) = 1.
Hypothesis healthy : forall table row, commit_ok env table row = true.

Lemma store_tagged (email : string) (r : pydict)
      (table : list EmailVerification) :
  tagged email r ->
  store_db env r table = table ++ [row_of r]
  /\ ev_email (row_of r) = VStr email.
Proof.
  intros [rest ->]. unfold store_db. simpl.
  rewrite healthy. split; reflexivity.
Qed.

(** An aggregate call with a single enabled adapter stores one row. *)
Lemma one_enabled_call (email : string) (w : world) :
  exists agg w' row,
    Manager.verify_email env services email None w = (Returned agg, w')
    /\ Dict.get agg "email" = VStr email
    /\ db w' = db w ++ [row]
    /\ ev_email row = VStr email.
Proof.
  assert (Manager.get_available_services services <> []) as Hne
      by (intros E; rewrite E in one_enabled; discriminate).
  destruct (verify_all_run env services email w Hne) as (date & w' & Hrun & Hdb).
  unfold Manager.get_available_services in one_enabled.
  rewrite length_map in one_enabled.
  destruct (Manager.enabled services) as [|item [|]] eqn:Hen; try discriminate.
  destruct (enabled_answer item (or_introl eq_refl) email (net w))
    as (r & n' & Htask & Htag).
  assert (completed env services email w = [(fst item, Returned r)]) as Hc.
  { unfold completed, dispatched, Manager.submit_all. rewrite Hen. simpl.
    unfold bind, ret. rewrite Htask. reflexivity. }
  rewrite Hc in Hdb. simpl in Hdb.
  destruct (store_tagged email r (db w) Htag) as (Hstore & Hrow).
  exists (Manager.aggregate email
            (List.length (Manager.get_available_services services))
            (final_tally env services email w) date), w', (row_of r).
  split; [exact Hrun|]. split; [reflexivity|].
  split; [now rewrite Hdb, Hstore|exact Hrow].
Qed.

Lemma one_enabled_batch (emails : list string) (w : world) :
  exists batch rows w',
    for_each (fun email => Manager.verify_email env services email None)
             emails w
    = (Returned batch, w')
    /\ addresses batch = map VStr emails
    /\ db w' = db w ++ rows
    /\ map ev_email rows = map VStr emails.
Proof.
  revert w.
  induction emails as [|email emails IH]; intros w; simpl.
  - exists [], [], w. rewrite app_nil_r. repeat split; reflexivity.
  - destruct (one_enabled_call email w) as (agg & w1 & row & Hrun & Haddr & Hdb & Hrow).
    destruct (IH w1) as (batch & rows & w2 & Hrest & Haddrs & Hdb2 & Hrows).
    exists (agg :: batch), (row :: rows), w2.
    unfold bind. rewrite Hrun, Hrest. unfold ret.
    split; [reflexivity|].
    split; [simpl; now rewrite Haddr, Haddrs|].
    split; [rewrite Hdb2, Hdb, <- app_assoc; reflexivity|].
    simpl. now rewrite Hrow, Hrows.
Qed.
End OneAdapter.

Lemma bulk_verify_all (env : Env) (services : registry) (emails : list string) :
  emails <> [] ->
  Manager.bulk_verify env services emails None
  = (rs <- for_each (fun email => Manager.verify_email env services email None)
                    emails ;;
     match rs with
     | Raised e => ret (Raised e)
     | Returned batch =>
         ret (Returned (VDict [("results", VList (map VDict batch))]))
     end)%m.
Proof. destruct emails; [contradiction|reflexivity]. Qed.

(** C8: bulk verification without a provider, with exactly one enabled
    adapter and a database that accepts the inserts, returns one result
    per input address, in input order, and stores one row per input
    address, in input order: an address given twice is verified twice and
    stored twice. *)
Theorem bulk_verify_keeps_duplicates (env : Env) (emails : list string)
        (w : world) :
  List.length (Manager.get_available_services (Manager.init env)) = 1 ->
  (forall table row, commit_ok env table row = true) ->
  emails <> [] ->
  exists batch rows w',
    Manager.bulk_verify env (Manager.init env) emails None w
    = (Returned (VDict [("results", VList (map VDict batch))]), w')
    /\ addresses batch = map VStr emails
    /\ db w' = db w ++ rows
    /\ map ev_email rows = map VStr emails
    /\ List.length batch = List.length emails
    /\ List.length rows = List.length emails.
Proof.
  intros Hone Hhealthy Hne.
  assert (forall item, In item (Manager.enabled (Manager.init env)) ->
                       answers (snd item)) as Hans.
  { intros item Hin. apply (init_answers env).
    unfold Manager.enabled in Hin. now apply filter_In in Hin. }
  destruct (one_enabled_batch env (Manager.init env) Hans Hone Hhealthy emails w)
    as (batch & rows & w' & Hrun & Haddr & Hdb & Hrows).
  exists batch, rows, w'.
  rewrite (bulk_verify_all env _ emails Hne).
  unfold bind. rewrite Hrun. unfold ret.
  split; [reflexivity|]. split; [exact Haddr|].
  split; [exact Hdb|]. split; [exact Hrows|].
  split.
  - apply (f_equal (@List.length pyval)) in Haddr. unfold addresses in Haddr.
    rewrite !length_map in Haddr. exact Haddr.
  - apply (f_equal (@List.length pyval)) in Hrows.
    rewrite !length_map in Hrows. exact Hrows.
Qed.

Lemma bulk_verify_keeps_duplicates_witness :
  exists batch rows w',
    Manager.bulk_verify env_hunter (Manager.init env_hunter)
                        ["a@x.com"; "a@x.com"] None world0
    = (Returned (VDict [("results", VList (map VDict batch))]), w')
    /\ addresses batch = [VStr "a@x.com"; VStr "a@x.com"]
    /\ db w' = db world0 ++ rows
    /\ map ev_email rows = [VStr "a@x.com"; VStr "a@x.com"]
    /\ List.length batch = 2
    /\ List.length rows = 2.
Proof.
  apply (bulk_verify_keeps_duplicates env_hunter ["a@x.com"; "a@x.com"] world0).
  - reflexivity.
  - reflexivity.
  - discriminate.
Defined.

(** ** A provider named by the caller *)

Lemma explicit_unconfigured (env : Env) (services : registry)
      (email name : string) (a : adapter) (w : world) :
  key_of (Some name) = Some name ->
  find_service name services = Some (Adapter.service env a) ->
  Adapter.has_credentials a = false ->
  commit_ok env (db w) (row_of (missing_credential_result a email)) = true ->
  Manager.verify_email env services email (Some name) w
  = (Returned (missing_credential_result a email),
     {| db := db w ++ [row_of (missing_credential_result a email)];
        net := net w |}).
Proof.
  intros Hname Hfind Hcred Hok.
  unfold Manager.verify_email. rewrite Hname, Hfind.
  unfold bind at 1. unfold lift. simpl svc_verify_email. unfold bind at 1.
  rewrite (adapter_without_credentials env a email (net w) Hcred). unfold ret at 1. unfold bind.
  rewrite store_run. unfold ret. simpl db. simpl net.
  unfold store_db.
  change (negb (truthy (VDict (missing_credential_result a email)))
          || negb (Dict.contains "email" (missing_credential_result a email)))
    with false.
  cbv iota. rewrite Hok. reflexivity.
Qed.

(** C9 as stated fails on the error text for "neutrinoapi": the call
    reaches the adapter and stores a row, and the result reads "API
    credentials not provided". *)
Lemma explicit_neutrinoapi_message_differs :
  exists r w',
    Manager.verify_email env_bare (Manager.init env_bare) "a@x.com"
                         (Some "neutrinoapi") world0
    = (Returned r, w')
    /\ Dict.get r "error" = VStr "API credentials not provided"
    /\ Dict.get r "error" <> VStr "API key not provided"
    /\ List.length (db w') = 1.
Proof.
  eexists. eexists. split; [vm_compute; reflexivity|].
  split; [reflexivity|]. split; [vm_compute; discriminate|reflexivity].
Qed.

(** C9, amended: for every address and every name of the registry whose
    adapter lacks its credential, [verify_email] with that name calls the
    adapter all the same, returns the adapter's missing-credential result
    ("API key not provided"; for "neutrinoapi": "API credentials not
    provided"), sends nothing over the network and, the database
    accepting the insert, stores exactly one row for it, with [is_valid]
    unknown. *)
Theorem explicit_provider_is_not_gated (env : Env) (email name : string)
        (a : adapter) (w : world) :
  In (name, a) (Manager.adapters env) ->
  Adapter.has_credentials a = false ->
  commit_ok env (db w) (row_of (missing_credential_result a email)) = true ->
  Manager.verify_email env (Manager.init env) email (Some name) w
  = (Returned (missing_credential_result a email),
     {| db := db w ++ [row_of (missing_credential_result a email)];
        net := net w |})
  /\ row_of (missing_credential_result a email)
     = {| ev_email := VStr email; ev_is_valid := VNone; ev_score := VNone;
          ev_provider := VStr name; ev_details := VNone |}
  /\ Dict.get (missing_credential_result a email) "error"
     = VStr (if String.eqb name "neutrinoapi"
             then "API credentials not provided"
             else "API key not provided").
Proof.
  intros Hin Hcred Hok.
  simpl in Hin.
  destruct Hin as [H|[H|[H|[H|[H|[]]]]]]; injection H as <- <-;
    (split; [apply explicit_unconfigured; auto|split; reflexivity]).
Qed.

Lemma explicit_provider_is_not_gated_witness :
  Manager.verify_email env_bare (Manager.init env_bare) "a@x.com"
                       (Some "zerobounce") world0
  = (Returned (missing_credential_result (ZeroBounceService None) "a@x.com"),
     {| db := db world0
              ++ [row_of (missing_credential_result (ZeroBounceService None)
                                                    "a@x.com")];
        net := net world0 |})
  /\ row_of (missing_credential_result (ZeroBounceService None) "a@x.com")
     = {| ev_email := VStr "a@x.com"; ev_is_valid := VNone; ev_score := VNone;
          ev_provider := VStr "zerobounce"; ev_details := VNone |}
  /\ Dict.get (missing_credential_result (ZeroBounceService None) "a@x.com") "error"
     = VStr "API key not provided".
Proof.
  apply (explicit_provider_is_not_gated env_bare "a@x.com" "zerobounce"
                                        (ZeroBounceService None) world0).
  - left. reflexivity.
  - reflexivity.
  - reflexivity.
Defined.

(** ** The example of the specification in floating point *)

Module Binary64.

(** The scores 0.8 and 0.6, in either order of arrival, give exactly the
    float nearest to 0.7. *)
Lemma binary64_score_example :
  binary64_score [0.8%float; 0.6%float] = VFloat 0.7
  /\ binary64_score [0.6%float; 0.8%float] = VFloat 0.7.
Proof. split; vm_compute; reflexivity. Qed.

End Binary64.

(** * Further properties of the adapters *)

Section AdapterShape.
Variable env : Env.

Lemma zerobounce_success (email : string) (data : pyval) (r : pydict) :
  ZeroBounce.interpret email data = inr r ->
  exists iv sc, r = success_result "zerobounce" email iv sc data.
Proof.
  unfold ZeroBounce.interpret.
  destruct data; simpl; try discriminate.
  intros [= <-]. eexists. eexists. reflexivity.
Qed.

Lemma mailboxlayer_success (email : string) (data : pyval) (r : pydict) :
  MailboxLayer.interpret email data = inr r ->
  exists iv sc, r = success_result "mailboxlayer" email iv sc data.
Proof.
  unfold MailboxLayer.interpret.
  destruct data as [| | | | |l|d]; simpl; try discriminate.
  - destruct (substring_of "error" s); simpl; discriminate.
  - destruct (existsb (eq_str "error") l); simpl; discriminate.
  - destruct (Dict.contains "error" d); simpl.
    + destruct (Dict.lookup "error" d) as [err|]; simpl; [|discriminate].
      destruct (py_getitem err "info"); simpl; discriminate.
    + destruct (Dict.contains "free" d); simpl; intros [= <-];
        eexists; eexists; reflexivity.
Qed.

Lemma neutrinoapi_success (email : string) (data : pyval) (r : pydict) :
  NeutrinoAPI.interpret email data = inr r ->
  exists iv sc, r = success_result "neutrinoapi" email iv sc data.
Proof.
  unfold NeutrinoAPI.interpret.
  destruct data; simpl; try discriminate.
  destruct (Dict.contains "is-freemail" d); simpl; intros [= <-];
    eexists; eexists; reflexivity.
Qed.

Lemma hunter_success (email : string) (body : pyval) (r : pydict) :
  Hunter.interpret email body = inr r ->
  exists iv sc det, r = success_result "hunter" email iv sc det.
Proof.
  unfold Hunter.interpret.
  destruct body; simpl; try discriminate.
  destruct (Dict.get_default d "data" (VDict [])); simpl; try discriminate.
  intros [= <-]. eexists. eexists. eexists. reflexivity.
Qed.

(** What [verify_email] of an adapter does, in one statement: without
    credentials nothing is sent; with credentials one request goes out and
    the result is built from its answer alone. *)
Lemma adapter_run (a : adapter) (email : string) (n : network) :
  (Adapter.has_credentials a = false
   /\ Adapter.verify_email env a email n = (missing_credential_result a email, n))
  \/ (Adapter.has_credentials a = true
      /\ exists req,
           snd (Adapter.verify_email env a email n) = one_more req n
           /\ mentions email req
           /\ (forall e, http env (clock n) req = Failed e ->
                 fst (Adapter.verify_email env a email n)
                 = failure_result (Adapter.provider a) email (str_exc env e))
           /\ (forall data, http env (clock n) req = Json data ->
                 (exists msg,
                     fst (Adapter.verify_email env a email n)
                     = failure_result (Adapter.provider a) email msg)
                 \/ (exists iv sc det,
                        fst (Adapter.verify_email env a email n)
                        = success_result (Adapter.provider a) email iv sc det))).
Proof.
  destruct (Adapter.has_credentials a) eqn:Hcred.
  - right. split; [reflexivity|].
    destruct a as [k|k|u k|k|k]; simpl in Hcred |- *.
    + unfold ZeroBounce.verify_email.
      destruct (key_of_configured _ Hcred) as (key & -> & _).
      unfold bind, requests_call, ret; simpl.
      eexists. split; [reflexivity|]. split; [left; reflexivity|].
      split; [intros e ->; reflexivity|].
      intros data ->.
      destruct (ZeroBounce.interpret email data) eqn:E.
      * left. eexists. reflexivity.
      * right. destruct (zerobounce_success _ _ _ E) as (iv & sc & ->).
        eexists. eexists. eexists. reflexivity.
    + unfold MailboxLayer.verify_email.
      destruct (key_of_configured _ Hcred) as (key & -> & _).
      unfold bind, requests_call, ret; simpl.
      eexists. split; [reflexivity|]. split; [left; reflexivity|].
      split; [intros e ->; reflexivity|].
      intros data ->.
      destruct (MailboxLayer.interpret email data) eqn:E.
      * left. eexists. reflexivity.
      * right. destruct (mailboxlayer_success _ _ _ E) as (iv & sc & ->).
        eexists. eexists. eexists. reflexivity.
    + unfold NeutrinoAPI.verify_email.
      apply andb_true_iff in Hcred. destruct Hcred as [Hk Hu].
      destruct (key_of_configured _ Hk) as (key & -> & _).
      destruct (key_of_configured _ Hu) as (uid & -> & _).
      unfold bind, requests_call, ret; simpl.
      eexists. split; [reflexivity|]. split; [right; reflexivity|].
      split; [intros e ->; reflexivity|].
      intros data ->.
      destruct (NeutrinoAPI.interpret email data) eqn:E.
      * left. eexists. reflexivity.
      * right. destruct (neutrinoapi_success _ _ _ E) as (iv & sc & ->).
        eexists. eexists. eexists. reflexivity.
    + unfold Spokeo.verify_email.
      destruct (key_of_configured _ Hcred) as (key & -> & _).
      unfold bind, requests_call, ret; simpl.
      eexists. split; [reflexivity|]. split; [left; reflexivity|].
      split; [intros e ->; reflexivity|].
      intros data ->. right.
      eexists. eexists. eexists. reflexivity.
    + unfold Hunter.verify_email.
      destruct (key_of_configured _ Hcred) as (key & -> & _).
      unfold bind, requests_call, ret; simpl.
      eexists. split; [reflexivity|]. split; [left; reflexivity|].
      split; [intros e ->; reflexivity|].
      intros data ->.
      destruct (Hunter.interpret email data) eqn:E.
      * left. eexists. reflexivity.
      * right. destruct (hunter_success _ _ _ E) as (iv & sc & det & ->).
        eexists. eexists. eexists. reflexivity.
  - left. split; [reflexivity|]. now apply adapter_without_credentials.
Qed.
End AdapterShape.

(** X1: an adapter that holds its credentials sends exactly one request
    per call of [verify_email], and the request names the address. *)
Theorem adapter_sends_one_request (env : Env) (a : adapter) (email : string)
        (n : network) :
  Adapter.has_credentials a = true ->
  exists req,
    snd (Adapter.verify_email env a email n)
    = {| sent := sent n ++ [req]; clock := S (clock n) |}
    /\ mentions email req.
Proof.
  intros Hcred.
  destruct (adapter_run env a email n) as [[Hno _]|[_ (req & Hsnd & Hm & _)]].
  - congruence.
  - exists req. split; [exact Hsnd|exact Hm].
Qed.

Lemma adapter_sends_one_request_witness :
  exists req,
    snd (Adapter.verify_email env_bare (NeutrinoAPIService (Some "uid") (Some "secret"))
                              "a@x.com" net0)
    = {| sent := sent net0 ++ [req]; clock := S (clock net0) |}
    /\ mentions "a@x.com" req.
Proof.
  apply (adapter_sends_one_request env_bare
           (NeutrinoAPIService (Some "uid") (Some "secret")) "a@x.com" net0).
  reflexivity.
Defined.

(** X2: when the request of an adapter fails (connection error, error
    status, undecodable body), [verify_email] returns the failure
    dictionary: the address, [is_valid] unknown, the text of the exception
    and the provider name, and nothing else. *)
Theorem transport_failure_is_reported (env : Env) (a : adapter)
        (email : string) (n : network) (e : pyexn) :
  Adapter.has_credentials a = true ->
  (forall req, http env (clock n) req = Failed e) ->
  fst (Adapter.verify_email env a email n)
  = [("email", VStr email); ("is_valid", VNone);
     ("error", VStr (str_exc env e));
     ("provider", VStr (Adapter.provider a))].
Proof.
  intros Hcred Hfail.
  destruct (adapter_run env a email n) as [[Hno _]|[_ (req & _ & _ & Hf & _)]].
  - congruence.
  - exact (Hf e (Hfail req)).
Qed.

Lemma transport_failure_is_reported_witness :
  fst (Adapter.verify_email env_bare (HunterService (Some "secret")) "a@x.com" net0)
  = [("email", VStr "a@x.com"); ("is_valid", VNone);
     ("error", VStr "Connection refused"); ("provider", VStr "hunter")].
Proof.
  apply (transport_failure_is_reported env_bare (HunterService (Some "secret"))
                                       "a@x.com" net0
                                       (RequestError "Connection refused")).
  - reflexivity.
  - reflexivity.
Defined.

(** X3: whatever the provider answers, the result of an adapter names the
    address and the adapter's own provider, has an [is_valid] entry, and
    carries either an error (then [is_valid] is unknown) or a score with
    the details, never both and never neither. *)
Theorem adapter_result_shape (env : Env) (a : adapter) (email : string)
        (n : network) :
  let r := fst (Adapter.verify_email env a email n) in
  Dict.get r "email" = VStr email
  /\ Dict.get r "provider" = VStr (Adapter.provider a)
  /\ Dict.contains "is_valid" r = true
  /\ Dict.contains "error" r = negb (Dict.contains "score" r)
  /\ Dict.contains "details" r = Dict.contains "score" r
  /\ (Dict.contains "error" r = true -> Dict.get r "is_valid" = VNone).
Proof.
  intros r. subst r.
  assert ((exists msg, fst (Adapter.verify_email env a email n)
                       = failure_result (Adapter.provider a) email msg)
          \/ (exists iv sc det, fst (Adapter.verify_email env a email n)
                                = success_result (Adapter.provider a) email iv sc det))
    as [(msg & ->)|(iv & sc & det & ->)].
  { destruct (adapter_run env a email n)
      as [[_ Hrun]|[_ (req & _ & _ & Hf & Hj)]].
    - left. rewrite Hrun. simpl. eexists. reflexivity.
    - destruct (http env (clock n) req) as [e|data] eqn:Hresp.
      + left. eexists. exact (Hf e eq_refl).
      + exact (Hj data eq_refl). }
  - repeat split; reflexivity.
  - repeat split; try reflexivity. simpl. discriminate.
Qed.

(** X4: a payload that is not a JSON object.  ZeroBounce, MailboxLayer,
    NeutrinoAPI and Hunter answer with the failure dictionary; Spokeo
    treats it as "not found": [is_valid] false, score 0.0, empty details,
    no error. *)
Theorem non_object_payload (env : Env) (a : adapter) (email : string)
        (n : network) (data : pyval) :
  Adapter.has_credentials a = true ->
  (forall req, http env (clock n) req = Json data) ->
  not_object data ->
  match a with
  | SpokeoService _ =>
      fst (Adapter.verify_email env a email n)
      = [("email", VStr email); ("is_valid", VBool false); ("score", VFloat 0);
         ("provider", VStr "spokeo"); ("details", VDict [])]
  | _ =>
      exists msg,
        fst (Adapter.verify_email env a email n)
        = [("email", VStr email); ("is_valid", VNone); ("error", VStr msg);
           ("provider", VStr (Adapter.provider a))]
  end.
Proof.
  intros Hcred Hresp Hobj.
  destruct a as [k|k|u k|k|k]; simpl in Hcred |- *.
  - unfold ZeroBounce.verify_email.
    destruct (key_of_configured _ Hcred) as (key & -> & _).
    unfold bind, requests_call, ret; simpl. rewrite Hresp.
    destruct data; try contradiction; eexists; reflexivity.
  - unfold MailboxLayer.verify_email.
    destruct (key_of_configured _ Hcred) as (key & -> & _).
    unfold bind, requests_call, ret; simpl. rewrite Hresp.
    destruct (MailboxLayer.interpret email data) eqn:E;
      [eexists; reflexivity|].
    exfalso. revert E. unfold MailboxLayer.interpret.
    destruct data as [| | | | |l|d]; simpl; try discriminate.
    + destruct (substring_of "error" s); simpl; discriminate.
    + destruct (existsb (eq_str "error") l); simpl; discriminate.
    + contradiction.
  - unfold NeutrinoAPI.verify_email.
    apply andb_true_iff in Hcred. destruct Hcred as [Hk Hu].
    destruct (key_of_configured _ Hk) as (key & -> & _).
    destruct (key_of_configured _ Hu) as (uid & -> & _).
    unfold bind, requests_call, ret; simpl. rewrite Hresp.
    destruct data; try contradiction; eexists; reflexivity.
  - unfold Spokeo.verify_email.
    destruct (key_of_configured _ Hcred) as (key & -> & _).
    unfold bind, requests_call, ret; simpl. rewrite Hresp.
    destruct data; try contradiction; reflexivity.
  - unfold Hunter.verify_email.
    destruct (key_of_configured _ Hcred) as (key & -> & _).
    unfold bind, requests_call, ret; simpl. rewrite Hresp.
    destruct data; try contradiction; eexists; reflexivity.
Qed.

Lemma non_object_payload_witness :
  fst (Adapter.verify_email env_garbled (SpokeoService (Some "secret"))
                            "a@x.com" net0)
  = [("email", VStr "a@x.com"); ("is_valid", VBool false); ("score", VFloat 0);
     ("provider", VStr "spokeo"); ("details", VDict [])].
Proof.
  apply (non_object_payload env_garbled (SpokeoService (Some "secret"))
                            "a@x.com" net0 (VList [VStr "unexpected"])).
  - reflexivity.
  - reflexivity.
  - exact I.
Defined.

(** X5: MailboxLayer reports its own errors (a wrong access key, an
    exhausted quota) with status 200 and an ["error"] object.  Such a
    payload always gives the failure dictionary, whatever else it holds,
    and when the object has an ["info"] entry the error text is that of
    [Exception(info)]. *)
Theorem mailboxlayer_error_payload (env : Env) (k : option string)
        (email : string) (n : network) (d : pydict) :
  configured k = true ->
  (forall req, http env (clock n) req = Json (VDict d)) ->
  Dict.contains "error" d = true ->
  exists msg,
    fst (MailboxLayer.verify_email env k email n)
    = [("email", VStr email); ("is_valid", VNone); ("error", VStr msg);
       ("provider", VStr "mailboxlayer")]
    /\ (forall err info,
           Dict.lookup "error" d = Some (VDict err) ->
           Dict.lookup "info" err = Some info ->
           msg = str_exc env (PlainException info)).
Proof.
  intros Hk Hresp Herr.
  unfold MailboxLayer.verify_email.
  destruct (key_of_configured _ Hk) as (key & -> & _).
  unfold bind, requests_call, ret; simpl. rewrite Hresp.
  unfold MailboxLayer.interpret; simpl. rewrite Herr; simpl.
  unfold Dict.contains in Herr.
  destruct (Dict.lookup "error" d) as [v|]; [|discriminate]. simpl.
  destruct (py_getitem v "info") as [e|info'] eqn:Hinfo; simpl.
  - eexists. split; [reflexivity|].
    intros err info [= ->] Hi. simpl in Hinfo. rewrite Hi in Hinfo. discriminate.
  - eexists. split; [reflexivity|].
    intros err info [= ->] Hi. simpl in Hinfo. rewrite Hi in Hinfo.
    now injection Hinfo as ->.
Qed.

Lemma mailboxlayer_error_payload_witness :
  exists msg,
    fst (MailboxLayer.verify_email env_mailbox_refuses (Some "secret")
                                   "a@x.com" net0)
    = [("email", VStr "a@x.com"); ("is_valid", VNone); ("error", VStr msg);
       ("provider", VStr "mailboxlayer")]
    /\ msg = "You have not supplied a valid API Access Key.".
Proof.
  destruct (mailboxlayer_error_payload env_mailbox_refuses (Some "secret")
              "a@x.com" net0
              [("success", VBool false);
               ("error", VDict [("code", VInt 101);
                                ("type", VStr "invalid_access_key");
                                ("info", VStr "You have not supplied a valid API Access Key.")]);
               ("format_valid", VBool true)])
    as (msg & Hrun & Hmsg).
  - reflexivity.
  - reflexivity.
  - reflexivity.
  - exists msg. split; [exact Hrun|].
    rewrite (Hmsg _ _ eq_refl eq_refl). reflexivity.
Defined.

(** X6: MailboxLayer's verdict and score.  [is_valid] is true exactly when
    the three primary checks pass, so a valid result scores at least 0.6
    and an invalid one at most 0.8.  The two ranges overlap and the
    overlap is reached: an answer that passes the three primary checks
    only is valid with score 0.6, an answer that fails one of them and
    passes the four other checks is invalid with score 0.8.  The score
    alone does not tell a valid address from an invalid one. *)
Theorem mailboxlayer_verdict_and_score (env : Env) (k : option string)
        (email : string) (n : network) :
  let r := fst (MailboxLayer.verify_email env k email n) in
  (Dict.get r "is_valid" = VBool true ->
   exists x, Dict.get r "score" = VFloat x
             /\ PrimFloat.leb 0.6 x = true /\ PrimFloat.leb x 1 = true)
  /\ (Dict.get r "is_valid" = VBool false ->
      exists x, Dict.get r "score" = VFloat x
                /\ PrimFloat.leb 0 x = true /\ PrimFloat.leb x 0.8 = true)
  /\ exists passes fails r1 r2,
       MailboxLayer.interpret email passes = inr r1
       /\ MailboxLayer.interpret email fails = inr r2
       /\ Dict.get r1 "is_valid" = VBool true
       /\ Dict.get r1 "score" = VFloat 0.6
       /\ Dict.get r2 "is_valid" = VBool false
       /\ Dict.get r2 "score" = VFloat 0.8
       /\ PrimFloat.ltb 0.6 0.8 = true.
Proof.
  intros r. subst r.
  split; [|split].
  3:{ exists (VDict [("format_valid", VBool true); ("mx_found", VBool true);
                     ("smtp_check", VBool true); ("disposable", VBool true);
                     ("free", VBool true)]),
             (VDict [("format_valid", VBool true); ("mx_found", VBool true);
                     ("smtp_check", VBool false); ("disposable", VBool false);
                     ("free", VBool false)]).
      eexists. eexists.
      split; [reflexivity|]. split; [reflexivity|].
      repeat split; reflexivity. }
  all: unfold MailboxLayer.verify_email;
    (destruct (key_of k) as [key|]; [|discriminate]);
    unfold bind, requests_call, ret; simpl;
    (destruct (http env (clock n) _) as [e|data]; [discriminate|]);
    unfold MailboxLayer.interpret;
    destruct data as [| | | | |l|d]; simpl; try discriminate.
  all: try (destruct (substring_of "error" s); simpl; discriminate).
  all: try (destruct (existsb (eq_str "error") l); simpl; discriminate).
  all: destruct (Dict.contains "error" d); simpl;
    [destruct (Dict.lookup "error" d) as [err|]; simpl; [|discriminate];
     destruct (py_getitem err "info"); simpl; discriminate|].
  all: unfold passed_fraction;
    destruct (Dict.contains "free" d); simpl;
    destruct (truthy (Dict.get_default d "format_valid" (VBool false)));
    destruct (truthy (Dict.get_default d "mx_found" (VBool false)));
    destruct (truthy (Dict.get_default d "smtp_check" (VBool false)));
    destruct (truthy (Dict.get_default d "disposable" (VBool true)));
    try destruct (truthy (Dict.get_default d "free" (VBool true)));
    simpl; intros H; try discriminate H;
    (eexists; split; [reflexivity|split; reflexivity]).
Qed.

(** * Bulk and auxiliary methods of the adapters *)

Section BulkFacts.
Variable env : Env.

End BulkFacts.



(** X8: [bulk_verify] of ZeroBounce and Hunter, with a key, sends a single
    POST whatever the number of addresses and returns the provider's
    answer as it is.  ZeroBounce's body carries the whole list; Hunter's
    request carries no address at all, so the call does not depend on the
    list it is given. *)
Theorem endpoint_bulk_verify (env : Env) (k : option string)
        (emails : list string) (n : network) :
  configured k = true ->
  (exists req,
      snd (ZeroBounce.bulk_verify env k emails n)
      = {| sent := sent n ++ [req]; clock := S (clock n) |}
      /\ req_method req = "POST"
      /\ (exists body, req_json req = VDict body
                       /\ Dict.get body "email_batch" = VList (map VStr emails))
      /\ (forall body, http env (clock n) req = Json body ->
                       fst (ZeroBounce.bulk_verify env k emails n) = body))
  /\ (exists req,
         snd (Hunter.bulk_verify env k emails n)
         = {| sent := sent n ++ [req]; clock := S (clock n) |}
         /\ req_method req = "POST"
         /\ req_json req = VNone
         /\ req_params req = []
         /\ (forall body, http env (clock n) req = Json body ->
                          fst (Hunter.bulk_verify env k emails n) = body)
         /\ (forall others,
                Hunter.bulk_verify env k others n
                = Hunter.bulk_verify env k emails n)).
Proof.
  intros Hk.
  destruct (key_of_configured _ Hk) as (key & Hkey & _).
  split.
  - unfold ZeroBounce.bulk_verify. rewrite Hkey.
    unfold bind, requests_call, ret; simpl.
    eexists. split; [reflexivity|]. split; [reflexivity|].
    split; [eexists; split; reflexivity|].
    intros body ->. reflexivity.
  - unfold Hunter.bulk_verify. rewrite Hkey.
    unfold bind, requests_call, ret; simpl.
    eexists. split; [reflexivity|]. repeat split.
    intros body ->. reflexivity.
Qed.

Lemma endpoint_bulk_verify_witness :
  exists req,
    snd (ZeroBounce.bulk_verify env_bare (Some "secret") ["a@x.com"; "b@x.com"] net0)
    = {| sent := sent net0 ++ [req]; clock := S (clock net0) |}
    /\ req_method req = "POST".
Proof.
  destruct (endpoint_bulk_verify env_bare (Some "secret")
                                 ["a@x.com"; "b@x.com"] net0 eq_refl)
    as ((req & Hsnd & Hpost & _) & _).
  exists req. split; [exact Hsnd|exact Hpost].
Defined.

(** X9: without the credentials, [bulk_verify] of every adapter returns an
    error dictionary at once ("API key not provided"; NeutrinoAPI: "API
    credentials not provided") and sends nothing, however long the list. *)
Theorem bulk_verify_without_credentials (env : Env) (a : adapter)
        (emails : list string) (n : network) :
  Adapter.has_credentials a = false ->
  Adapter.bulk_verify env a emails n
  = (VDict [("error", VStr (match a with
                            | NeutrinoAPIService _ _ =>
                                "API credentials not provided"
                            | _ => "API key not provided"
                            end))],
     n).
Proof.
  intros Hcred.
  destruct a as [k|k|u k|k|k]; simpl in *.
  - unfold ZeroBounce.bulk_verify. now rewrite (key_of_unconfigured _ Hcred).
  - unfold MailboxLayer.bulk_verify. now rewrite (key_of_unconfigured _ Hcred).
  - unfold NeutrinoAPI.bulk_verify.
    apply andb_false_iff in Hcred. destruct Hcred as [Hk|Hu].
    + now rewrite (key_of_unconfigured _ Hk).
    + rewrite (key_of_unconfigured _ Hu). now destruct (key_of k).
  - unfold Spokeo.bulk_verify. now rewrite (key_of_unconfigured _ Hcred).
  - unfold Hunter.bulk_verify. now rewrite (key_of_unconfigured _ Hcred).
Qed.

Lemma bulk_verify_without_credentials_witness :
  Adapter.bulk_verify env_bare (NeutrinoAPIService None (Some "secret"))
                      ["a@x.com"; "b@x.com"] net0
  = (VDict [("error", VStr "API credentials not provided")], net0).
Proof.
  apply (bulk_verify_without_credentials env_bare
           (NeutrinoAPIService None (Some "secret")) ["a@x.com"; "b@x.com"] net0).
  reflexivity.
Defined.

(** X10: the auxiliary methods of the adapters ([get_credits],
    [check_bulk_status], [email_finder], [domain_search],
    [get_person_info]) are gated by the key: without it they return
    [{"error": "API key not provided"}] and send nothing; with it they send
    exactly one GET request. *)
Theorem auxiliary_key_gate (env : Env) (k : option string) (c : auxiliary)
        (n : network) :
  if configured k
  then exists req,
         snd (call_auxiliary env k c n)
         = {| sent := sent n ++ [req]; clock := S (clock n) |}
         /\ req_method req = "GET"
  else call_auxiliary env k c n
       = (VDict [("error", VStr "API key not provided")], n).
Proof.
  destruct (configured k) eqn:Hk.
  - destruct (key_of_configured _ Hk) as (key & Hkey & _).
    destruct c; simpl;
      unfold ZeroBounce.get_credits, ZeroBounce.check_bulk_status,
        Hunter.email_finder, Hunter.domain_search, Spokeo.get_person_info;
      rewrite Hkey; unfold bind, requests_call, ret; simpl;
      eexists; split; reflexivity.
  - pose proof (key_of_unconfigured _ Hk) as Hkey.
    destruct c; simpl;
      unfold ZeroBounce.get_credits, ZeroBounce.check_bulk_status,
        Hunter.email_finder, Hunter.domain_search, Spokeo.get_person_info;
      rewrite Hkey; reflexivity.
Qed.

(** X11: [email_finder] of Hunter, with a key, asks for the domain and
    adds each of [first_name], [last_name], [company] to the query exactly
    when it is given and not empty; it returns the ["data"] entry of the
    answer, an empty dictionary when the answer has none, and an error
    dictionary when the answer is not a JSON object. *)
Theorem email_finder_request (env : Env) (k : option string) (domain : string)
        (first_name last_name company : option string) (n : network) :
  configured k = true ->
  exists req,
    snd (Hunter.email_finder env k domain first_name last_name company n)
    = {| sent := sent n ++ [req]; clock := S (clock n) |}
    /\ Dict.get (req_params req) "domain" = VStr domain
    /\ Dict.contains "first_name" (req_params req) = configured first_name
    /\ Dict.contains "last_name" (req_params req) = configured last_name
    /\ Dict.contains "company" (req_params req) = configured company
    /\ (forall v, key_of first_name = Some v ->
                  Dict.get (req_params req) "first_name" = VStr v)
    /\ (forall v, key_of last_name = Some v ->
                  Dict.get (req_params req) "last_name" = VStr v)
    /\ (forall v, key_of company = Some v ->
                  Dict.get (req_params req) "company" = VStr v)
    /\ (forall body, http env (clock n) req = Json (VDict body) ->
          fst (Hunter.email_finder env k domain first_name last_name company n)
          = Dict.get_default body "data" (VDict []))
    /\ (forall body, http env (clock n) req = Json body -> not_object body ->
          exists msg,
            fst (Hunter.email_finder env k domain first_name last_name company n)
            = VDict [("error", VStr msg)]).
Proof.
  intros Hk.
  destruct (key_of_configured _ Hk) as (key & Hkey & _).
  unfold Hunter.email_finder. rewrite Hkey.
  unfold bind, requests_call, ret; simpl.
  eexists. split; [reflexivity|]. simpl.
  assert (forall o : option string,
             configured o = match key_of o with Some _ => true | None => false end)
    as Hconf.
  { intros [s|]; simpl; [|reflexivity]. now destruct (String.eqb s ""). }
  rewrite !Hconf. unfold Hunter.add_param.
  destruct (key_of first_name) as [f|], (key_of last_name) as [l|],
           (key_of company) as [c|]; simpl;
    (repeat split; try reflexivity; try discriminate;
     try (intros v [= <-]; reflexivity);
     try (intros body ->; reflexivity);
     try (intros body -> Hobj; destruct body; try contradiction;
          eexists; reflexivity)).
Qed.

Lemma email_finder_request_witness :
  exists req,
    snd (Hunter.email_finder env_bare (Some "secret") "x.com"
                             (Some "Ada") None (Some "") net0)
    = {| sent := sent net0 ++ [req]; clock := S (clock net0) |}
    /\ Dict.get (req_params req) "domain" = VStr "x.com"
    /\ Dict.contains "first_name" (req_params req) = true
    /\ Dict.contains "last_name" (req_params req) = false
    /\ Dict.contains "company" (req_params req) = false.
Proof.
  destruct (email_finder_request env_bare (Some "secret") "x.com"
                                 (Some "Ada") None (Some "") net0 eq_refl)
    as (req & Hsnd & Hd & Hf & Hl & Hc & _).
  exists req. repeat split; assumption.
Defined.

(** * Further properties of the manager *)

Section ManagerRuns.
Variable env : Env.
Variable services : registry.

(** The aggregate branch, with the world it leaves. *)
Lemma verify_all_exact (email : string) (w : world) :
  Manager.get_available_services services <> [] ->
  let n1 := snd (Manager.submit_all services email (net w)) in
  Manager.verify_email env services email None w
  = (Returned
       (Manager.aggregate email
          (List.length (Manager.get_available_services services))
          (final_tally env services email w) (utcnow env (S (clock n1)))),
     {| db := persist env (pick returned (completed env services email w)) (db w);
        net := {| sent := sent n1; clock := S (S (clock n1)) |} |}).
Proof.
  intros Hne n1. subst n1.
  unfold Manager.verify_email; simpl. unfold Manager.verify_all.
  destruct (Manager.get_available_services services) as [|name names] eqn:Hav;
    [contradiction|].
  unfold bind at 1. unfold lift at 1.
  unfold final_tally, completed, dispatched.
  destruct (Manager.submit_all services email (net w)) as [futures n1]; simpl.
  unfold bind, lift, Manager.as_completed; simpl.
  rewrite foldM_collect; simpl.
  rewrite fold_store_persist. reflexivity.
Qed.

(** The explicit branch, for a service that is found and returns. *)
Lemma verify_named_run (email name : string) (service : Service)
      (r : pydict) (n' : network) (w : world) :
  key_of (Some name) = Some name ->
  find_service name services = Some service ->
  svc_verify_email service email (net w) = (Returned r, n') ->
  Manager.verify_email env services email (Some name) w
  = (Returned r, {| db := store_db env r (db w); net := n' |}).
Proof.
  intros Hname Hfind Hrun.
  unfold Manager.verify_email. rewrite Hname, Hfind.
  unfold bind at 1. unfold lift. rewrite Hrun.
  unfold bind. rewrite store_run. reflexivity.
Qed.
End ManagerRuns.

Lemma find_in_init (env : Env) (name : string) (a : adapter) :
  In (name, a) (Manager.adapters env) ->
  key_of (Some name) = Some name
  /\ find_service name (Manager.init env) = Some (Adapter.service env a)
  /\ Adapter.provider a = name.
Proof.
  simpl. intros [H|[H|[H|[H|[H|[]]]]]]; injection H as <- <-;
    repeat split; reflexivity.
Qed.

(** X12: a provider name that is not in the registry.  [verify_email]
    returns an error dictionary that quotes the name, with [verified]
    false, and [bulk_verify] (on a non-empty list) an error dictionary
    with the same text; neither touches the table or the network. *)
Theorem unknown_provider (env : Env) (services : registry) (email name : string)
        (emails : list string) (w : world) :
  name <> "" ->
  find_service name services = None ->
  emails <> [] ->
  Manager.verify_email env services email (Some name) w
  = (Returned [("email", VStr email);
               ("error", VStr ("Service '" ++ name ++ "' not found"));
               ("verified", VBool false)],
     w)
  /\ Manager.bulk_verify env services emails (Some name) w
     = (Returned (VDict [("error", VStr ("Service '" ++ name ++ "' not found"))]),
        w).
Proof.
  intros Hname Hfind Hne.
  assert (key_of (Some name) = Some name) as Hkey.
  { simpl. destruct (String.eqb_spec name ""); [contradiction|reflexivity]. }
  split.
  - unfold Manager.verify_email. now rewrite Hkey, Hfind.
  - unfold Manager.bulk_verify.
    destruct emails; [contradiction|]. now rewrite Hkey, Hfind.
Qed.

Lemma unknown_provider_witness :
  Manager.verify_email env_bare (Manager.init env_bare) "a@x.com"
                       (Some "zerobouce") world0
  = (Returned [("email", VStr "a@x.com");
               ("error", VStr "Service 'zerobouce' not found");
               ("verified", VBool false)],
     world0)
  /\ Manager.bulk_verify env_bare (Manager.init env_bare) ["a@x.com"]
                         (Some "zerobouce") world0
     = (Returned (VDict [("error", VStr "Service 'zerobouce' not found")]),
        world0).
Proof.
  apply (unknown_provider env_bare (Manager.init env_bare) "a@x.com"
                          "zerobouce" ["a@x.com"] world0).
  - discriminate.
  - reflexivity.
  - discriminate.
Defined.

(** X13: [verify_email] with the name of a registered adapter returns the
    adapter's result as it is, sends what the adapter sends, and hands
    that result to the store: when the database accepts the insert the
    table grows by exactly one row, which holds the address and the
    provider name. *)
Theorem named_provider_result_is_stored (env : Env) (email name : string)
        (a : adapter) (w : world) :
  In (name, a) (Manager.adapters env) ->
  let r := fst (Adapter.verify_email env a email (net w)) in
  let n' := snd (Adapter.verify_email env a email (net w)) in
  Manager.verify_email env (Manager.init env) email (Some name) w
  = (Returned r, {| db := store_db env r (db w); net := n' |})
  /\ (commit_ok env (db w) (row_of r) = true ->
      store_db env r (db w) = db w ++ [row_of r])
  /\ (commit_ok env (db w) (row_of r) = false -> store_db env r (db w) = db w)
  /\ ev_email (row_of r) = VStr email
  /\ ev_provider (row_of r) = VStr name.
Proof.
  intros Hin r n'.
  destruct (find_in_init env name a Hin) as (Hkey & Hfind & Hprov).
  destruct (adapter_returns env a email (net w)) as (r0 & n0 & Hrun & (rest & Hr)).
  assert (Dict.get r "provider" = VStr name) as Hp.
  { subst r. rewrite <- Hprov.
    destruct (adapter_run env a email (net w))
      as [[_ Hno]|[_ (req & _ & _ & Hf & Hj)]].
    - rewrite Hno. reflexivity.
    - destruct (http env (clock (net w)) req) as [e|data] eqn:Hresp.
      + rewrite (Hf e eq_refl). reflexivity.
      + destruct (Hj data eq_refl) as [(msg & ->)|(iv & sc & det & ->)];
          reflexivity. }
  subst r n'. rewrite Hrun in *. simpl in *. subst r0.
  split.
  - apply verify_named_run with (service := Adapter.service env a); auto.
    simpl. unfold bind, ret. now rewrite Hrun.
  - unfold store_db. simpl.
    split; [intros ->; reflexivity|].
    split; [intros ->; reflexivity|].
    split; [reflexivity|exact Hp].
Qed.

Lemma named_provider_result_is_stored_witness :
  Manager.verify_email env_hunter (Manager.init env_hunter) "a@x.com"
                       (Some "hunter") world0
  = (Returned (fst (Adapter.verify_email env_hunter (HunterService (Some "secret"))
                                         "a@x.com" net0)),
     {| db := store_db env_hunter
                (fst (Adapter.verify_email env_hunter (HunterService (Some "secret"))
                                           "a@x.com" net0))
                (db world0);
        net := snd (Adapter.verify_email env_hunter (HunterService (Some "secret"))
                                         "a@x.com" net0) |}).
Proof.
  apply (named_provider_result_is_stored env_hunter "a@x.com" "hunter"
                                         (HunterService (Some "secret")) world0).
  right. right. right. right. left. reflexivity.
Defined.

(** ** The table and the answer *)

Lemma verify_named_unfold (env : Env) (services : registry)
      (email name : string) (service_name : option string) (service : Service)
      (w : world) :
  key_of service_name = Some name ->
  find_service name services = Some service ->
  Manager.verify_email env services email service_name w
  = match svc_verify_email service email (net w) with
    | (Returned r, n') =>
        (Returned r, {| db := store_db env r (db w); net := n' |})
    | (Raised e, n') => (Raised e, {| db := db w; net := n' |})
    end.
Proof.
  intros Hkey Hfind.
  unfold Manager.verify_email. rewrite Hkey, Hfind.
  unfold bind at 1. unfold lift.
  destruct (svc_verify_email service email (net w)) as [[r|e] n'].
  - unfold bind. rewrite store_run. reflexivity.
  - reflexivity.
Qed.

Lemma for_each_cons {A B : Type} (f : A -> M (outcome B)) (a : A) (l : list A)
      (w : world) :
  for_each f (a :: l) w
  = match f a w with
    | (Raised e, w') => (Raised e, w')
    | (Returned b, w') =>
        match for_each f l w' with
        | (Raised e, w'') => (Raised e, w'')
        | (Returned bs, w'') => (Returned (b :: bs), w'')
        end
    end.
Proof.
  simpl. unfold bind at 1.
  destruct (f a w) as [[b|e] w']; [|reflexivity].
  unfold bind. destruct (for_each f l w') as [[bs|e] w'']; reflexivity.
Qed.

Lemma bulk_verify_all_run (env : Env) (services : registry)
      (emails : list string) (service_name : option string) (w : world) :
  emails <> [] ->
  key_of service_name = None ->
  Manager.bulk_verify env services emails service_name w
  = match for_each (fun email => Manager.verify_email env services email None)
                   emails w with
    | (Raised e, w') => (Raised e, w')
    | (Returned batch, w') =>
        (Returned (VDict [("results", VList (map VDict batch))]), w')
    end.
Proof.
  intros Hne Hkey. unfold Manager.bulk_verify.
  destruct emails as [|email emails]; [contradiction|].
  rewrite Hkey. unfold bind.
  destruct (for_each _ (email :: emails) w) as [[bs|e] w']; reflexivity.
Qed.

Lemma bulk_verify_named_run (env : Env) (services : registry)
      (emails : list string) (service_name : option string) (name : string)
      (service : Service) (w : world) :
  emails <> [] ->
  key_of service_name = Some name ->
  find_service name services = Some service ->
  Manager.bulk_verify env services emails service_name w
  = match svc_bulk_verify service with
    | Attr bulk => lift (bulk emails) w
    | NoAttr =>
        match for_each (fun email => lift (svc_verify_email service email))
                       emails w with
        | (Raised e, w') => (Raised e, w')
        | (Returned batch, w') =>
            (Returned (VDict [("results", VList (map VDict batch))]), w')
        end
    end.
Proof.
  intros Hne Hkey Hfind. unfold Manager.bulk_verify.
  destruct emails as [|email emails]; [contradiction|].
  rewrite Hkey, Hfind.
  destruct (svc_bulk_verify service) as [|bulk]; [|reflexivity].
  unfold bind.
  destruct (for_each _ (email :: emails) w) as [[bs|e] w']; reflexivity.
Qed.

Section Blind.
Variable env : Env.
Variable c : list EmailVerification -> EmailVerification -> bool.
Variable services : registry.

(** The answer of [verify_email] and the traffic it causes depend neither
    on the rows of the table nor on whether inserts succeed. *)
Lemma verify_email_blind (email : string) (service_name : option string)
      (w1 w2 : world) :
  net w1 = net w2 ->
  fst (Manager.verify_email (with_commit env c) services email service_name w1)
  = fst (Manager.verify_email env services email service_name w2)
  /\ net (snd (Manager.verify_email (with_commit env c) services email
                                    service_name w1))
     = net (snd (Manager.verify_email env services email service_name w2)).
Proof.
  intros Hnet.
  destruct (key_of service_name) as [name|] eqn:Hkey.
  - destruct (find_service name services) as [service|] eqn:Hfind.
    + rewrite !(verify_named_unfold _ _ _ _ _ _ _ Hkey Hfind). rewrite Hnet.
      destruct (svc_verify_email service email (net w2)) as [[r|e] n'];
        now split.
    + unfold Manager.verify_email. rewrite Hkey, Hfind. now split.
  - destruct (Manager.get_available_services services) as [|x xs] eqn:Hav.
    + assert (service_name = None \/ service_name = Some "") as Hsn.
      { destruct service_name as [s|]; [|now left]. simpl in Hkey.
        destruct (String.eqb_spec s ""); [subst; now right|discriminate]. }
      unfold Manager.verify_email. rewrite Hkey.
      unfold Manager.verify_all. rewrite Hav. now split.
    + assert (Manager.get_available_services services <> []) as Hne
          by (rewrite Hav; discriminate).
      assert (forall e w,
                 Manager.verify_email e services email service_name w
                 = Manager.verify_email e services email None w) as Hnone.
      { intros e w. unfold Manager.verify_email. now rewrite Hkey. }
      rewrite !Hnone.
      rewrite (verify_all_exact (with_commit env c) services email w1 Hne).
      rewrite (verify_all_exact env services email w2 Hne).
      unfold final_tally, completed, dispatched. rewrite Hnet.
      split; reflexivity.
Qed.

Lemma for_each_blind (emails : list string) (w1 w2 : world) :
  net w1 = net w2 ->
  fst (for_each (fun email =>
                   Manager.verify_email (with_commit env c) services email None)
                emails w1)
  = fst (for_each (fun email => Manager.verify_email env services email None)
                  emails w2)
  /\ net (snd (for_each (fun email =>
                           Manager.verify_email (with_commit env c) services
                                                email None)
                        emails w1))
     = net (snd (for_each (fun email =>
                             Manager.verify_email env services email None)
                          emails w2)).
Proof.
  revert w1 w2.
  induction emails as [|email emails IH]; intros w1 w2 Hnet.
  - now split.
  - rewrite !for_each_cons.
    destruct (verify_email_blind email None w1 w2 Hnet) as (Hfst & Hsnd).
    destruct (Manager.verify_email (with_commit env c) services email None w1)
      as [o1 w1'].
    destruct (Manager.verify_email env services email None w2) as [o2 w2'].
    simpl in Hfst, Hsnd. subst o2.
    destruct o1 as [r|e]; [|now split].
    destruct (IH w1' w2' Hsnd) as (IHf & IHs).
    destruct (for_each _ emails w1') as [os1 w1''].
    destruct (for_each _ emails w2') as [os2 w2''].
    simpl in IHf, IHs. subst os2.
    destruct os1; now split.
Qed.

Lemma lifted_blind {A : Type} (io : IO A) (w1 w2 : world) :
  net w1 = net w2 ->
  fst (lift io w1) = fst (lift io w2)
  /\ net (snd (lift io w1)) = net (snd (lift io w2)).
Proof.
  intros Hnet. unfold lift. rewrite Hnet.
  destruct (io (net w2)). now split.
Qed.

Lemma for_each_lifted_blind {A B : Type} (f : A -> IO (outcome B))
      (l : list A) (w1 w2 : world) :
  net w1 = net w2 ->
  fst (for_each (fun a => lift (f a)) l w1)
  = fst (for_each (fun a => lift (f a)) l w2)
  /\ net (snd (for_each (fun a => lift (f a)) l w1))
     = net (snd (for_each (fun a => lift (f a)) l w2)).
Proof.
  revert w1 w2.
  induction l as [|a l IH]; intros w1 w2 Hnet; [now split|].
  rewrite !for_each_cons.
  destruct (lifted_blind (f a) w1 w2 Hnet) as (Hf & Hs).
  destruct (lift (f a) w1) as [o1 w1']. destruct (lift (f a) w2) as [o2 w2'].
  simpl in Hf, Hs. subst o2.
  destruct o1 as [b|e]; [|now split].
  destruct (IH w1' w2' Hs) as (IHf & IHs).
  destruct (for_each _ l w1') as [os1 w1''].
  destruct (for_each _ l w2') as [os2 w2''].
  simpl in IHf, IHs. subst os2.
  destruct os1; now split.
Qed.

Lemma bulk_verify_blind (emails : list string) (service_name : option string)
      (w1 w2 : world) :
  net w1 = net w2 ->
  fst (Manager.bulk_verify (with_commit env c) services emails service_name w1)
  = fst (Manager.bulk_verify env services emails service_name w2)
  /\ net (snd (Manager.bulk_verify (with_commit env c) services emails
                                   service_name w1))
     = net (snd (Manager.bulk_verify env services emails service_name w2)).
Proof.
  intros Hnet.
  destruct emails as [|email emails]; [now split|].
  assert (email :: emails <> []) as Hne by discriminate.
  destruct (key_of service_name) as [name|] eqn:Hkey.
  - destruct (find_service name services) as [service|] eqn:Hfind.
    + rewrite !(bulk_verify_named_run _ _ _ _ _ _ _ Hne Hkey Hfind).
      destruct (svc_bulk_verify service) as [|bulk].
      * destruct (for_each_lifted_blind (svc_verify_email service)
                                        (email :: emails) w1 w2 Hnet) as (Hf & Hs).
        destruct (for_each _ (email :: emails) w1) as [os1 w1'].
        destruct (for_each _ (email :: emails) w2) as [os2 w2'].
        simpl in Hf, Hs. subst os2. destruct os1; now split.
      * apply lifted_blind, Hnet.
    + unfold Manager.bulk_verify. rewrite Hkey, Hfind. now split.
  - rewrite !(bulk_verify_all_run _ _ _ _ _ Hne Hkey).
    destruct (for_each_blind (email :: emails) w1 w2 Hnet) as (Hf & Hs).
    destruct (for_each _ (email :: emails) w1) as [os1 w1'].
    destruct (for_each _ (email :: emails) w2) as [os2 w2'].
    simpl in Hf, Hs. subst os2. destruct os1; now split.
Qed.
End Blind.

(** X14: what the manager answers, and what it sends, depends neither on
    the rows already in the table nor on whether the inserts succeed: a
    failing database changes no result of [verify_email] or [bulk_verify].
    The registry [__init__] builds does not depend on the database
    either. *)
Theorem persistence_is_invisible (env : Env)
        (c : list EmailVerification -> EmailVerification -> bool)
        (services : registry) (email : string) (emails : list string)
        (service_name : option string) (w1 w2 : world) :
  net w1 = net w2 ->
  Manager.init (with_commit env c) = Manager.init env
  /\ fst (Manager.verify_email (with_commit env c) services email service_name w1)
     = fst (Manager.verify_email env services email service_name w2)
  /\ net (snd (Manager.verify_email (with_commit env c) services email
                                    service_name w1))
     = net (snd (Manager.verify_email env services email service_name w2))
  /\ fst (Manager.bulk_verify (with_commit env c) services emails service_name w1)
     = fst (Manager.bulk_verify env services emails service_name w2)
  /\ net (snd (Manager.bulk_verify (with_commit env c) services emails
                                   service_name w1))
     = net (snd (Manager.bulk_verify env services emails service_name w2)).
Proof.
  intros Hnet.
  split; [reflexivity|].
  destruct (verify_email_blind env c services email service_name w1 w2 Hnet).
  destruct (bulk_verify_blind env c services emails service_name w1 w2 Hnet).
  repeat split; assumption.
Qed.

Lemma persistence_is_invisible_witness :
  fst (Manager.verify_email (with_commit env_one_of_four (fun _ _ => false))
                            (Manager.init env_one_of_four) "a@x.com" None world0)
  = fst (Manager.verify_email env_one_of_four (Manager.init env_one_of_four)
                              "a@x.com" None
                              {| db := [row_of [("email", VStr "old@x.com")]];
                                 net := net0 |}).
Proof.
  destruct (persistence_is_invisible env_one_of_four (fun _ _ => false)
              (Manager.init env_one_of_four) "a@x.com" ["a@x.com"] None
              world0 {| db := [row_of [("email", VStr "old@x.com")]]; net := net0 |}
              eq_refl)
    as (_ & H & _).
  exact H.
Defined.

(** ** The table only grows *)

Lemma store_db_appends (env : Env) (r : pydict) (table : list EmailVerification) :
  exists added,
    store_db env r table = table ++ added /\ List.length added <= 1.
Proof.
  unfold store_db.
  destruct (negb (truthy (VDict r)) || negb (Dict.contains "email" r)).
  - exists []. rewrite app_nil_r. split; [reflexivity|simpl; lia].
  - destruct (commit_ok env table (row_of r)).
    + exists [row_of r]. split; [reflexivity|simpl; lia].
    + exists []. rewrite app_nil_r. split; [reflexivity|simpl; lia].
Qed.

Section Growth.
Variable env : Env.
Variable services : registry.

Lemma pick_length {A B : Type} (f : A -> option B) (l : list A) :
  List.length (pick f l) <= List.length l.
Proof.
  induction l as [|a l IH]; simpl; [lia|].
  destruct (f a); simpl; lia.
Qed.

Lemma verify_email_grows (email : string) (service_name : option string)
      (w : world) :
  exists added,
    db (snd (Manager.verify_email env services email service_name w))
    = db w ++ added
    /\ List.length added
       <= match key_of service_name with
          | Some _ => 1
          | None => List.length (Manager.get_available_services services)
          end.
Proof.
  destruct (key_of service_name) as [name|] eqn:Hkey.
  - destruct (find_service name services) as [service|] eqn:Hfind.
    + rewrite (verify_named_unfold _ _ _ _ _ _ _ Hkey Hfind).
      destruct (svc_verify_email service email (net w)) as [[r|e] n']; simpl.
      * apply store_db_appends.
      * exists []. rewrite app_nil_r. split; [reflexivity|simpl; lia].
    + unfold Manager.verify_email. rewrite Hkey, Hfind. simpl.
      exists []. rewrite app_nil_r. split; [reflexivity|simpl; lia].
  - assert (Manager.verify_email env services email service_name w
            = Manager.verify_email env services email None w) as ->
        by (unfold Manager.verify_email; now rewrite Hkey).
    destruct (Manager.get_available_services services) as [|x xs] eqn:Hav.
    + rewrite (no_services_run env services email w Hav). simpl.
      exists []. rewrite app_nil_r. split; [reflexivity|simpl; lia].
    + assert (Manager.get_available_services services <> []) as Hne
          by (rewrite Hav; discriminate).
      rewrite (verify_all_exact env services email w Hne). simpl.
      destruct (persist_appends env
                  (pick returned (completed env services email w)) (db w))
        as (added & Heq & _ & Hlen).
      exists added. split; [exact Heq|].
      etransitivity; [exact Hlen|].
      etransitivity; [apply pick_length|].
      rewrite (Permutation_length (completed_perm env services email w)).
      rewrite dispatched_length, Hav. reflexivity.
Qed.

Lemma for_each_grows (emails : list string) (w : world) :
  exists added,
    db (snd (for_each (fun email => Manager.verify_email env services email None)
                      emails w))
    = db w ++ added
    /\ List.length added
       <= List.length emails
          * List.length (Manager.get_available_services services).
Proof.
  revert w.
  induction emails as [|email emails IH]; intros w.
  - exists []. simpl. rewrite app_nil_r. split; [reflexivity|lia].
  - rewrite for_each_cons.
    destruct (verify_email_grows email None w) as (a1 & H1 & L1). simpl in L1.
    destruct (Manager.verify_email env services email None w) as [[r|e] w1];
      simpl in H1.
    + destruct (IH w1) as (a2 & H2 & L2).
      destruct (for_each _ emails w1) as [[bs|e] w2]; simpl in H2 |- *;
        (exists (a1 ++ a2); rewrite H2, H1, <- app_assoc;
         split; [reflexivity|rewrite length_app; lia]).
    + simpl. exists a1. split; [exact H1|lia].
Qed.

Lemma lift_keeps_db {A : Type} (io : IO A) (w : world) :
  db (snd (lift io w)) = db w.
Proof. unfold lift. now destruct (io (net w)). Qed.

Lemma for_each_lifted_keeps_db {A B : Type} (f : A -> IO (outcome B))
      (l : list A) (w : world) :
  db (snd (for_each (fun a => lift (f a)) l w)) = db w.
Proof.
  revert w.
  induction l as [|a l IH]; intros w; [reflexivity|].
  rewrite for_each_cons.
  pose proof (lift_keeps_db (f a) w) as H1.
  destruct (lift (f a) w) as [[b|e] w1]; simpl in H1; [|exact H1].
  specialize (IH w1).
  destruct (for_each _ l w1) as [[bs|e] w2]; simpl in IH |- *; congruence.
Qed.
End Growth.

(** X15: the table is append-only.  After [verify_email] the rows that
    were there are still there, in place, followed by at most one new row
    when a provider is named and by at most one new row per enabled
    adapter otherwise; this holds even when the call raises.
    [bulk_verify] with a provider named stores nothing at all, whatever the
    adapter answers; without a provider it appends at most one row per
    address and enabled adapter. *)
Theorem table_is_append_only (env : Env) (services : registry) (email : string)
        (emails : list string) (service_name : option string) (w : world) :
  (exists added,
      db (snd (Manager.verify_email env services email service_name w))
      = db w ++ added
      /\ List.length added
         <= match key_of service_name with
            | Some _ => 1
            | None => List.length (Manager.get_available_services services)
            end)
  /\ match key_of service_name with
     | Some _ =>
         db (snd (Manager.bulk_verify env services emails service_name w)) = db w
     | None =>
         exists added,
           db (snd (Manager.bulk_verify env services emails service_name w))
           = db w ++ added
           /\ List.length added
              <= List.length emails
                 * List.length (Manager.get_available_services services)
     end.
Proof.
  split; [apply verify_email_grows|].
  destruct emails as [|first others].
  - unfold Manager.bulk_verify. simpl.
    destruct (key_of service_name); [reflexivity|].
    exists []. rewrite app_nil_r. split; [reflexivity|simpl; lia].
  - assert (first :: others <> []) as Hne by discriminate.
    destruct (key_of service_name) as [name|] eqn:Hkey.
    + destruct (find_service name services) as [service|] eqn:Hfind.
      * rewrite (bulk_verify_named_run _ _ _ _ _ _ _ Hne Hkey Hfind).
        destruct (svc_bulk_verify service) as [|bulk].
        -- pose proof (for_each_lifted_keeps_db (svc_verify_email service)
                                                 (first :: others) w) as H.
           destruct (for_each _ (first :: others) w) as [[bs|e] w'];
             exact H.
        -- apply lift_keeps_db.
      * unfold Manager.bulk_verify. now rewrite Hkey, Hfind.
    + rewrite (bulk_verify_all_run _ _ _ _ _ Hne Hkey).
      destruct (for_each_grows env services (first :: others) w)
        as (added & H & L).
      exists added.
      destruct (for_each _ (first :: others) w) as [[bs|e] w'];
        split; assumption.
Qed.

(** ** Order of completion, and the shape of the answer *)

Section OrderFacts.
Variable env : Env.
Variable services : registry.

End OrderFacts.



(** X17: the answer of an aggregate call has a top-level ["error"] exactly
    when no adapter is enabled.  Failures of the providers never surface
    there: when every task fails or raises, the answer is still an
    aggregate, with [is_valid] and [score] both [None] and [verified_by]
    counting every adapter. *)
Theorem error_only_without_services (env : Env) (services : registry)
        (email : string) (w : world) :
  exists r w',
    Manager.verify_email env services email None w = (Returned r, w')
    /\ Dict.get r "email" = VStr email
    /\ (Dict.contains "error" r = true
        <-> Manager.get_available_services services = [])
    /\ Dict.contains "results" r = negb (Dict.contains "error" r)
    /\ (Manager.get_available_services services <> [] ->
        Forall (fun fut => votes fut = false /\ scored fut = None)
               (dispatched env services email w) ->
        Dict.get r "is_valid" = VNone /\ Dict.get r "score" = VNone).
Proof.
  assert (Manager.get_available_services services = []
          \/ Manager.get_available_services services <> []) as [Hav|Hne]
      by (destruct (Manager.get_available_services services);
          [now left|right; discriminate]).
  - eexists. eexists. split; [now apply no_services_run|].
    repeat split; try reflexivity; try contradiction; auto.
  - eexists. eexists.
    split; [apply (verify_all_exact env services email w Hne)|].
    split; [reflexivity|].
    split; [split; [discriminate|contradiction]|].
    split; [reflexivity|].
    intros _ Hall.
    rewrite aggregate_is_valid, aggregate_score.
    rewrite final_valid_count, final_service_count.
    assert (filter votes (dispatched env services email w) = []
            /\ pick scored (dispatched env services email w) = []) as (-> & ->).
    { induction Hall as [|fut futs (Hv & Hs) _ (IHv & IHs)]; simpl;
        [now split|].
      rewrite Hv, Hs. now split. }
    split; reflexivity.
Qed.

(** ** Aggregate calls on the registry of [__init__] *)

Section InitFacts.
Variable env : Env.

Lemma adapter_result_provider (a : adapter) (email : string) (n : network) :
  Dict.get (fst (Adapter.verify_email env a email n)) "provider"
  = VStr (Adapter.provider a).
Proof.
  destruct (adapter_run env a email n) as [[_ Hno]|[_ (req & _ & _ & Hf & Hj)]].
  - rewrite Hno. reflexivity.
  - destruct (http env (clock n) req) as [e|data] eqn:Hresp.
    + rewrite (Hf e eq_refl). reflexivity.
    + destruct (Hj data eq_refl) as [(msg & ->)|(iv & sc & det & ->)];
        reflexivity.
Qed.

Lemma enabled_init :
  Manager.enabled (Manager.init env)
  = map (fun item => (fst item, Adapter.service env (snd item)))
        (enabled_adapters env).
Proof.
  unfold Manager.enabled, Manager.init, enabled_adapters.
  induction (Manager.adapters env) as [|item l IH]; simpl; [reflexivity|].
  unfold has_api_key at 1. simpl.
  destruct (configured (Adapter.api_key (snd item))); simpl; now rewrite IH.
Qed.

Lemma enabled_adapters_named (item : string * adapter) :
  In item (enabled_adapters env) -> Adapter.provider (snd item) = fst item.
Proof.
  unfold enabled_adapters. intros Hin. apply filter_In in Hin.
  destruct Hin as (Hin & _). destruct item as [name a].
  now destruct (find_in_init env name a Hin) as (_ & _ & Hp).
Qed.

(** Dispatching to a list of adapters. *)
Lemma adapters_dispatch (email : string) (l : list (string * adapter))
      (n : network) :
  exists futs reqs n',
    mapM (fun item : string * Service =>
            (o <- svc_verify_email (snd item) email ;; ret (fst item, o))%m)
         (map (fun item => (fst item, Adapter.service env (snd item))) l) n
    = (futs, n')
    /\ sent n' = sent n ++ reqs
    /\ List.length reqs <= List.length l
    /\ Forall (mentions email) reqs
    /\ Forall2 (fun (item : string * adapter) (fut : future) =>
                  fst fut = fst item
                  /\ exists r, snd fut = Returned r
                               /\ tagged email r
                               /\ Dict.get r "provider"
                                  = VStr (Adapter.provider (snd item)))
               l futs.
Proof.
  revert n.
  induction l as [|item l IH]; intros n; simpl.
  - exists [], [], n. unfold ret. rewrite app_nil_r.
    repeat split; auto.
  - destruct (adapter_returns env (snd item) email n) as (r & n1 & Hrun & Htag).
    pose proof (adapter_result_provider (snd item) email n) as Hprov.
    assert (exists sent1, sent n1 = sent n ++ sent1
                          /\ List.length sent1 <= 1
                          /\ Forall (mentions email) sent1)
      as (sent1 & Hs1 & Hl1 & Hm1).
    { destruct (adapter_run env (snd item) email n)
        as [[_ Hno]|[_ (req & Hsnd & Hm & _)]].
      - rewrite Hrun in Hno. injection Hno as _ <-.
        exists []. rewrite app_nil_r. repeat split; auto.
      - rewrite Hrun in Hsnd. simpl in Hsnd. subst n1.
        exists [req]. repeat split; auto. }
    rewrite Hrun in Hprov. simpl in Hprov.
    destruct (IH n1) as (futs & reqs & n' & Hloop & Hsent & Hlen & Hall & Hfuts).
    unfold bind, ret in Hloop |- *. rewrite Hrun, Hloop.
    exists ((fst item, Returned r) :: futs), (sent1 ++ reqs), n'.
    split; [reflexivity|].
    split; [rewrite Hsent, Hs1, <- app_assoc; reflexivity|].
    split; [rewrite length_app; lia|].
    split; [apply Forall_app; split; assumption|].
    constructor; [|exact Hfuts].
    split; [reflexivity|]. exists r. repeat split; assumption.
Qed.

Lemma persist_tagged (email : string) (rs : list pydict)
      (table : list EmailVerification) :
  (forall t row, commit_ok env t row = true) ->
  Forall (tagged email) rs ->
  persist env rs table = table ++ map row_of rs.
Proof.
  intros Hhealthy Hall. revert table.
  induction Hall as [|r rs (rest & ->) _ IH]; intros table; simpl.
  - now rewrite app_nil_r.
  - unfold persist in *. simpl. rewrite IH.
    unfold store_db. simpl. rewrite Hhealthy.
    now rewrite <- app_assoc.
Qed.

(** The futures of an aggregate call on the registry of [__init__]. *)
Lemma init_dispatched (email : string) (w : world) :
  exists reqs,
    sent (snd (Manager.submit_all (Manager.init env) email (net w)))
    = sent (net w) ++ reqs
    /\ List.length reqs
       <= List.length (Manager.get_available_services (Manager.init env))
    /\ Forall (mentions email) reqs
    /\ Forall (fun fut : future =>
                 exists r, snd fut = Returned r
                           /\ tagged email r
                           /\ Dict.get r "provider" = VStr (fst fut))
              (dispatched env (Manager.init env) email w).
Proof.
  unfold dispatched, Manager.submit_all, Manager.get_available_services.
  rewrite enabled_init.
  destruct (adapters_dispatch email (enabled_adapters env) (net w))
    as (futs & reqs & n' & Hrun & Hsent & Hlen & Hall & Hfuts).
  rewrite Hrun. simpl. exists reqs.
  split; [exact Hsent|].
  split; [now rewrite length_map, length_map|].
  split; [exact Hall|].
  assert (forall (l : list (string * adapter)) (fs : list future),
             Forall2 (fun (item : string * adapter) (fut : future) =>
                        fst fut = fst item
                        /\ exists r, snd fut = Returned r
                                     /\ tagged email r
                                     /\ Dict.get r "provider"
                                        = VStr (Adapter.provider (snd item)))
                     l fs ->
             (forall item, In item l -> Adapter.provider (snd item) = fst item) ->
             Forall (fun fut : future =>
                       exists r, snd fut = Returned r
                                 /\ tagged email r
                                 /\ Dict.get r "provider" = VStr (fst fut)) fs)
    as Hgen.
  { induction 1 as [|item fut l fs (Hn & r & Hr & Ht & Hp) _ IH];
      intros Hnamed; constructor.
    - exists r. repeat split; auto.
      rewrite Hp, Hn. f_equal. apply Hnamed. now left.
    - apply IH. intros it Hin. apply Hnamed. now right. }
  apply (Hgen _ _ Hfuts). apply enabled_adapters_named.
Qed.
End InitFacts.

Section InitRows.
Variable env : Env.
Hypothesis healthy : forall table row, commit_ok env table row = true.

Lemma returned_rows (email : string) (l : list future) :
  Forall (fun fut : future =>
            exists r, snd fut = Returned r
                      /\ tagged email r
                      /\ Dict.get r "provider" = VStr (fst fut)) l ->
  Forall (tagged email) (pick returned l)
  /\ map ev_provider (map row_of (pick returned l))
     = map (fun fut : future => VStr (fst fut)) l
  /\ map ev_email (map row_of (pick returned l))
     = map (fun _ : future => VStr email) l.
Proof.
  induction 1 as [|fut l (r & Hr & Ht & Hp) _ (IH1 & IH2 & IH3)].
  - repeat split; constructor.
  - assert (pick returned (fut :: l) = r :: pick returned l) as ->
        by (simpl; unfold returned at 1; now rewrite Hr).
    split; [now constructor|].
    split.
    + change (ev_provider (row_of r)
                :: map ev_provider (map row_of (pick returned l))
              = VStr (fst fut) :: map (fun f : future => VStr (fst f)) l).
      rewrite IH2. f_equal. exact Hp.
    + change (ev_email (row_of r)
                :: map ev_email (map row_of (pick returned l))
              = VStr email :: map (fun _ : future => VStr email) l).
      rewrite IH3. f_equal. destruct Ht as (rest & ->). reflexivity.
Qed.

(** The rows of one aggregate call. *)
Lemma init_call_rows (email : string) (w : world) :
  exists agg w' rows,
    Manager.verify_email env (Manager.init env) email None w = (Returned agg, w')
    /\ Dict.get agg "email" = VStr email
    /\ db w' = db w ++ rows
    /\ map ev_email rows
       = repeat (VStr email)
                (List.length (Manager.get_available_services (Manager.init env)))
    /\ Permutation (map ev_provider rows)
                   (map VStr (Manager.get_available_services (Manager.init env))).
Proof.
  assert (Manager.get_available_services (Manager.init env) = []
          \/ Manager.get_available_services (Manager.init env) <> []) as [Hav|Hne]
      by (destruct (Manager.get_available_services (Manager.init env));
          [now left|right; discriminate]).
  - eexists. eexists. exists [].
    split; [now apply no_services_run|]. rewrite Hav, app_nil_r.
    repeat split; constructor.
  - destruct (init_dispatched env email w) as (_ & _ & _ & _ & Hfuts).
    assert (Forall (fun fut : future =>
                      exists r, snd fut = Returned r
                                /\ tagged email r
                                /\ Dict.get r "provider" = VStr (fst fut))
                   (completed env (Manager.init env) email w)) as Hcompleted.
    { eapply Permutation_Forall; [|exact Hfuts].
      symmetry. apply completed_perm. }
    destruct (returned_rows email _ Hcompleted) as (Htag & Hprov & Hmail).
    eexists. eexists.
    exists (map row_of (pick returned (completed env (Manager.init env) email w))).
    split; [apply (verify_all_exact env (Manager.init env) email w Hne)|].
    split; [reflexivity|].
    split; [simpl; now apply persist_tagged with (email := email)|].
    split.
    + rewrite Hmail.
      rewrite <- (dispatched_length env (Manager.init env) email w).
      rewrite <- (Permutation_length (completed_perm env (Manager.init env) email w)).
      clear. induction (completed env (Manager.init env) email w); simpl;
        congruence.
    + rewrite Hprov.
      rewrite <- (dispatched_names env (Manager.init env) email w), map_map.
      apply Permutation_map, completed_perm.
Qed.

Lemma init_batch_rows (emails : list string) (w : world) :
  exists batch rows w',
    for_each (fun email => Manager.verify_email env (Manager.init env) email None)
             emails w
    = (Returned batch, w')
    /\ addresses batch = map VStr emails
    /\ db w' = db w ++ rows
    /\ map ev_email rows
       = flat_map (fun email =>
                     repeat (VStr email)
                            (List.length (Manager.get_available_services
                                            (Manager.init env))))
                  emails.
Proof.
  revert w.
  induction emails as [|email emails IH]; intros w.
  - exists [], [], w. simpl. rewrite app_nil_r. repeat split; reflexivity.
  - rewrite for_each_cons.
    destruct (init_call_rows email w) as (agg & w1 & rows1 & Hrun & Ha & Hdb & Hm & _).
    rewrite Hrun.
    destruct (IH w1) as (batch & rows & w2 & Hrest & Haddr & Hdb2 & Hrows).
    rewrite Hrest.
    exists (agg :: batch), (rows1 ++ rows), w2.
    split; [reflexivity|].
    split; [simpl; now rewrite Ha, Haddr|].
    split; [rewrite Hdb2, Hdb, <- app_assoc; reflexivity|].
    simpl. now rewrite map_app, Hm, Hrows.
Qed.
End InitRows.

(** X18: an aggregate call on the manager's own registry, with a database
    that accepts the inserts, stores exactly one row per enabled adapter:
    every new row holds the address, and the providers of the new rows are
    the enabled adapters, each once. *)
Theorem aggregate_stores_one_row_per_adapter (env : Env) (email : string)
        (w : world) :
  (forall table row, commit_ok env table row = true) ->
  exists agg w' rows,
    Manager.verify_email env (Manager.init env) email None w = (Returned agg, w')
    /\ db w' = db w ++ rows
    /\ List.length rows
       = List.length (Manager.get_available_services (Manager.init env))
    /\ Forall (fun row => ev_email row = VStr email) rows
    /\ Permutation (map ev_provider rows)
                   (map VStr (Manager.get_available_services (Manager.init env))).
Proof.
  intros Hhealthy.
  destruct (init_call_rows env Hhealthy email w)
    as (agg & w' & rows & Hrun & _ & Hdb & Hmail & Hprov).
  exists agg, w', rows.
  split; [exact Hrun|]. split; [exact Hdb|].
  split.
  - apply (f_equal (@List.length pyval)) in Hmail.
    now rewrite length_map, repeat_length in Hmail.
  - split; [|exact Hprov].
    apply Forall_forall. intros row Hin.
    apply (in_map ev_email) in Hin. rewrite Hmail in Hin.
    now apply repeat_spec in Hin.
Qed.

Lemma aggregate_stores_one_row_per_adapter_witness :
  exists agg w' rows,
    Manager.verify_email env_one_of_four (Manager.init env_one_of_four)
                         "a@x.com" None world0
    = (Returned agg, w')
    /\ db w' = db world0 ++ rows
    /\ List.length rows = 4
    /\ Forall (fun row => ev_email row = VStr "a@x.com") rows
    /\ Permutation (map ev_provider rows)
                   [VStr "zerobounce"; VStr "mailboxlayer"; VStr "spokeo";
                    VStr "hunter"].
Proof.
  apply (aggregate_stores_one_row_per_adapter env_one_of_four "a@x.com" world0).
  reflexivity.
Defined.

(** X19: [bulk_verify] without a provider on the manager's own registry,
    with a database that accepts the inserts: the answer lists one result
    per address in input order, and the table grows by one row per address
    and enabled adapter, the rows of an address coming before those of the
    next one. *)
Theorem bulk_verify_rows (env : Env) (emails : list string) (w : world) :
  (forall table row, commit_ok env table row = true) ->
  emails <> [] ->
  exists batch rows w',
    Manager.bulk_verify env (Manager.init env) emails None w
    = (Returned (VDict [("results", VList (map VDict batch))]), w')
    /\ addresses batch = map VStr emails
    /\ db w' = db w ++ rows
    /\ map ev_email rows
       = flat_map (fun email =>
                     repeat (VStr email)
                            (List.length (Manager.get_available_services
                                            (Manager.init env))))
                  emails
    /\ List.length rows
       = List.length emails
         * List.length (Manager.get_available_services (Manager.init env)).
Proof.
  intros Hhealthy Hne.
  destruct (init_batch_rows env Hhealthy emails w)
    as (batch & rows & w' & Hrun & Haddr & Hdb & Hrows).
  exists batch, rows, w'.
  rewrite (bulk_verify_all_run env _ emails None w Hne eq_refl), Hrun.
  split; [reflexivity|]. split; [exact Haddr|]. split; [exact Hdb|].
  split; [exact Hrows|].
  apply (f_equal (@List.length pyval)) in Hrows.
  rewrite length_map in Hrows. rewrite Hrows.
  clear. induction emails as [|email emails IH]; simpl; [reflexivity|].
  now rewrite length_app, repeat_length, IH.
Qed.

Lemma bulk_verify_rows_witness :
  exists batch rows w',
    Manager.bulk_verify env_one_of_four (Manager.init env_one_of_four)
                        ["a@x.com"; "b@x.com"; "a@x.com"] None world0
    = (Returned (VDict [("results", VList (map VDict batch))]), w')
    /\ addresses batch = [VStr "a@x.com"; VStr "b@x.com"; VStr "a@x.com"]
    /\ db w' = db world0 ++ rows
    /\ List.length rows = 12.
Proof.
  destruct (bulk_verify_rows env_one_of_four ["a@x.com"; "b@x.com"; "a@x.com"]
                             world0)
    as (batch & rows & w' & Hrun & Haddr & Hdb & _ & Hlen).
  - reflexivity.
  - discriminate.
  - exists batch, rows, w'. repeat split; assumption.
Defined.

(** X20: an aggregate call on the manager's own registry sends at most one
    request per enabled adapter, each naming the address, and nothing
    else. *)
Theorem aggregate_traffic (env : Env) (email : string) (w : world) :
  exists reqs,
    sent (net (snd (Manager.verify_email env (Manager.init env) email None w)))
    = sent (net w) ++ reqs
    /\ List.length reqs
       <= List.length (Manager.get_available_services (Manager.init env))
    /\ Forall (mentions email) reqs.
Proof.
  assert (Manager.get_available_services (Manager.init env) = []
          \/ Manager.get_available_services (Manager.init env) <> []) as [Hav|Hne]
      by (destruct (Manager.get_available_services (Manager.init env));
          [now left|right; discriminate]).
  - rewrite (no_services_run env _ email w Hav). simpl.
    exists []. rewrite app_nil_r.
    split; [reflexivity|]. split; [simpl; lia|constructor].
  - rewrite (verify_all_exact env _ email w Hne). simpl.
    destruct (init_dispatched env email w) as (reqs & Hsent & Hlen & Hall & _).
    exists reqs. repeat split; assumption.
Qed.

(** ** Enablement and credentials *)

Lemma mapM_in (email : string) (items : registry) (item : string * Service)
      (n : network) :
  In item items ->
  exists n0,
    In (fst item, fst (svc_verify_email (snd item) email n0))
       (fst (mapM (fun it : string * Service =>
                     (o <- svc_verify_email (snd it) email ;; ret (fst it, o))%m)
                  items n)).
Proof.
  revert n.
  induction items as [|it items IH]; intros n Hin; [contradiction|].
  simpl. unfold bind, ret.
  destruct Hin as [->|Hin].
  - exists n. destruct (svc_verify_email (snd item) email n) as [o n1]. simpl.
    destruct (mapM _ items n1). simpl. now left.
  - destruct (svc_verify_email (snd it) email n) as [o n1].
    destruct (IH n1 Hin) as (n0 & Hn0). exists n0.
    unfold bind, ret in Hn0.
    destruct (mapM _ items n1). simpl in *. now right.
Qed.

Lemma adapter_service_result (env : Env) (a : adapter) (email : string)
      (n : network) :
  fst (svc_verify_email (Adapter.service env a) email n)
  = Returned (fst (Adapter.verify_email env a email n)).
Proof.
  simpl. unfold bind, ret. now destruct (Adapter.verify_email env a email n).
Qed.

(** X21: the manager takes an adapter as available on its [api_key]
    alone, and NeutrinoAPI needs a user id as well.  With the key set and
    the user id missing, "neutrinoapi" is listed by
    [get_available_services] and dispatched by every aggregate call, where
    its entry is the error "API credentials not provided". *)
Theorem neutrinoapi_enabled_without_user_id (env : Env) (email key : string)
        (w : world) :
  getenv env "NEUTRINOAPI_API_KEY" = Some key ->
  key <> "" ->
  key_of (getenv env "NEUTRINOAPI_USER_ID") = None ->
  In "neutrinoapi" (Manager.get_available_services (Manager.init env))
  /\ exists agg w' res,
       Manager.verify_email env (Manager.init env) email None w = (Returned agg, w')
       /\ Dict.get agg "results" = VDict res
       /\ Dict.lookup "neutrinoapi" res
          = Some (VDict [("email", VStr email); ("is_valid", VNone);
                         ("error", VStr "API credentials not provided");
                         ("provider", VStr "neutrinoapi")]).
Proof.
  intros Hkey Hne Huid.
  set (a := Adapter.new_NeutrinoAPIService env None None).
  assert (Adapter.has_credentials a = false) as Hcred.
  { unfold a, Adapter.new_NeutrinoAPIService. simpl.
    apply andb_false_iff. right.
    destruct (getenv env "NEUTRINOAPI_USER_ID") as [u|]; [|reflexivity].
    simpl in *. destruct (String.eqb u ""); [reflexivity|discriminate]. }
  assert (In ("neutrinoapi", Adapter.service env a)
             (Manager.enabled (Manager.init env))) as Hen.
  { unfold Manager.enabled. apply filter_In. split.
    - unfold Manager.init, Manager.adapters. simpl. tauto.
    - unfold has_api_key, a; simpl. rewrite Hkey. simpl.
      destruct (String.eqb_spec key ""); [contradiction|reflexivity]. }
  assert (Manager.get_available_services (Manager.init env) <> []) as Hav.
  { unfold Manager.get_available_services.
    destruct (Manager.enabled (Manager.init env)); [contradiction|discriminate]. }
  split.
  - unfold Manager.get_available_services.
    apply (in_map fst) in Hen. exact Hen.
  - assert (NoDup (map fst (Manager.init env))) as Hnd.
    { unfold Manager.init, Manager.adapters. simpl.
      repeat constructor; simpl; intuition discriminate. }
    destruct (results_of_call env (Manager.init env) email w Hnd Hav)
      as (agg & w' & res & Hrun & Hres & _ & _ & _ & Hentry & _).
    exists agg, w', res. split; [exact Hrun|]. split; [exact Hres|].
    destruct (mapM_in email _ _ (net w) Hen) as (n0 & Hin).
    cbn [fst snd] in Hin.
    rewrite adapter_service_result in Hin.
    rewrite (adapter_without_credentials env a email n0 Hcred) in Hin.
    cbn [fst] in Hin.
    pose proof (Hentry _ Hin) as Hlook. cbn [fst] in Hlook.
    rewrite Hlook. rewrite entry_typed; [reflexivity|]. now left.
Qed.

Lemma neutrinoapi_enabled_without_user_id_witness :
  In "neutrinoapi"
     (Manager.get_available_services (Manager.init env_neutrino_key_only))
  /\ exists agg w' res,
       Manager.verify_email env_neutrino_key_only
                            (Manager.init env_neutrino_key_only)
                            "a@x.com" None world0
       = (Returned agg, w')
       /\ Dict.get agg "results" = VDict res
       /\ Dict.lookup "neutrinoapi" res
          = Some (VDict [("email", VStr "a@x.com"); ("is_valid", VNone);
                         ("error", VStr "API credentials not provided");
                         ("provider", VStr "neutrinoapi")]).
Proof.
  apply (neutrinoapi_enabled_without_user_id env_neutrino_key_only "a@x.com"
                                             "secret" world0).
  - reflexivity.
  - discriminate.
  - reflexivity.
Defined.

(** ** Bulk verification in general *)

Lemma aggregate_answers (env : Env) (services : registry) (email : string)
      (w : world) :
  exists r w',
    Manager.verify_email env services email None w = (Returned r, w')
    /\ Dict.get r "email" = VStr email.
Proof.
  destruct (Manager.get_available_services services) as [|x xs] eqn:Hav.
  - eexists. eexists. split; [now apply no_services_run|reflexivity].
  - assert (Manager.get_available_services services <> []) as Hne
        by (rewrite Hav; discriminate).
    destruct (verify_all_run env services email w Hne) as (date & w' & Hrun & _).
    eexists. eexists. split; [exact Hrun|reflexivity].
Qed.

(** X22: [bulk_verify] without a provider never raises and never loses an
    address: for every registry, every database and every non-empty list
    it answers [{"results": [...]}] with one result per address, in input
    order, each result being about its own address. *)
Theorem bulk_verify_one_result_per_address (env : Env) (services : registry)
        (emails : list string) (w : world) :
  emails <> [] ->
  exists batch w',
    Manager.bulk_verify env services emails None w
    = (Returned (VDict [("results", VList (map VDict batch))]), w')
    /\ addresses batch = map VStr emails
    /\ List.length batch = List.length emails.
Proof.
  intros Hne.
  assert (exists batch w',
             for_each (fun email => Manager.verify_email env services email None)
                      emails w
             = (Returned batch, w')
             /\ addresses batch = map VStr emails) as (batch & w' & Hrun & Haddr).
  { clear Hne. revert w.
    induction emails as [|email emails IH]; intros w.
    - exists [], w. split; reflexivity.
    - rewrite for_each_cons.
      destruct (aggregate_answers env services email w) as (r & w1 & Hr & Ha).
      rewrite Hr. destruct (IH w1) as (batch & w2 & Hrest & Haddr).
      rewrite Hrest. exists (r :: batch), w2.
      split; [reflexivity|]. simpl. now rewrite Ha, Haddr. }
  exists batch, w'.
  rewrite (bulk_verify_all_run env services emails None w Hne eq_refl), Hrun.
  split; [reflexivity|]. split; [exact Haddr|].
  apply (f_equal (@List.length pyval)) in Haddr. unfold addresses in Haddr.
  now rewrite !length_map in Haddr.
Qed.

Lemma bulk_verify_one_result_per_address_witness :
  exists batch w',
    Manager.bulk_verify env_bare one_raises ["a@x.com"; "b@x.com"] None world0
    = (Returned (VDict [("results", VList (map VDict batch))]), w')
    /\ addresses batch = [VStr "a@x.com"; VStr "b@x.com"]
    /\ List.length batch = 2.
Proof.
  apply (bulk_verify_one_result_per_address env_bare one_raises
                                            ["a@x.com"; "b@x.com"] world0).
  discriminate.
Defined.

(** X23: [bulk_verify] with the name of a registered adapter hands the
    whole list to the adapter's own [bulk_verify] and returns its answer as
    it is; the table is left alone.  (Every adapter class defines
    [bulk_verify], so the per-address fallback of the manager is never
    taken for them.) *)
Theorem named_bulk_is_delegated (env : Env) (name : string) (a : adapter)
        (emails : list string) (w : world) :
  In (name, a) (Manager.adapters env) ->
  emails <> [] ->
  Manager.bulk_verify env (Manager.init env) emails (Some name) w
  = (Returned (fst (Adapter.bulk_verify env a emails (net w))),
     {| db := db w; net := snd (Adapter.bulk_verify env a emails (net w)) |}).
Proof.
  intros Hin Hne.
  destruct (find_in_init env name a Hin) as (Hkey & Hfind & _).
  rewrite (bulk_verify_named_run env _ emails (Some name) name _ w Hne Hkey Hfind).
  simpl. unfold lift, bind, ret.
  destruct (Adapter.bulk_verify env a emails (net w)). reflexivity.
Qed.

Lemma named_bulk_is_delegated_witness :
  Manager.bulk_verify env_bare (Manager.init env_bare) ["a@x.com"; "b@x.com"]
                      (Some "mailboxlayer") world0
  = (Returned (VDict [("error", VStr "API key not provided")]), world0).
Proof.
  rewrite (named_bulk_is_delegated env_bare "mailboxlayer"
                                   (MailboxLayerService None)
                                   ["a@x.com"; "b@x.com"] world0).
  - reflexivity.
  - right. left. reflexivity.
  - discriminate.
Defined.

(** ** The table of providers *)

(** X24: seeding the table of providers.  [add_default_services] adds the
    five default rows to an empty table and leaves a table that has any
    row untouched, so running it again after a successful run changes
    nothing; it never removes a row; a failure leaves the table as it
    was.  The default names are distinct and are the names of the
    manager's registry, in the same order. *)
Theorem seeding_is_idempotent (env : Env) (s1 c1 s2 c2 : bool)
        (table : list EmailVerificationService) :
  let seeded := add_default_services s1 c1 table in
  (table <> [] -> seeded = table)
  /\ (table = [] -> s1 = true -> c1 = true -> seeded = default_services)
  /\ (s1 = false \/ (table = [] /\ c1 = false) -> seeded = table)
  /\ (seeded <> [] -> add_default_services s2 c2 seeded = seeded)
  /\ (exists added, seeded = table ++ added)
  /\ NoDup (map evs_name default_services)
  /\ map evs_name default_services = map fst (Manager.adapters env).
Proof.
  intros seeded. subst seeded. unfold add_default_services.
  split; [|split; [|split; [|split; [|split; [|split]]]]].
  - destruct table; [contradiction|]. now destruct s1.
  - intros -> -> ->. reflexivity.
  - intros [->|[-> ->]]; [reflexivity|]. now destruct s1.
  - destruct s1, table as [|row rows], c1; simpl; intros Hne;
      try contradiction; destruct s2; reflexivity.
  - destruct s1, table as [|row rows], c1; simpl;
      try (exists []; now rewrite ?app_nil_r);
      exists default_services; reflexivity.
  - simpl. repeat constructor; simpl; intuition discriminate.
  - reflexivity.
Qed.

(** ** Verdicts and scores that are not what the data model says *)

Lemma zerobounce_verdict (email : string) (data : pyval) (r : pydict) :
  ZeroBounce.interpret email data = inr r ->
  exists b, Dict.get r "is_valid" = VBool b.
Proof.
  unfold ZeroBounce.interpret.
  destruct data; simpl; try discriminate.
  intros [= <-]. eexists. reflexivity.
Qed.

Lemma mailboxlayer_verdict (email : string) (data : pyval) (r : pydict) :
  MailboxLayer.interpret email data = inr r ->
  exists b, Dict.get r "is_valid" = VBool b.
Proof.
  unfold MailboxLayer.interpret.
  destruct data as [| | | | |l|d]; simpl; try discriminate.
  - destruct (substring_of "error" s); simpl; discriminate.
  - destruct (existsb (eq_str "error") l); simpl; discriminate.
  - destruct (Dict.contains "error" d); simpl.
    + destruct (Dict.lookup "error" d) as [err|]; simpl; [|discriminate].
      destruct (py_getitem err "info"); simpl; discriminate.
    + destruct (Dict.contains "free" d); simpl; intros [= <-];
        eexists; reflexivity.
Qed.

Lemma hunter_verdict (email : string) (body : pyval) (r : pydict) :
  Hunter.interpret email body = inr r ->
  exists b, Dict.get r "is_valid" = VBool b.
Proof.
  unfold Hunter.interpret.
  destruct body; simpl; try discriminate.
  destruct (Dict.get_default d "data" (VDict [])); simpl; try discriminate.
  intros [= <-]. eexists. reflexivity.
Qed.

(** X25: the verdict of ZeroBounce, MailboxLayer and Hunter is tri-state
    whatever the provider answers: [is_valid] is [True], [False] or
    [None].  NeutrinoAPI and Spokeo hand on the provider's own field
    (["valid"], ["found"]) as it is, so their [is_valid] is whatever value
    the payload holds there. *)
Theorem verdict_is_tri_state (env : Env) (a : adapter) (email : string)
        (n : network) :
  match a with
  | ZeroBounceService _ | MailboxLayerService _ | HunterService _ =>
      tri_state (Dict.get (fst (Adapter.verify_email env a email n)) "is_valid")
  | NeutrinoAPIService _ _ =>
      forall d,
        Adapter.has_credentials a = true ->
        (forall req, http env (clock n) req = Json (VDict d)) ->
        Dict.get (fst (Adapter.verify_email env a email n)) "is_valid"
        = Dict.get_default d "valid" (VBool false)
  | SpokeoService _ =>
      forall d,
        Adapter.has_credentials a = true ->
        (forall req, http env (clock n) req = Json (VDict d)) ->
        Dict.get (fst (Adapter.verify_email env a email n)) "is_valid"
        = Dict.get_default d "found" (VBool false)
  end.
Proof.
  destruct a as [k|k|u k|k|k]; simpl.
  - unfold ZeroBounce.verify_email.
    destruct (key_of k); [|left; reflexivity].
    unfold bind, requests_call, ret; simpl.
    destruct (http env (clock n) _) as [e|data]; [left; reflexivity|].
    destruct (ZeroBounce.interpret email data) as [e|r] eqn:Hr;
      [left; reflexivity|].
    right. exact (zerobounce_verdict _ _ _ Hr).
  - unfold MailboxLayer.verify_email.
    destruct (key_of k); [|left; reflexivity].
    unfold bind, requests_call, ret; simpl.
    destruct (http env (clock n) _) as [e|data]; [left; reflexivity|].
    destruct (MailboxLayer.interpret email data) as [e|r] eqn:Hr;
      [left; reflexivity|].
    right. exact (mailboxlayer_verdict _ _ _ Hr).
  - intros d Hcred Hresp.
    unfold NeutrinoAPI.verify_email.
    apply andb_true_iff in Hcred. destruct Hcred as [Hk Hu].
    destruct (key_of_configured _ Hk) as (key & -> & _).
    destruct (key_of_configured _ Hu) as (uid & -> & _).
    unfold bind, requests_call, ret; simpl. rewrite Hresp.
    unfold NeutrinoAPI.interpret; simpl.
    destruct (Dict.contains "is-freemail" d); reflexivity.
  - intros d Hcred Hresp.
    unfold Spokeo.verify_email.
    destruct (key_of_configured _ Hcred) as (key & -> & _).
    unfold bind, requests_call, ret; simpl. rewrite Hresp. reflexivity.
  - unfold Hunter.verify_email.
    destruct (key_of k); [|left; reflexivity].
    unfold bind, requests_call, ret; simpl.
    destruct (http env (clock n) _) as [e|body]; [left; reflexivity|].
    destruct (Hunter.interpret email body) as [e|r] eqn:Hr;
      [left; reflexivity|].
    right. exact (hunter_verdict _ _ _ Hr).
Qed.

Lemma persist_keeps (env : Env) (rs : list pydict)
      (table : list EmailVerification) (row : EmailVerification) :
  In row table -> In row (persist env rs table).
Proof.
  revert table.
  induction rs as [|r rs IH]; intros table Hin; simpl; [exact Hin|].
  apply IH. unfold store_db.
  destruct (negb (truthy (VDict r)) || negb (Dict.contains "email" r));
    [exact Hin|].
  destruct (commit_ok env table (row_of r)); [|exact Hin].
  apply in_or_app. now left.
Qed.

Lemma persist_stores (env : Env) (rs : list pydict)
      (table : list EmailVerification) (r : pydict) :
  (forall t row, commit_ok env t row = true) ->
  In r rs ->
  r <> [] ->
  Dict.contains "email" r = true ->
  In (row_of r) (persist env rs table).
Proof.
  intros Hhealthy Hin Hne Hmail. revert table.
  induction rs as [|r0 rs IH]; intros table; [contradiction|].
  simpl. destruct Hin as [->|Hin]; [|now apply IH].
  apply persist_keeps. unfold store_db.
  destruct r as [|kv r]; [contradiction|]. simpl truthy. simpl negb.
  rewrite Hmail. simpl. rewrite Hhealthy.
  apply in_or_app. right. now left.
Qed.

(** X26: a result whose score is present and cannot be added to a float:
    it is not a number ([TypeError]), or an int too large for a float
    ([OverflowError]).  The addition to the running total raises after the
    result was stored, and the [except] clause of the loop overwrites the
    entry: the [results] mapping shows the error for that provider, while
    the table (when the database accepts the insert) holds the row of the
    result the adapter returned. *)
Theorem non_numeric_score (env : Env) (services : registry) (email : string)
        (w : world) (name : string) (r : pydict) (e : pyexn) :
  NoDup (map fst services) ->
  (forall table row, commit_ok env table row = true) ->
  In (name, Returned r) (dispatched env services email w) ->
  Dict.contains "email" r = true ->
  Dict.get r "score" <> VNone ->
  number_of (Dict.get r "score") = inl e ->
  exists agg w' res,
    Manager.verify_email env services email None w = (Returned agg, w')
    /\ Dict.get agg "results" = VDict res
    /\ Dict.lookup name res
       = Some (VDict [("email", VStr email);
                      ("error", VStr (str_exc env e));
                      ("provider", VStr name)])
    /\ In (row_of r) (db w').
Proof.
  intros Hnd Hhealthy Hin Hmail Hsome Hnum.
  pose proof (available_nonempty env services email w _ Hin) as Hne.
  destruct (results_of_call env services email w Hnd Hne)
    as (agg & w' & res & Hrun & Hres & _ & _ & _ & Hentry & Hdb).
  exists agg, w', res.
  split; [exact Hrun|]. split; [exact Hres|].
  split.
  - pose proof (Hentry _ Hin) as Hlook. cbn [fst] in Hlook. rewrite Hlook.
    unfold entry, reported_score. cbn [fst snd]. rewrite Hnum.
    destruct (Dict.get r "score"); [contradiction| | | | | |]; reflexivity.
  - rewrite Hdb. apply persist_stores; auto.
    + apply pick_In. exists (name, Returned r). split; [|reflexivity].
      apply (Permutation_in _ (Permutation_sym (completed_perm env services email w))).
      exact Hin.
    + intros ->. discriminate.
Qed.

Lemma non_numeric_score_witness :
  exists agg w' res,
    Manager.verify_email env_hunter_text_score (Manager.init env_hunter_text_score)
                         "a@x.com" None world0
    = (Returned agg, w')
    /\ Dict.get agg "results" = VDict res
    /\ Dict.lookup "hunter" res
       = Some (VDict [("email", VStr "a@x.com");
                      ("error", VStr "unsupported operand type");
                      ("provider", VStr "hunter")])
    /\ In (row_of [("email", VStr "a@x.com"); ("is_valid", VBool true);
                   ("score", VStr "high"); ("provider", VStr "hunter");
                   ("details", VDict [("status", VStr "valid");
                                      ("score", VStr "high")])])
          (db w').
Proof.
  apply (non_numeric_score env_hunter_text_score
                           (Manager.init env_hunter_text_score) "a@x.com" world0
                           "hunter"
                           [("email", VStr "a@x.com"); ("is_valid", VBool true);
                            ("score", VStr "high"); ("provider", VStr "hunter");
                            ("details", VDict [("status", VStr "valid");
                                               ("score", VStr "high")])]
                           (TypeError (VStr "high"))).
  - vm_compute. repeat constructor; simpl; intuition discriminate.
  - reflexivity.
  - vm_compute. left. reflexivity.
  - reflexivity.
  - discriminate.
  - reflexivity.
Defined.

(** X27: an exception that leaves a service named by the caller is not
    caught: [verify_email] raises it and stores nothing.  (An aggregate
    call turns the same exception into an entry of [results].) *)
Theorem named_service_exception_escapes (env : Env) (services : registry)
        (email name : string) (service : Service) (e : pyexn) (n' : network)
        (w : world) :
  name <> "" ->
  find_service name services = Some service ->
  svc_verify_email service email (net w) = (Raised e, n') ->
  Manager.verify_email env services email (Some name) w
  = (Raised e, {| db := db w; net := n' |}).
Proof.
  intros Hname Hfind Hrun.
  assert (key_of (Some name) = Some name) as Hkey.
  { simpl. destruct (String.eqb_spec name ""); [contradiction|reflexivity]. }
  rewrite (verify_named_unfold env services email name (Some name) service w
                               Hkey Hfind).
  now rewrite Hrun.
Qed.

Lemma named_service_exception_escapes_witness :
  Manager.verify_email env_bare broken_registry "a@x.com" (Some "alpha") world0
  = (Raised (OtherError "worker died"), {| db := db world0; net := net0 |}).
Proof.
  apply (named_service_exception_escapes env_bare broken_registry "a@x.com"
           "alpha" (stub (Raised (OtherError "worker died")))
           (OtherError "worker died") net0 world0).
  - discriminate.
  - reflexivity.
  - reflexivity.
Defined.

(** X28: the names [get_available_services] lists are exactly the names
    of the registry whose service holds a key, so [verify_email] with a
    listed name finds its service.  The list has no duplicates. *)
Theorem available_services_are_registered (services : registry) (name : string) :
  NoDup (map fst services) ->
  NoDup (Manager.get_available_services services)
  /\ (In name (Manager.get_available_services services)
      <-> exists service,
            find_service name services = Some service
            /\ has_api_key service = true).
Proof.
  intros Hnd. split; [now apply available_nodup|].
  unfold Manager.get_available_services, Manager.enabled.
  induction services as [|[n s] rest IH]; simpl.
  - split; [contradiction|]. now intros (service & H & _).
  - inversion Hnd as [|? ? Hhd Hnd']; subst.
    destruct (String.eqb_spec name n) as [->|Hneq].
    + split.
      * intros Hin. exists s. split; [reflexivity|].
        destruct (has_api_key s) eqn:Hs; [reflexivity|].
        exfalso. apply Hhd. simpl in Hin.
        apply in_map_iff in Hin. destruct Hin as (x & Hx & Hin).
        apply filter_In in Hin. apply in_map_iff. exists x. tauto.
      * intros (service & [= <-] & Hs). simpl. rewrite Hs. now left.
    + rewrite <- (IH Hnd'). simpl.
      destruct (has_api_key s); simpl; [|reflexivity].
      split; [intros [Heq|Hin]; [congruence|exact Hin]|now right].
Qed.

Lemma available_services_are_registered_witness :
  NoDup (Manager.get_available_services (Manager.init env_hunter))
  /\ (In "hunter" (Manager.get_available_services (Manager.init env_hunter))
      <-> exists service,
            find_service "hunter" (Manager.init env_hunter) = Some service
            /\ has_api_key service = true).
Proof.
  apply (available_services_are_registered (Manager.init env_hunter) "hunter").
  vm_compute. repeat constructor; simpl; intuition discriminate.
Defined.
